(** * Sponsored USDC transfer: a shallow embedding of the orchestration code

    The development follows the TypeScript sources:
    - [src/hooks/useTransfer.ts]      ([hexToUint8Array], [transferUSDC]),
    - [src/app/api/usdc-balance/route.ts] ([POST], the balance aggregator),
    - [src/hooks/useWalletBalances.ts]    ([fetchUSDCBalance]),
    - the component [MetaKeepApp]     (the insufficient-USDC gate and
      [handleTransferUSDC]),
    - [src/lib/env.ts]                ([assertEnv], [requirePublicEnv]).

    JavaScript strings are sequences of UTF-16 code units, numbers are IEEE
    binary64 values (Corelib's [spec_float] at precision 53), a [Uint8Array] is
    a list of integers in 0..255 updated by index, and asynchronous code that
    may throw is written in a state-and-exception monad that also records the
    external calls it makes, in order. *)

From Stdlib Require Import ZArith NArith List String Ascii Bool Lia.
From Stdlib Require Import DecimalString HexadecimalString.
From Stdlib Require Import Floats.SpecFloat.
From stdpp Require Import base list.
Import ListNotations.

Local Open Scope Z_scope.

(** ** JavaScript strings *)

Module JS.

(** A string is a list of UTF-16 code units. *)
Definition code_unit := N.
Definition jsstring := list code_unit.

(** String literals of the source, written as Rocq strings. *)
Definition js (s : string) : jsstring :=
  map N_of_ascii (list_ascii_of_string s).

Fixpoint jsstring_eqb (a b : jsstring) : bool :=
  match a, b with
  | [], [] => true
  | x :: a', y :: b' => N.eqb x y && jsstring_eqb a' b'
  | _, _ => false
  end.

(** [s.startsWith(p)] *)
Fixpoint startsWith (s p : jsstring) {struct p} : bool :=
  match p, s with
  | [], _ => true
  | y :: p', x :: s' => N.eqb x y && startsWith s' p'
  | _ :: _, [] => false
  end.

(** [s.slice(start)] for a non-negative [start]. *)
Definition slice (s : jsstring) (start : nat) : jsstring := drop start s.

(** [s.substring(a, b)] for [0 <= a <= b]; both ends are clamped to the
    length of [s]. *)
Definition substring (s : jsstring) (a b : nat) : jsstring :=
  take (b - a) (drop a s).

(** [s.padStart(targetLength, pad)] *)
Definition padStart (s : jsstring) (targetLength : nat) (pad : jsstring) : jsstring :=
  if (targetLength <=? length s)%nat then s
  else match pad with
       | [] => s
       | _ :: _ =>
           let fillLen := (targetLength - length s)%nat in
           take fillLen (concat (replicate fillLen pad)) ++ s
       end.

(** [parts.join("")] *)
Definition join_empty (parts : list jsstring) : jsstring := concat parts.

(** WhiteSpace and LineTerminator code units, as skipped by [parseInt],
    [parseFloat] and [trim]. *)
Definition isWhiteSpace (c : code_unit) : bool :=
  match c with
  | 9%N | 10%N | 11%N | 12%N | 13%N | 32%N | 160%N
  | 5760%N | 8232%N | 8233%N | 8239%N | 8287%N | 12288%N | 65279%N => true
  | _ => (8192 <=? c)%N && (c <=? 8202)%N
  end.

Fixpoint trimStart (s : jsstring) : jsstring :=
  match s with
  | c :: s' => if isWhiteSpace c then trimStart s' else s
  | [] => []
  end.

Definition trim (s : jsstring) : jsstring :=
  rev (trimStart (rev (trimStart s))).

(** The value of a code unit as a digit, for radices up to 36. *)
Definition digitValue (c : code_unit) : option Z :=
  if ((48 <=? c) && (c <=? 57))%N then Some (Z.of_N c - 48)
  else if ((97 <=? c) && (c <=? 122))%N then Some (Z.of_N c - 87)
  else if ((65 <=? c) && (c <=? 90))%N then Some (Z.of_N c - 55)
  else None.

Definition radixDigit (R : Z) (c : code_unit) : option Z :=
  match digitValue c with
  | Some d => if d <? R then Some d else None
  | None => None
  end.

(** The longest prefix of radix-[R] digits of [s], read as an integer;
    [None] when that prefix is empty. *)
Fixpoint radixPrefix (R : Z) (s : jsstring) (acc : option Z) : option Z :=
  match s with
  | c :: s' =>
      match radixDigit R c with
      | Some d => radixPrefix R s' (Some (match acc with
                                          | Some a => a * R + d
                                          | None => d
                                          end))
      | None => acc
      end
  | [] => acc
  end.

(** [parseInt(s, radix)] for an explicit radix in 2..36.  The result is the
    integer read ([None] is NaN).  The source only calls it on chunks of at
    most two code units, where the value is below 256 in magnitude and hence
    an exact Number; [-0] is not told apart from [0] (both are stored as byte
    0). *)
Definition parseInt (s : jsstring) (radix : Z) : option Z :=
  let trimmed := trimStart s in
  let '(sign, body) :=
    match trimmed with
    | 45%N :: rest => (-1, rest)
    | 43%N :: rest => (1, rest)
    | _ => (1, trimmed)
    end in
  if (radix <? 2) || (36 <? radix) then None
  else
    let body := if radix =? 16
                then match body with
                     | 48%N :: 120%N :: rest => rest
                     | 48%N :: 88%N :: rest => rest
                     | _ => body
                     end
                else body in
    match radixPrefix radix body None with
    | Some v => Some (sign * v)
    | None => None
    end.

(** [n.toString(16)] for an integer [n]. *)
Definition toString16 (n : Z) : jsstring :=
  let digits := js (HexadecimalString.NilZero.string_of_uint (N.to_hex_uint (Z.to_N (Z.abs n)))) in
  if n <? 0 then js "-" ++ digits else digits.

(** The decimal digits of a natural number, as [String(n)] prints them. *)
Definition decimalDigits (n : Z) : jsstring :=
  js (DecimalString.NilZero.string_of_uint (N.to_uint (Z.to_N n))).

(** *** Typed arrays *)

(** A [Uint8Array]: its elements are integers in 0..255. *)
Definition Uint8Array := list Z.

(** [new Uint8Array(len)]: [len] zero bytes.  The source passes
    [cleanHex.length / 2]; a fractional length is truncated (ToIndex,
    ECMAScript 2017 and later), which is the division on [nat] at the call
    site. *)
Definition Uint8Array_new (len : nat) : Uint8Array := replicate len 0.

(** ToUint8 of the stored Number: NaN becomes 0, integers wrap modulo 256. *)
Definition ToUint8 (v : option Z) : Z :=
  match v with
  | Some z => z mod 256
  | None => 0
  end.

(** [bytes[i] = v]: a store outside the array is ignored. *)
Definition Uint8Array_set (bytes : Uint8Array) (i : nat) (v : option Z) : Uint8Array :=
  <[ i := ToUint8 v ]> bytes.

(** *** Completions *)

(** A thrown value: an [Error] object with its message, or any other value. *)
Inductive thrown :=
| ErrorObj (message : jsstring)
| NonError.

(** The completion of a call: it returns a value or throws. *)
Inductive completion (A : Type) :=
| Normal (a : A)
| Throw (e : thrown).
Arguments Normal {A} a.
Arguments Throw {A} e.

(** *** Numbers *)

(** A Number is an IEEE binary64 value. *)
Definition Number := spec_float.
Definition prec : Z := 53.
Definition emax : Z := 1024.

Definition NaN : Number := S754_nan.

(** The Number of an integer (exact below 2^53, rounded to nearest above). *)
Definition Number_of_Z (z : Z) : Number := binary_normalize prec emax z 0 false.

(** The Number nearest to the ratio [p / q] of naturals, [q > 0], with the
    given sign: the value of a decimal literal or of a parsed decimal
    string. *)
Definition Number_of_ratio (neg : bool) (p q : Z) : Number :=
  if p =? 0 then S754_zero neg
  else let '(m, e, l) := SFdiv_core_binary prec emax p 0 q 0 in
       binary_round_aux prec emax neg m e l.

(** The decimal literal [p * 10^-k], e.g. [decimal 1 2] is [0.01]. *)
Definition decimal (p : Z) (k : nat) : Number :=
  Number_of_ratio false p (10 ^ Z.of_nat k).

Definition Number_add : Number -> Number -> Number := SFadd prec emax.
Definition Number_mul : Number -> Number -> Number := SFmul prec emax.
(** [x < y] *)
Definition Number_lt : Number -> Number -> bool := SFltb.

(** [Number.isFinite(x)] *)
Definition Number_isFinite (x : Number) : bool :=
  match x with
  | S754_zero _ | S754_finite _ _ _ => true
  | S754_infinity _ | S754_nan => false
  end.

(** ToBoolean on a Number: [0], [-0] and [NaN] are falsy. *)
Definition Number_truthy (x : Number) : bool :=
  match x with
  | S754_zero _ | S754_nan => false
  | S754_infinity _ | S754_finite _ _ _ => true
  end.

(** [Math.floor(x)] *)
Definition Math_floor (x : Number) : Number :=
  match x with
  | S754_finite s m e =>
      let v := if s then Z.neg m else Z.pos m in
      let fl := if 0 <=? e then v * 2 ^ e else v / 2 ^ (- e) in
      Number_of_Z fl
  | _ => x
  end.

(** The integer value of a Number that is an integer. *)
Definition Number_to_Z (x : Number) : option Z :=
  match x with
  | S754_zero _ => Some 0
  | S754_finite s m e =>
      let v := if s then Z.neg m else Z.pos m in
      if 0 <=? e then Some (v * 2 ^ e)
      else if v mod 2 ^ (- e) =? 0 then Some (v / 2 ^ (- e)) else None
  | _ => None
  end.

(** [x.toFixed(f)].  The integer [n] for which [n / 10^f - |x|] is closest to
    zero (the larger one on a tie) is printed with [f] fraction digits.  For
    [|x| >= 10^21] the result is [String(x)], taken from the run-time
    ([toStringLarge]). *)
Definition toFixed (toStringLarge : Number -> jsstring) (x : Number) (f : nat) : jsstring :=
  match x with
  | S754_nan => js "NaN"
  | S754_infinity s => if s then js "-Infinity" else js "Infinity"
  | S754_zero _ | S754_finite _ _ _ =>
      let '(s, m, e) := match x with
                        | S754_finite s m e => (s, Z.pos m, e)
                        | _ => (false, 0, 0)
                        end in
      let big := if 0 <=? e then 10 ^ 21 <=? m * 2 ^ e
                 else 10 ^ 21 * 2 ^ (- e) <=? m in
      if big then toStringLarge x
      else
        let scale := 10 ^ Z.of_nat f in
        let n := if 0 <=? e then scale * m * 2 ^ e
                 else (2 * scale * m + 2 ^ (- e)) / (2 * 2 ^ (- e)) in
        let digits := decimalDigits n in
        let digits := if (length digits <=? f)%nat
                      then replicate (f + 1 - length digits)%nat 48%N ++ digits
                      else digits in
        let k := length digits in
        let body := if (f =? 0)%nat then digits
                    else take (k - f) digits ++ js "." ++ drop (k - f) digits in
        (if s then js "-" else []) ++ body
  end.

Definition isDigit (c : code_unit) : bool := ((48 <=? c) && (c <=? 57))%N.

(** The longest run of decimal digits at the start of [s], and the rest. *)
Fixpoint takeDigits (s : jsstring) : list Z * jsstring :=
  match s with
  | c :: s' =>
      if isDigit c
      then let '(ds, rest) := takeDigits s' in (Z.of_N c - 48 :: ds, rest)
      else ([], s)
  | [] => ([], [])
  end.

Definition digitsValue (ds : list Z) : Z :=
  fold_left (fun a d => a * 10 + d) ds 0.

(** The exponent part [e[+-]digits] at the start of [s]; 0 when there is
    none. *)
Definition exponentPart (s : jsstring) : Z :=
  match s with
  | c :: rest =>
      if (c =? 101)%N || (c =? 69)%N then
        let '(sgn, rest') := match rest with
                             | 45%N :: r => (-1, r)
                             | 43%N :: r => (1, r)
                             | _ => (1, rest)
                             end in
        sgn * digitsValue (fst (takeDigits rest'))
      else 0
  | [] => 0
  end.

(** [parseFloat(s)]: the Number of the longest prefix of the trimmed string
    that is a decimal literal, NaN when there is none. *)
Definition parseFloat (s : jsstring) : Number :=
  let t := trimStart s in
  let '(neg, t) := match t with
                   | 45%N :: r => (true, r)
                   | 43%N :: r => (false, r)
                   | _ => (false, t)
                   end in
  if startsWith t (js "Infinity") then S754_infinity neg
  else
    let '(ip, r1) := takeDigits t in
    let '(fp, r2) := match r1 with
                     | 46%N :: r => takeDigits r
                     | _ => ([], r1)
                     end in
    match ip, fp with
    | [], [] => NaN
    | _, _ =>
        let mant := digitsValue (ip ++ fp) in
        let e10 := exponentPart r2 - Z.of_nat (length fp) in
        if 0 <=? e10 then Number_of_ratio neg (mant * 10 ^ e10) 1
        else Number_of_ratio neg mant (10 ^ (- e10))
    end.

(** [s.replace(pat, "")] for a string pattern: the first occurrence of
    [pat] is removed. *)
Fixpoint removeFirst (fuel : nat) (s pat : jsstring) : jsstring :=
  if startsWith s pat then drop (length pat) s
  else match fuel, s with
       | S fuel', c :: s' => c :: removeFirst fuel' s' pat
       | _, _ => s
       end.

Definition replace_with_empty (s pat : jsstring) : jsstring :=
  removeFirst (length s) s pat.

(** *** JSON *)

(** JSON values, as [JSON.parse] produces and [JSON.stringify] prints
    them. *)
#[warnings="-register-all"]
Inductive Json :=
| JNull
| JBool (b : bool)
| JNumber (x : Number)
| JString (s : jsstring)
| JArray (items : list Json)
| JObject (fields : list (jsstring * Json)).

Definition isLeadSurrogate (c : code_unit) : bool := ((55296 <=? c) && (c <=? 56319))%N.
Definition isTrailSurrogate (c : code_unit) : bool := ((56320 <=? c) && (c <=? 57343))%N.

(** [\uXXXX] with four lower-case hexadecimal digits *)
Definition unicodeEscape (c : code_unit) : jsstring :=
  js "\u" ++ padStart (toString16 (Z.of_N c)) 4 (js "0").

(** One code unit inside a JSON string literal (QuoteJSONString). *)
Definition quoteUnit (c : code_unit) : jsstring :=
  match c with
  | 8%N => js "\b"
  | 9%N => js "\t"
  | 10%N => js "\n"
  | 12%N => js "\f"
  | 13%N => js "\r"
  | 34%N => [92%N; 34%N]
  | 92%N => js "\\"
  | _ => if (c <? 32)%N then unicodeEscape c else [c]
  end.

(** The characters of a JSON string literal: a surrogate pair is kept, a
    lone surrogate is escaped. *)
Fixpoint quoteChars (s : jsstring) : jsstring :=
  match s with
  | [] => []
  | c :: rest =>
      if isLeadSurrogate c
      then match rest with
           | c2 :: rest' =>
               if isTrailSurrogate c2 then c :: c2 :: quoteChars rest'
               else unicodeEscape c ++ quoteChars rest
           | [] => unicodeEscape c
           end
      else if isTrailSurrogate c then unicodeEscape c ++ quoteChars rest
      else quoteUnit c ++ quoteChars rest
  end.

Definition quoteJSONString (s : jsstring) : jsstring :=
  [34%N] ++ quoteChars s ++ [34%N].

(** [parts.join(",")] *)
Fixpoint join_comma (parts : list jsstring) : jsstring :=
  match parts with
  | [] => []
  | [x] => x
  | x :: rest => x ++ js "," ++ join_comma rest
  end.

(** [JSON.stringify(v)] without indentation; [toString] is [String(x)] on
    Numbers, taken from the run-time. *)
Fixpoint JSON_stringify (toString : Number -> jsstring) (v : Json) : jsstring :=
  match v with
  | JNull => js "null"
  | JBool b => if b then js "true" else js "false"
  | JNumber x => if Number_isFinite x then toString x else js "null"
  | JString s => quoteJSONString s
  | JArray items => js "[" ++ join_comma (map (JSON_stringify toString) items) ++ js "]"
  | JObject fields =>
      js "{"
      ++ join_comma (map (fun kv => quoteJSONString (fst kv) ++ js ":"
                                    ++ JSON_stringify toString (snd kv)) fields)
      ++ js "}"
  end.

End JS.

Import JS.

(** ** The byte codec of [useTransfer.ts] *)

Module Codec.

(** The body of the [for] loop of [hexToUint8Array], from index [i] on:
    [for (; i < cleanHex.length; i += 2) bytes[i / 2] = parseInt(cleanHex.substring(i, i + 2), 16)].
    [fuel] bounds the number of iterations. *)
Fixpoint hexLoop (fuel : nat) (cleanHex : jsstring) (i : nat) (bytes : Uint8Array) : Uint8Array :=
  match fuel with
  | O => bytes
  | S fuel' =>
      if (i <? length cleanHex)%nat
      then hexLoop fuel' cleanHex (i + 2)
             (Uint8Array_set bytes (i / 2) (parseInt (substring cleanHex i (i + 2)) 16))
      else bytes
  end.

(** [const hexToUint8Array = (hex: string) => { ... }] *)
Definition hexToUint8Array (hex : jsstring) : completion Uint8Array :=
  let cleanHex := if startsWith hex (js "0x") then slice hex 2 else hex in
  let bytes := Uint8Array_new (length cleanHex / 2) in
  let bytes := hexLoop (length cleanHex) cleanHex 0 bytes in
  Normal bytes.

(** The encoder written in line in [transferUSDC]:
    [`0x${Array.from(serializedMessage).map((byte) => byte.toString(16).padStart(2, "0")).join("")}`] *)
Definition byteToHex (byte : Z) : jsstring :=
  padStart (toString16 byte) 2 (js "0").

Definition toHex (serializedMessage : Uint8Array) : jsstring :=
  js "0x" ++ join_empty (map byteToHex serializedMessage).

End Codec.

Import Codec.

(** ** Transactions of @solana/web3.js and instructions of @solana/spl-token

    The libraries are not part of the repository.  Their values are modelled
    by the fields the orchestrator sets and reads; what they compute from
    them (byte layouts, validation) is supplied by the [World]. *)

Module Solana.

Record PublicKey := mkPublicKey { pk_bytes : list Z }.

Definition PublicKey_eqb (a b : PublicKey) : bool :=
  bool_decide (pk_bytes a = pk_bytes b).

Definition Blockhash := jsstring.

(** The two instructions the orchestrator creates:
    [createAssociatedTokenAccountInstruction(payer, associatedToken, owner, mint)]
    and [createTransferInstruction(source, destination, owner, amount)]. *)
Inductive Instruction :=
| CreateAssociatedTokenAccount (payer associatedToken owner mint : PublicKey)
| TokenTransfer (source destination owner : PublicKey) (amount : Number).

(** The accounts an instruction marks as signers: the funding [payer] of an
    account creation, the [owner] of the source account of a transfer. *)
Definition instruction_signers (i : Instruction) : list PublicKey :=
  match i with
  | CreateAssociatedTokenAccount payer _ _ _ => [payer]
  | TokenTransfer _ _ owner _ => [owner]
  end.

Record Transaction := mkTransaction {
  instructions : list Instruction;
  feePayer : option PublicKey;
  recentBlockhash : option Blockhash;
  signatures : list (PublicKey * Uint8Array)
}.

(** [new Transaction()] *)
Definition Transaction_new : Transaction :=
  {| instructions := []; feePayer := None; recentBlockhash := None; signatures := [] |}.

(** [tx.add(instruction)] *)
Definition Transaction_add (tx : Transaction) (i : Instruction) : Transaction :=
  {| instructions := instructions tx ++ [i];
     feePayer := feePayer tx;
     recentBlockhash := recentBlockhash tx;
     signatures := signatures tx |}.

(** [tx.recentBlockhash = blockhash] *)
Definition set_recentBlockhash (tx : Transaction) (b : Blockhash) : Transaction :=
  {| instructions := instructions tx;
     feePayer := feePayer tx;
     recentBlockhash := Some b;
     signatures := signatures tx |}.

(** [tx.feePayer = key] *)
Definition set_feePayer (tx : Transaction) (k : PublicKey) : Transaction :=
  {| instructions := instructions tx;
     feePayer := Some k;
     recentBlockhash := recentBlockhash tx;
     signatures := signatures tx |}.

(** The signature slot of [k] is filled with [sig]. *)
Fixpoint put_signature (sigs : list (PublicKey * Uint8Array)) (k : PublicKey) (sig : Uint8Array)
  : list (PublicKey * Uint8Array) :=
  match sigs with
  | [] => [(k, sig)]
  | (k', s') :: rest =>
      if PublicKey_eqb k' k then (k, sig) :: rest
      else (k', s') :: put_signature rest k sig
  end.

Definition set_signature (tx : Transaction) (k : PublicKey) (sig : Uint8Array) : Transaction :=
  {| instructions := instructions tx;
     feePayer := feePayer tx;
     recentBlockhash := recentBlockhash tx;
     signatures := put_signature (signatures tx) k sig |}.

(** The message of a transaction: everything the signatures cover, that is
    everything but the signatures. *)
Record Message := mkMessage {
  msg_feePayer : option PublicKey;
  msg_recentBlockhash : option Blockhash;
  msg_instructions : list Instruction
}.

Definition compileMessage (tx : Transaction) : Message :=
  {| msg_feePayer := feePayer tx;
     msg_recentBlockhash := recentBlockhash tx;
     msg_instructions := instructions tx |}.

(** The keys that have to sign a transaction: its fee payer and the signers
    of its instructions. *)
Definition required_signers (tx : Transaction) : list PublicKey :=
  match feePayer tx with
  | Some k => [k]
  | None => []
  end ++ concat (map instruction_signers (instructions tx)).

End Solana.

Import Solana.

(** ** The world outside the repository *)

Module Ext.

(** The body posted to [/api/metakeep-sign]: the setup request carries the
    base64 text of the serialized setup transaction (kept as its bytes) and a
    wallet id; the sponsor request carries the hex text of the message. *)
Inductive SignRequest :=
| SignSetup (transaction : Uint8Array) (walletId : jsstring)
| SignSponsor (serializedTransactionMessage : jsstring) (reason : jsstring).

(** The JSON body of a signing response; absent fields are [None]. *)
Record SignResponseBody := mkSignResponseBody {
  status : option jsstring;
  signature : option jsstring;
  message : option jsstring
}.

(** A [fetch] response: [ok] and the result of [json()]. *)
Record HttpResponse := mkHttpResponse {
  ok : bool;
  json : completion SignResponseBody
}.

(** What [sdk.signTransaction] resolves to. *)
Record SdkSignature := mkSdkSignature { sdk_signature : jsstring }.

(** The account data returned by [getAccountInfo]. *)
Definition AccountInfo := Uint8Array.

(** [confirmation.value.err] when the ledger reports an error: the name of
    the error, a non-empty string, or an object such as
    [{"InstructionError":[0,{"Custom":1}]}]; [null] is [None] where the
    value is used. *)
Inductive TransactionError :=
| ErrorName (first : code_unit) (rest : jsstring)
| ErrorObject (fields : list (jsstring * Json)).

Definition TransactionError_value (err : TransactionError) : Json :=
  match err with
  | ErrorName first rest => JString (first :: rest)
  | ErrorObject fields => JObject fields
  end.

Record World := mkWorld {
  (** [process.env] *)
  NEXT_PUBLIC_USDC_MINT_DEVNET : option jsstring;
  NEXT_PUBLIC_TRANSFER_AMOUNT : option jsstring;
  (** run-time conversions that are not modelled: [String(x)] and
      [Number(s)] *)
  Number_toString : Number -> jsstring;
  String_toNumber : jsstring -> Number;
  (** @solana/web3.js and @solana/spl-token *)
  PublicKey_new : jsstring -> completion PublicKey;
  getAssociatedTokenAddress : PublicKey -> PublicKey -> completion PublicKey;
  createTransferInstruction_check : Number -> option thrown;
  addSignature_check : Transaction -> PublicKey -> Uint8Array -> option thrown;
  Message_serialize : Message -> completion Uint8Array;
  Transaction_serialize : Transaction -> bool -> completion Uint8Array;
  (** the ledger RPC, the sender's signer and the signing proxy *)
  getAccountInfo : PublicKey -> completion (option AccountInfo);
  getLatestBlockhash : completion Blockhash;
  sendRawTransaction : Uint8Array -> completion jsstring;
  confirmTransaction : jsstring -> completion (option TransactionError);
  sdk_signTransaction : Transaction -> jsstring -> completion (option SdkSignature);
  fetch_metakeep_sign : SignRequest -> completion HttpResponse
}.

(** The external calls of one attempt, in the order they are made. *)
Inductive Event :=
| EvGetAccountInfo (address : PublicKey)
| EvMetakeepSign (body : SignRequest)
| EvGetLatestBlockhash
| EvSdkSign (tx : Transaction) (memo : jsstring)
| EvSendRawTransaction (raw : Uint8Array)
| EvConfirmTransaction (txid : jsstring).

End Ext.

Import Ext.

(** ** [src/lib/env.ts] *)

Module Env.

(** [assertEnv(value, name, fallback)] *)
Definition assertEnv (value : option jsstring) (name : jsstring) (fallback : option jsstring)
  : completion jsstring :=
  let resolved := match value with
                  | Some v => Some v
                  | None => fallback
                  end in
  match resolved with
  | Some (c :: r) => Normal (c :: r)
  | Some [] | None =>
      Throw (ErrorObj (js "Missing required environment variable: " ++ name
                       ++ js ". Please ensure it is set in your .env file and restart the development server."))
  end.

(** [requirePublicEnv(name, fallback)], with [value] the entry of
    [publicEnv] for [name]. *)
Definition requirePublicEnv (value : option jsstring) (name : jsstring) (fallback : option jsstring)
  : completion jsstring :=
  assertEnv value name fallback.

End Env.

Import Env.

(** ** [src/hooks/useTransfer.ts]: the transfer hook *)

Module Transfer.

(** [interface TransferState] *)
Record TransferState := mkTransferState {
  isTransferring : bool;
  error : option jsstring;
  success : bool
}.

(** The value given to [useState] in [useTransfer]. *)
Definition initialTransferState : TransferState :=
  {| isTransferring := false; error := None; success := false |}.

(** What [transferUSDC] resolves to. *)
Record TransferResult := mkTransferResult {
  res_signature : jsstring;
  res_success : bool;
  res_userSignature : SdkSignature;
  res_developerSignature : SignResponseBody
}.

(** The state threaded through an attempt: the hook's [transferState] and the
    external calls made so far. *)
Record RunState := mkRunState {
  hook : TransferState;
  trace : list Event
}.

(** Computations that read and write the run state and may throw. *)
Definition M (A : Type) : Type := RunState -> completion A * RunState.

Definition ret {A} (a : A) : M A := fun st => (Normal a, st).

Definition bind {A B} (m : M A) (k : A -> M B) : M B :=
  fun st =>
    match m st with
    | (Normal a, st') => k a st'
    | (Throw e, st') => (Throw e, st')
    end.

(** [throw e] *)
Definition throw {A} (e : thrown) : M A := fun st => (Throw e, st).

(** A call of a function that touches neither the state nor the network. *)
Definition lift {A} (c : completion A) : M A := fun st => (c, st).

(** [await] of an external call: the call is recorded, then it completes. *)
Definition call {A} (ev : Event) (c : completion A) : M A :=
  fun st => (c, {| hook := hook st; trace := trace st ++ [ev] |}).

(** [setTransferState(s)] *)
Definition setTransferState (s : TransferState) : M unit :=
  fun st => (Normal tt, {| hook := s; trace := trace st |}).

(** [try { body } catch (error) { handler }] *)
Definition try_catch {A} (body : M A) (handler : thrown -> M A) : M A :=
  fun st =>
    match body st with
    | (Normal a, st') => (Normal a, st')
    | (Throw e, st') => handler e st'
    end.

Notation "x <- c1 ;; c2" := (bind c1 (fun x => c2))
  (at level 100, c1 at next level, right associativity).
Notation "c1 ;;; c2" := (bind c1 (fun _ => c2))
  (at level 100, right associativity).

(** ToBoolean on an optional string field: a missing field and the empty
    string are falsy. *)
Definition truthy (s : option jsstring) : bool :=
  match s with
  | Some (_ :: _) => true
  | Some [] | None => false
  end.

(** [a || b] on strings. *)
Definition or_else (a : option jsstring) (b : jsstring) : jsstring :=
  match a with
  | Some (c :: r) => c :: r
  | Some [] | None => b
  end.

(** [error instanceof Error ? error.message : "Unknown error"] *)
Definition errorMessage (e : thrown) : jsstring :=
  match e with
  | ErrorObj m => m
  | NonError => js "Unknown error"
  end.

(** [createTransferInstruction(source, destination, owner, amount)] *)
Definition createTransferInstruction (w : World) (source destination owner : PublicKey)
    (amount : Number) : completion Instruction :=
  match createTransferInstruction_check w amount with
  | Some e => Throw e
  | None => Normal (TokenTransfer source destination owner amount)
  end.

(** [tx.addSignature(key, signature)] *)
Definition Transaction_addSignature (w : World) (tx : Transaction) (k : PublicKey)
    (sig : Uint8Array) : completion Transaction :=
  match addSignature_check w tx k sig with
  | Some e => Throw e
  | None => Normal (set_signature tx k sig)
  end.

(** [tx.serializeMessage()] *)
Definition Transaction_serializeMessage (w : World) (tx : Transaction) : completion Uint8Array :=
  Message_serialize w (compileMessage tx).

(** The keys resolved at lines 60-66. *)
Record Keys := mkKeys {
  usdcMint : PublicKey;
  userAPublicKey : PublicKey;
  userBPublicKey : PublicKey;
  devPublicKey : PublicKey;
  userAATA : PublicKey;
  userBATA : PublicKey
}.

(** Lines 60-66: the mint, the three public keys and the two derived token
    accounts. *)
Definition resolveKeys (w : World) (userAWallet userBWallet devWallet : jsstring) : M Keys :=
  mintText <- lift (requirePublicEnv (NEXT_PUBLIC_USDC_MINT_DEVNET w)
                      (js "NEXT_PUBLIC_USDC_MINT_DEVNET") None) ;;
  usdcMint <- lift (PublicKey_new w mintText) ;;
  userAPublicKey <- lift (PublicKey_new w userAWallet) ;;
  userBPublicKey <- lift (PublicKey_new w userBWallet) ;;
  devPublicKey <- lift (PublicKey_new w devWallet) ;;
  userAATA <- lift (getAssociatedTokenAddress w usdcMint userAPublicKey) ;;
  userBATA <- lift (getAssociatedTokenAddress w usdcMint userBPublicKey) ;;
  ret {| usdcMint := usdcMint; userAPublicKey := userAPublicKey;
         userBPublicKey := userBPublicKey; devPublicKey := devPublicKey;
         userAATA := userAATA; userBATA := userBATA |}.

(** Line 76: [new Transaction().add(createATAInstruction)], with the
    instruction of lines 70-75. *)
Definition ataTransaction (k : Keys) : Transaction :=
  let createATAInstruction :=
    CreateAssociatedTokenAccount (devPublicKey k) (userBATA k) (userBPublicKey k) (usdcMint k) in
  Transaction_add Transaction_new createATAInstruction.

(** Lines 68-90: the recipient's token account is looked up and, when it is
    absent, the setup transaction is sent to the signing proxy. *)
Definition ensureRecipientAccount (w : World) (k : Keys) : M unit :=
  userBATAInfo <- call (EvGetAccountInfo (userBATA k)) (getAccountInfo w (userBATA k)) ;;
  match userBATAInfo with
  | None =>
      raw <- lift (Transaction_serialize w (ataTransaction k) false) ;;
      let body := SignSetup raw (js "master") in
      ataResponse <- call (EvMetakeepSign body) (fetch_metakeep_sign w body) ;;
      if negb (ok ataResponse)
      then throw (ErrorObj (js "Failed to create User B USDC token account."))
      else ret tt
  | Some _ => ret tt
  end.

(** Line 92: [Math.floor(amount * 1_000_000)] *)
Definition transferAmount (amount : Number) : Number :=
  Math_floor (Number_mul amount (Number_of_Z 1000000)).

(** Lines 92-103: the transfer transaction with its blockhash and fee
    payer. *)
Definition buildTransfer (w : World) (k : Keys) (amount : Number) : M Transaction :=
  transferInstruction <- lift (createTransferInstruction w (userAATA k) (userBATA k)
                                 (userAPublicKey k) (transferAmount amount)) ;;
  let transaction := Transaction_add Transaction_new transferInstruction in
  blockhash <- call EvGetLatestBlockhash (getLatestBlockhash w) ;;
  let transaction := set_recentBlockhash transaction blockhash in
  let transaction := set_feePayer transaction (devPublicKey k) in
  ret transaction.

(** Lines 105-115: the sender signs and the signature is attached. *)
Definition senderSign (w : World) (k : Keys) (amount : Number) (transaction : Transaction)
  : M (SdkSignature * Transaction) :=
  let memo := js "Transfer " ++ Number_toString w amount ++ js " USDC to User B" in
  userSignature <- call (EvSdkSign transaction memo) (sdk_signTransaction w transaction memo) ;;
  match userSignature with
  | None => throw (ErrorObj (js "User signature was not provided by MetaKeep."))
  | Some userSignature =>
      sigBytes <- lift (hexToUint8Array (sdk_signature userSignature)) ;;
      transaction <- lift (Transaction_addSignature w transaction (userAPublicKey k) sigBytes) ;;
      ret (userSignature, transaction)
  end.

(** The condition of line 133. *)
Definition signingFailed (developerSignature : SignResponseBody) : bool :=
  negb (match status developerSignature with
        | Some s => jsstring_eqb s (js "SUCCESS")
        | None => false
        end)
  || negb (truthy (signature developerSignature)).

(** Lines 117-141: the message is hex-encoded and sent to the sponsor's
    signer; its signature is attached. *)
Definition sponsorSign (w : World) (k : Keys) (transaction : Transaction)
  : M (SignResponseBody * Transaction) :=
  serializedMessage <- lift (Transaction_serializeMessage w transaction) ;;
  let serializedMessageHex := toHex serializedMessage in
  let body := SignSponsor serializedMessageHex
                (js "Developer gas sponsorship for USDC transfer") in
  developerSignResponse <- call (EvMetakeepSign body) (fetch_metakeep_sign w body) ;;
  if negb (ok developerSignResponse)
  then throw (ErrorObj (js "Developer signing request failed."))
  else
    developerSignature <- lift (json developerSignResponse) ;;
    if signingFailed developerSignature
    then throw (ErrorObj (or_else (message developerSignature)
                            (js "Developer signing failed without a message.")))
    else
      (* the [signature] field is present and non-empty here *)
      sigBytes <- lift (hexToUint8Array (or_else (signature developerSignature) [])) ;;
      transaction <- lift (Transaction_addSignature w transaction (devPublicKey k) sigBytes) ;;
      ret (developerSignature, transaction).

(** Lines 143-150: submission and confirmation. *)
Definition submit (w : World) (transaction : Transaction) : M jsstring :=
  raw <- lift (Transaction_serialize w transaction true) ;;
  signature <- call (EvSendRawTransaction raw) (sendRawTransaction w raw) ;;
  confirmation <- call (EvConfirmTransaction signature) (confirmTransaction w signature) ;;
  match confirmation with
  | Some err =>
      throw (ErrorObj (js "Transaction failed: "
                       ++ JSON_stringify (Number_toString w) (TransactionError_value err)))
  | None => ret signature
  end.

(** The [try] block, lines 60-158. *)
Definition transferBody (w : World) (userAWallet userBWallet devWallet : jsstring)
    (amount : Number) : M TransferResult :=
  k <- resolveKeys w userAWallet userBWallet devWallet ;;
  ensureRecipientAccount w k ;;;
  transaction <- buildTransfer w k amount ;;
  signed <- senderSign w k amount transaction ;;
  let '(userSignature, transaction) := signed in
  sponsored <- sponsorSign w k transaction ;;
  let '(developerSignature, transaction) := sponsored in
  signature <- submit w transaction ;;
  setTransferState {| isTransferring := false; error := None; success := true |} ;;;
  ret {| res_signature := signature; res_success := true;
         res_userSignature := userSignature;
         res_developerSignature := developerSignature |}.

(** The [catch] block, lines 159-166. *)
Definition transferCatch (e : thrown) : M TransferResult :=
  setTransferState {| isTransferring := false; error := Some (errorMessage e);
                      success := false |} ;;;
  throw e.

(** The default value of the parameter [amount], lines 54-56. *)
Definition defaultAmount (w : World) : completion Number :=
  match requirePublicEnv (NEXT_PUBLIC_TRANSFER_AMOUNT w)
          (js "NEXT_PUBLIC_TRANSFER_AMOUNT") (Some (js "0.01")) with
  | Normal text => Normal (String_toNumber w text)
  | Throw e => Throw e
  end.

(** [transferUSDC(connection, sdk, userAWallet, userBWallet, devWallet, amount)];
    [amount] is [None] when the caller leaves it out. *)
Definition transferUSDC (w : World) (userAWallet userBWallet devWallet : jsstring)
    (amount : option Number) : M TransferResult :=
  amount <- lift (match amount with
                  | Some a => Normal a
                  | None => defaultAmount w
                  end) ;;
  setTransferState {| isTransferring := true; error := None; success := false |} ;;;
  try_catch (transferBody w userAWallet userBWallet devWallet amount) transferCatch.

End Transfer.

Import Transfer.

(** ** [src/app/api/usdc-balance/route.ts]: the balance aggregator *)

Module Balance.

(** One entry of [data.result.value]; [uiAmount] is
    [account.account.data.parsed.info.tokenAmount.uiAmount], [None] when the
    RPC reports [null]. *)
Record TokenAccount := mkTokenAccount { uiAmount : option Number }.

(** The JSON body of the RPC reply: [data.error] with its optional
    [message], and [data.result?.value]. *)
Record RpcData := mkRpcData {
  rpc_error : option (option jsstring);
  rpc_value : option (list TokenAccount)
}.

Record RpcResponse := mkRpcResponse {
  rpc_ok : bool;
  rpc_status : Z;
  rpc_json : completion RpcData
}.

(** The [address] field of the request body: a string, a falsy value that
    is not a string ([undefined] when the field is missing, [null], [false],
    [0]), or a truthy value that is not a string (a number, [true], an array
    or an object). *)
Inductive AddressField :=
| NoAddress
| StringAddress (s : jsstring)
| OtherAddress.

(** [!address] *)
Definition addressMissing (address : AddressField) : bool :=
  match address with
  | NoAddress | StringAddress [] => true
  | StringAddress (_ :: _) | OtherAddress => false
  end.

(** [address.trim()], called once [!address] is known to be false: only a
    string has the method; on another value the call throws the TypeError
    [notAFunction]. *)
Definition address_trim (notAFunction : thrown) (address : AddressField)
  : completion jsstring :=
  match address with
  | StringAddress s => Normal (trim s)
  | NoAddress | OtherAddress => Throw notAFunction
  end.

(** What the route handler reads from outside; [notAFunction] is the
    TypeError the run-time throws for [address.trim()] when [address] is not
    a string. *)
Record RouteWorld := mkRouteWorld {
  request_address : completion AddressField;
  NEXT_PUBLIC_SOLANA_DEVNET_RPC : option jsstring;
  USDC_MINT_DEVNET : option jsstring;
  fetch_rpc : jsstring -> jsstring -> jsstring -> completion RpcResponse;
  toStringLarge : Number -> jsstring;
  notAFunction : thrown
}.

(** The JSON replies of the route. *)
Inductive RouteBody :=
| BalanceSuccess (balance : jsstring)
| RouteError (error : jsstring) (details : option jsstring).

Record RouteResponse := mkRouteResponse {
  http_status : Z;
  body : RouteBody
}.

(** The character class [[1-9A-HJ-NP-Za-km-z]]. *)
Definition isBase58 (c : code_unit) : bool :=
  (((49 <=? c) && (c <=? 57)) || ((65 <=? c) && (c <=? 72))
   || ((74 <=? c) && (c <=? 78)) || ((80 <=? c) && (c <=? 90))
   || ((97 <=? c) && (c <=? 107)) || ((109 <=? c) && (c <=? 122)))%N.

(** [/^[1-9A-HJ-NP-Za-km-z]{32,44}$/.test(s)] *)
Definition addressShape (s : jsstring) : bool :=
  forallb isBase58 s && (32 <=? length s)%nat && (length s <=? 44)%nat.

(** [uiAmount || 0] *)
Definition amountOrZero (a : TokenAccount) : Number :=
  match uiAmount a with
  | Some x => if Number_truthy x then x else S754_zero false
  | None => S754_zero false
  end.

(** Lines 46-51: [totalBalance] after the loop. *)
Definition totalBalance (value : option (list TokenAccount)) : Number :=
  match value with
  | Some accounts =>
      fold_left (fun total account => Number_add total (amountOrZero account))
        accounts (S754_zero false)
  | None => S754_zero false
  end.

(** The [try] block of [POST]. *)
Definition POST_try (w : RouteWorld) : completion RouteResponse :=
  match request_address w with
  | Throw e => Throw e
  | Normal address =>
      if addressMissing address
      then Normal {| http_status := 400;
                     body := RouteError (js "Address is required") None |}
      else
        match address_trim (notAFunction w) address with
        | Throw e => Throw e
        | Normal trimmed =>
            if negb (addressShape trimmed)
            then Normal {| http_status := 400;
                           body := RouteError (js "Invalid Solana address format") None |}
            else
              match requirePublicEnv (NEXT_PUBLIC_SOLANA_DEVNET_RPC w)
                      (js "NEXT_PUBLIC_SOLANA_DEVNET_RPC") None with
              | Throw e => Throw e
              | Normal rpcUrl =>
                  match requirePublicEnv (USDC_MINT_DEVNET w)
                          (js "NEXT_PUBLIC_USDC_MINT_DEVNET") None with
                  | Throw e => Throw e
                  | Normal usdcMint =>
                      match fetch_rpc w rpcUrl trimmed usdcMint with
                      | Throw e => Throw e
                      | Normal response =>
                          if negb (rpc_ok response)
                          then Throw (ErrorObj (js "RPC request failed with status "
                                                ++ decimalDigits (rpc_status response)
                                                ++ js "."))
                          else
                            match rpc_json response with
                            | Throw e => Throw e
                            | Normal data =>
                                match rpc_error data with
                                | Some msg =>
                                    Throw (ErrorObj (Transfer.or_else msg
                                                       (js "Unknown RPC error")))
                                | None =>
                                    Normal {| http_status := 200;
                                              body := BalanceSuccess
                                                        (toFixed (toStringLarge w)
                                                           (totalBalance (rpc_value data))
                                                           2) |}
                                end
                            end
                      end
                  end
              end
        end
  end.

(** [export async function POST(request)] *)
Definition POST (w : RouteWorld) : RouteResponse :=
  match POST_try w with
  | Normal r => r
  | Throw e =>
      {| http_status := 500;
         body := RouteError (js "Failed to get USDC balance") (Some (errorMessage e)) |}
  end.

(** [fetchUSDCBalance] of [useWalletBalances.ts], given the reply of the
    route. *)
Definition fetchUSDCBalance (reply : completion RouteResponse) : completion jsstring :=
  match reply with
  | Throw e => Throw e
  | Normal response =>
      if negb ((200 <=? http_status response) && (http_status response <=? 299))
      then Throw (ErrorObj (js "Unable to fetch USDC balance."))
      else match body response with
           | BalanceSuccess balance => Normal (balance ++ js " USDC")
           | RouteError error _ =>
               Throw (ErrorObj (Transfer.or_else (Some error) (js "Invalid USDC balance response.")))
           end
  end.

End Balance.

Import Balance.

(** ** The component [MetaKeepApp]: the gate and the transfer handler *)

Module App.

Inductive StatusType := info | successStatus | errorStatus | warning.

Record StatusState := mkStatus {
  status_message : jsstring;
  status_type : StatusType
}.

(** Callbacks handed to [setTimeout]. *)
Inductive TimerAction := ClearStatus | RefreshBalances.

(** The component state the handler reads and writes; [timers] are the
    pending [setTimeout] calls with their delays. *)
Record AppState := mkAppState {
  status : StatusState;
  transactionInfo : option (jsstring * jsstring);
  userSignature : option SdkSignature;
  developerSignature : option SignResponseBody;
  hasInsufficientUSDC : bool;
  timers : list (Z * TimerAction)
}.

Definition initialAppState : AppState :=
  {| status := {| status_message := []; status_type := info |};
     transactionInfo := None;
     userSignature := None;
     developerSignature := None;
     hasInsufficientUSDC := false;
     timers := [] |}.

Definition setStatus (s : AppState) (m : jsstring) (t : StatusType) : AppState :=
  {| status := {| status_message := m; status_type := t |};
     transactionInfo := transactionInfo s;
     userSignature := userSignature s;
     developerSignature := developerSignature s;
     hasInsufficientUSDC := hasInsufficientUSDC s;
     timers := timers s |}.

Definition setHasInsufficientUSDC (s : AppState) (b : bool) : AppState :=
  {| status := status s;
     transactionInfo := transactionInfo s;
     userSignature := userSignature s;
     developerSignature := developerSignature s;
     hasInsufficientUSDC := b;
     timers := timers s |}.

Definition setTimeout (s : AppState) (a : TimerAction) (delay : Z) : AppState :=
  {| status := status s;
     transactionInfo := transactionInfo s;
     userSignature := userSignature s;
     developerSignature := developerSignature s;
     hasInsufficientUSDC := hasInsufficientUSDC s;
     timers := timers s ++ [(delay, a)] |}.

(** [Number(process.env.NEXT_PUBLIC_TRANSFER_AMOUNT) || 0.01] *)
Definition configuredTransferAmount (w : World) : Number :=
  let n := match NEXT_PUBLIC_TRANSFER_AMOUNT w with
           | Some text => String_toNumber w text
           | None => NaN
           end in
  if Number_truthy n then n else decimal 1 2.

(** The comparison of lines 149-152. *)
Definition insufficient (userABalanceLabel : jsstring) (configuredTransferAmount : Number) : bool :=
  let balanceValue := parseFloat (replace_with_empty userABalanceLabel (js " USDC")) in
  if Number_isFinite balanceValue
  then Number_lt balanceValue configuredTransferAmount
  else true.

(** The effect of lines 144-161, run when [balances.userA?.usdc] changes. *)
Definition watchUSDCBalance (userABalanceLabel : option jsstring)
    (configuredTransferAmount : Number) (s : AppState) : AppState :=
  match userABalanceLabel with
  | None | Some [] => s
  | Some label =>
      if jsstring_eqb label (js "Loading...") then s
      else
        let low := insufficient label configuredTransferAmount in
        let s := setHasInsufficientUSDC s low in
        if low && negb (jsstring_eqb label (js "Error"))
        then setStatus s
               (js "User A has insufficient USDC on devnet. Please fund this wallet to replay the sponsorship flow.")
               warning
        else s
  end.

(** What the handler needs from the other hooks: whether [connection] and
    [sdk] are set, and the three wallet addresses (empty until known). *)
Record Deps := mkDeps {
  connection : bool;
  sdk : bool;
  userAWallet : jsstring;
  userBWallet : jsstring;
  devWallet : jsstring
}.

Definition nonEmpty (s : jsstring) : bool :=
  match s with
  | [] => false
  | _ :: _ => true
  end.

(** [handleTransferUSDC], lines 214-270. *)
Definition handleTransferUSDC (w : World) (d : Deps) (amount : Number)
    (s : AppState) (st : RunState) : AppState * RunState :=
  if negb (connection d && sdk d && nonEmpty (userAWallet d)
           && nonEmpty (userBWallet d) && nonEmpty (devWallet d))
  then (setStatus s
          (js "Missing wallet or connection details. Please initialize the experience again.")
          errorStatus, st)
  else if hasInsufficientUSDC s
  then (setStatus s
          (js "User A has insufficient USDC on devnet. Please fund this wallet to continue.")
          errorStatus, st)
  else
    let s := setStatus s (js "Starting USDC transfer...") info in
    match transferUSDC w (userAWallet d) (userBWallet d) (devWallet d) (Some amount) st with
    | (Normal result, st') =>
        if res_success result
        then
          let s := setStatus s (js "Transfer successful! Transaction: " ++ res_signature result)
                     successStatus in
          let s := {| status := status s;
                      transactionInfo :=
                        Some (res_signature result,
                              js "https://solscan.io/tx/" ++ res_signature result
                              ++ js "?cluster=devnet");
                      userSignature := Some (res_userSignature result);
                      developerSignature := Some (res_developerSignature result);
                      hasInsufficientUSDC := hasInsufficientUSDC s;
                      timers := timers s |} in
          let s := setTimeout s RefreshBalances 2000 in
          let s := setTimeout s ClearStatus 5000 in
          (s, st')
        else (s, st')
    | (Throw e, st') =>
        let s := setStatus s (js "Transfer failed: " ++ errorMessage e) errorStatus in
        let s := setTimeout s ClearStatus 5000 in
        (s, st')
    end.

End App.

Import App.

(** * Vocabulary of the statements *)

Module Spec.

(** ** The byte codec *)

(** [hex] with the optional ["0x"] marker removed, as [hexToUint8Array]
    computes it. *)
Definition cleanHexOf (hex : jsstring) : jsstring :=
  if startsWith hex (js "0x") then slice hex 2 else hex.

(** The byte stored for the [k]-th two-character chunk of [s]. *)
Definition chunkByte (s : jsstring) (k : nat) : Z :=
  ToUint8 (parseInt (substring s (2 * k) (2 * k + 2)) 16).

Definition isHexDigit (c : code_unit) : bool :=
  match radixDigit 16 c with
  | Some _ => true
  | None => false
  end.

(** Inputs the specification calls malformed: odd length after the marker
    is stripped, or a character that is not a hexadecimal digit. *)
Definition malformed (hex : jsstring) : bool :=
  Nat.odd (length (cleanHexOf hex)) || negb (forallb isHexDigit (cleanHexOf hex)).

(** The decoder rejects [hex]. *)
Definition rejects (hex : jsstring) : Prop :=
  exists e, hexToUint8Array hex = Throw e.

Definition isByte (z : Z) : Prop := 0 <= z < 256.

Definition isLowerHexDigit (c : code_unit) : bool :=
  (((48 <=? c) && (c <=? 57)) || ((97 <=? c) && (c <=? 102)))%N.

(** A byte prints as two lower-case hexadecimal digits that read back as the
    byte. *)
Definition byteOk (n : nat) : bool :=
  let h := byteToHex (Z.of_nat n) in
  (length h =? 2)%nat && forallb isLowerHexDigit h
  && (ToUint8 (parseInt h 16) =? Z.of_nat n).

(** ** One transfer attempt *)

(** An attempt started with the hook state [h]: its completion, and the run
    state it ends in. *)
Definition attempt (w : World) (a b d : jsstring) (amount : option Number) (h : TransferState)
  : completion TransferResult * RunState :=
  transferUSDC w a b d amount {| hook := h; trace := [] |}.

Definition outcome (w : World) (a b d : jsstring) (amount : option Number) (h : TransferState)
  : completion TransferResult :=
  fst (attempt w a b d amount h).

(** The external calls of the attempt, in order. *)
Definition events (w : World) (a b d : jsstring) (amount : option Number) (h : TransferState)
  : list Event :=
  trace (snd (attempt w a b d amount h)).

(** [transferState] when the attempt has settled. *)
Definition settledState (w : World) (a b d : jsstring) (amount : option Number) (h : TransferState)
  : TransferState :=
  hook (snd (attempt w a b d amount h)).

(** The sponsor-side signing call reports failure: a non-OK response, a
    status other than ["SUCCESS"], or a missing signature. *)
Definition sponsorReportsFailure (r : HttpResponse) : Prop :=
  ok r = false \/ exists body, json r = Normal body /\ signingFailed body = true.

(** The message of the error thrown at lines 129-137. *)
Definition sponsorFailureMessage (r : HttpResponse) : jsstring :=
  if negb (ok r) then js "Developer signing request failed."
  else match json r with
       | Normal body => or_else (message body) (js "Developer signing failed without a message.")
       | Throw e => errorMessage e
       end.

(** The attempt ended in the failure of the sponsor's signing step. *)
Definition SponsorSigningFailed (r : HttpResponse) (out : completion TransferResult)
    (s : TransferState) : Prop :=
  out = Throw (ErrorObj (sponsorFailureMessage r))
  /\ s = {| isTransferring := false; error := Some (sponsorFailureMessage r);
            success := false |}.

(** [w] with another sender-side signer. *)
Definition withSenderSigner (w : World)
    (signer : Transaction -> jsstring -> completion (option SdkSignature)) : World :=
  {| NEXT_PUBLIC_USDC_MINT_DEVNET := NEXT_PUBLIC_USDC_MINT_DEVNET w;
     NEXT_PUBLIC_TRANSFER_AMOUNT := NEXT_PUBLIC_TRANSFER_AMOUNT w;
     Number_toString := Number_toString w;
     String_toNumber := String_toNumber w;
     PublicKey_new := PublicKey_new w;
     getAssociatedTokenAddress := getAssociatedTokenAddress w;
     createTransferInstruction_check := createTransferInstruction_check w;
     addSignature_check := addSignature_check w;
     Message_serialize := Message_serialize w;
     Transaction_serialize := Transaction_serialize w;
     getAccountInfo := getAccountInfo w;
     getLatestBlockhash := getLatestBlockhash w;
     sendRawTransaction := sendRawTransaction w;
     confirmTransaction := confirmTransaction w;
     sdk_signTransaction := signer;
     fetch_metakeep_sign := fetch_metakeep_sign w |}.

(** What the code presents to the sender's signer: the transaction and the
    memo produced by lines 54-103, run from the initial state.  The sender's
    signer is not consulted up to there. *)
Definition senderRequest (w : World) (a b d : jsstring) (amount : option Number)
  : option (Transaction * jsstring) :=
  let prepare : M (Transaction * jsstring) :=
    bind (lift (match amount with
                | Some x => Normal x
                | None => defaultAmount w
                end))
      (fun amount =>
         bind (resolveKeys w a b d)
           (fun k =>
              bind (ensureRecipientAccount w k)
                (fun _ =>
                   bind (buildTransfer w k amount)
                     (fun transaction =>
                        ret (transaction,
                             js "Transfer " ++ Number_toString w amount
                             ++ js " USDC to User B"))))) in
  match prepare {| hook := initialTransferState; trace := [] |} with
  | (Normal request, _) => Some request
  | (Throw _, _) => None
  end.

(** The invariant of [transferState] between attempts. *)
Definition settled (s : TransferState) : Prop :=
  isTransferring s = false
  /\ (success s = true -> error s = None)
  /\ (error s <> None -> success s = false).

(** The arguments of one call of [transferUSDC], with the world it runs
    in. *)
Record Attempt := mkAttempt {
  at_world : World;
  at_userA : jsstring;
  at_userB : jsstring;
  at_dev : jsstring;
  at_amount : option Number
}.

(** The hook state after a sequence of attempts, each started when the one
    before has settled. *)
Definition afterAttempts (attempts : list Attempt) : TransferState :=
  fold_left
    (fun h x => settledState (at_world x) (at_userA x) (at_userB x) (at_dev x) (at_amount x) h)
    attempts initialTransferState.

Inductive EventKind :=
| KGetAccountInfo | KSignSetup | KSignSponsor | KGetLatestBlockhash
| KSdkSign | KSendRawTransaction | KConfirmTransaction.

Definition eventKind (e : Event) : EventKind :=
  match e with
  | EvGetAccountInfo _ => KGetAccountInfo
  | EvMetakeepSign (SignSetup _ _) => KSignSetup
  | EvMetakeepSign (SignSponsor _ _) => KSignSponsor
  | EvGetLatestBlockhash => KGetLatestBlockhash
  | EvSdkSign _ _ => KSdkSign
  | EvSendRawTransaction _ => KSendRawTransaction
  | EvConfirmTransaction _ => KConfirmTransaction
  end.

(** The byte strings handed to [sendRawTransaction]. *)
Definition submitted (evs : list Event) : list Uint8Array :=
  concat (map (fun e => match e with
                        | EvSendRawTransaction raw => [raw]
                        | _ => []
                        end) evs).

(** The value of the reported balance string read back as a Number. *)
Definition reportedBalance (r : RouteResponse) : option Number :=
  match body r with
  | BalanceSuccess balance => Some (parseFloat balance)
  | RouteError _ _ => None
  end.

End Spec.

Import Spec.

(** * Concrete worlds used to run the code *)

Module Demo.

Definition key (s : string) : PublicKey := mkPublicKey (map Z.of_N (js s)).

(** A signing response with status ["SUCCESS"] and a signature. *)
Definition signedResponse : HttpResponse :=
  {| ok := true;
     json := Normal {| Ext.status := Some (js "SUCCESS");
                       Ext.signature := Some (js "0x0b0c");
                       Ext.message := None |} |}.

(** A signing response with an error status and no signature. *)
Definition failedResponse : HttpResponse :=
  {| ok := true;
     json := Normal {| Ext.status := Some (js "ERROR");
                       Ext.signature := None;
                       Ext.message := Some (js "sponsor refused") |} |}.

(** A world in which every call succeeds.  The serializers show the shape
    of what they are given: the number of instructions, the number of
    attached signatures, and whether a fee payer is set.  [recipient] is
    what [getAccountInfo] finds, [senderSignature] what the sender's signer
    returns, [sponsor] the reply of the sponsor's signing call. *)
Definition world (recipient : option AccountInfo) (senderSignature : string)
    (sponsor : HttpResponse) : World :=
  {| NEXT_PUBLIC_USDC_MINT_DEVNET := Some (js "mint");
     NEXT_PUBLIC_TRANSFER_AMOUNT := Some (js "0.01");
     Number_toString := fun x => toFixed (fun _ => []) x 2;
     String_toNumber := parseFloat;
     PublicKey_new := fun s => Normal (mkPublicKey (map Z.of_N s));
     getAssociatedTokenAddress :=
       fun mint owner => Normal (mkPublicKey (pk_bytes mint ++ pk_bytes owner));
     createTransferInstruction_check := fun _ => None;
     addSignature_check := fun _ _ _ => None;
     Message_serialize :=
       fun m => Normal [Z.of_nat (length (msg_instructions m));
                        match msg_feePayer m with Some _ => 1 | None => 0 end];
     Transaction_serialize :=
       fun tx _ => Normal [Z.of_nat (length (instructions tx));
                           Z.of_nat (length (signatures tx));
                           match feePayer tx with Some _ => 1 | None => 0 end];
     getAccountInfo := fun _ => Normal recipient;
     getLatestBlockhash := Normal (js "blockhash");
     sendRawTransaction := fun _ => Normal (js "txid");
     confirmTransaction := fun _ => Normal None;
     sdk_signTransaction :=
       fun _ _ => Normal (Some {| sdk_signature := js senderSignature |});
     fetch_metakeep_sign :=
       fun request => match request with
                      | SignSetup _ _ => Normal signedResponse
                      | SignSponsor _ _ => Normal sponsor
                      end |}.

(** The recipient has no token account; everything else succeeds. *)
Definition absentRecipient : World := world None "0x0a" signedResponse.

(** The recipient's token account exists. *)
Definition presentRecipient : World := world (Some [1]) "0x0a" signedResponse.

(** The sponsor's signer refuses. *)
Definition refusingSponsor : World := world (Some [1]) "0x0a" failedResponse.

Definition deps : Deps :=
  {| connection := true; sdk := true;
     userAWallet := js "userA"; userBWallet := js "userB"; devWallet := js "dev" |}.

Definition keys : Keys :=
  {| usdcMint := key "mint";
     userAPublicKey := key "userA";
     userBPublicKey := key "userB";
     devPublicKey := key "dev";
     userAATA := key "mintuserA";
     userBATA := key "mintuserB" |}.

(** The balance route for an owner whose token accounts hold the given
    [uiAmount]s. *)
Definition route (amounts : list Number) : RouteWorld :=
  {| request_address :=
       Normal (StringAddress (js "4Nd1mBQtrMJVYVfKf2PJy9NZUZdTAsp7D4xWLs4gDB4T"));
     NEXT_PUBLIC_SOLANA_DEVNET_RPC := Some (js "https://api.devnet.solana.com");
     USDC_MINT_DEVNET := Some (js "mint");
     fetch_rpc :=
       fun _ _ _ =>
         Normal {| rpc_ok := true; rpc_status := 200;
                   rpc_json :=
                     Normal {| rpc_error := None;
                               rpc_value :=
                                 Some (map (fun x => {| uiAmount := Some x |}) amounts) |} |};
     toStringLarge := fun _ => [];
     notAFunction := ErrorObj (js "address.trim is not a function") |}.

End Demo.

(** * Vocabulary of the further properties *)

Module More.

(** The order of the external calls of a complete attempt; [setup] tells
    whether the setup request is part of it. *)
Definition callOrder (setup : bool) : list EventKind :=
  KGetAccountInfo
  :: (if setup then [KSignSetup] else [])
  ++ [KGetLatestBlockhash; KSdkSign; KSignSponsor; KSendRawTransaction;
      KConfirmTransaction].

(** The error state of the hook for a thrown value. *)
Definition errorState (e : thrown) : TransferState :=
  {| isTransferring := false; error := Some (errorMessage e); success := false |}.

Definition successState : TransferState :=
  {| isTransferring := false; error := None; success := true |}.

(** The amount an attempt works with. *)
Definition resolvedAmount (w : World) (amount : option Number) : completion Number :=
  match amount with
  | Some x => Normal x
  | None => defaultAmount w
  end.

(** [w] with other answers of the signing proxy. *)
Definition withSignProxy (w : World) (proxy : SignRequest -> completion HttpResponse) : World :=
  {| NEXT_PUBLIC_USDC_MINT_DEVNET := NEXT_PUBLIC_USDC_MINT_DEVNET w;
     NEXT_PUBLIC_TRANSFER_AMOUNT := NEXT_PUBLIC_TRANSFER_AMOUNT w;
     Number_toString := Number_toString w;
     String_toNumber := String_toNumber w;
     PublicKey_new := PublicKey_new w;
     getAssociatedTokenAddress := getAssociatedTokenAddress w;
     createTransferInstruction_check := createTransferInstruction_check w;
     addSignature_check := addSignature_check w;
     Message_serialize := Message_serialize w;
     Transaction_serialize := Transaction_serialize w;
     getAccountInfo := getAccountInfo w;
     getLatestBlockhash := getLatestBlockhash w;
     sendRawTransaction := sendRawTransaction w;
     confirmTransaction := confirmTransaction w;
     sdk_signTransaction := sdk_signTransaction w;
     fetch_metakeep_sign := proxy |}.

(** [w] with another answer of [confirmTransaction]. *)
Definition withConfirmation (w : World)
    (confirm : jsstring -> completion (option TransactionError))
  : World :=
  {| NEXT_PUBLIC_USDC_MINT_DEVNET := NEXT_PUBLIC_USDC_MINT_DEVNET w;
     NEXT_PUBLIC_TRANSFER_AMOUNT := NEXT_PUBLIC_TRANSFER_AMOUNT w;
     Number_toString := Number_toString w;
     String_toNumber := String_toNumber w;
     PublicKey_new := PublicKey_new w;
     getAssociatedTokenAddress := getAssociatedTokenAddress w;
     createTransferInstruction_check := createTransferInstruction_check w;
     addSignature_check := addSignature_check w;
     Message_serialize := Message_serialize w;
     Transaction_serialize := Transaction_serialize w;
     getAccountInfo := getAccountInfo w;
     getLatestBlockhash := getLatestBlockhash w;
     sendRawTransaction := sendRawTransaction w;
     confirmTransaction := confirm;
     sdk_signTransaction := sdk_signTransaction w;
     fetch_metakeep_sign := fetch_metakeep_sign w |}.

(** [w] with another value of [NEXT_PUBLIC_TRANSFER_AMOUNT]. *)
Definition withTransferAmount (w : World) (value : option jsstring) : World :=
  {| NEXT_PUBLIC_USDC_MINT_DEVNET := NEXT_PUBLIC_USDC_MINT_DEVNET w;
     NEXT_PUBLIC_TRANSFER_AMOUNT := value;
     Number_toString := Number_toString w;
     String_toNumber := String_toNumber w;
     PublicKey_new := PublicKey_new w;
     getAssociatedTokenAddress := getAssociatedTokenAddress w;
     createTransferInstruction_check := createTransferInstruction_check w;
     addSignature_check := addSignature_check w;
     Message_serialize := Message_serialize w;
     Transaction_serialize := Transaction_serialize w;
     getAccountInfo := getAccountInfo w;
     getLatestBlockhash := getLatestBlockhash w;
     sendRawTransaction := sendRawTransaction w;
     confirmTransaction := confirmTransaction w;
     sdk_signTransaction := sdk_signTransaction w;
     fetch_metakeep_sign := fetch_metakeep_sign w |}.

(** The transfer of 0.01 between the wallets of the concrete worlds, as it
    is presented to the sender's signer. *)
Definition demoTransfer : Transaction :=
  {| instructions :=
       [TokenTransfer (Demo.key "mintuserA") (Demo.key "mintuserB") (Demo.key "userA")
          (Number_of_Z 10000)];
     feePayer := Some (Demo.key "dev");
     recentBlockhash := Some (js "blockhash");
     signatures := [] |}.

Definition demoMemo : jsstring := js "Transfer 0.01 USDC to User B".

(** What [transferUSDC] returns in the concrete worlds in which every call
    succeeds. *)
Definition demoResult : TransferResult :=
  {| res_signature := js "txid";
     res_success := true;
     res_userSignature := {| sdk_signature := js "0x0a" |};
     res_developerSignature :=
       {| Ext.status := Some (js "SUCCESS");
          Ext.signature := Some (js "0x0b0c");
          Ext.message := None |} |}.

(** The value of a hexadecimal digit; 0 for any other code unit. *)
Definition hexDigitValue (c : code_unit) : Z :=
  match radixDigit 16 c with
  | Some d => d
  | None => 0
  end.

(** The bytes written by a string of hexadecimal digits, two digits per
    byte, the high one first; a last digit without a partner is left out. *)
Fixpoint hexBytes (s : jsstring) : list Z :=
  match s with
  | c1 :: c2 :: rest => (16 * hexDigitValue c1 + hexDigitValue c2) :: hexBytes rest
  | _ => []
  end.

(** Reading a pair of hexadecimal digits gives the byte they write. *)
Definition pairOk (n1 n2 : nat) : bool :=
  let c1 := N.of_nat n1 in
  let c2 := N.of_nat n2 in
  if isHexDigit c1 && isHexDigit c2
  then ToUint8 (parseInt [c1; c2] 16) =? 16 * hexDigitValue c1 + hexDigitValue c2
  else true.

(** The request addresses a balance route turns down as a bad request: a
    missing or falsy one, the empty string, and a string that, once trimmed,
    is not 32 to 44 base58 characters. *)
Definition rejectedAddress (address : AddressField) : bool :=
  match address with
  | NoAddress | StringAddress [] => true
  | StringAddress (c :: r) => negb (addressShape (trim (c :: r)))
  | OtherAddress => false
  end.

(** The hook state while an attempt is in flight. *)
Definition inFlight : TransferState :=
  {| isTransferring := true; error := None; success := false |}.

(** [w] with another serializer of transactions. *)
Definition withSerializer (w : World)
    (serialize : Transaction -> bool -> completion Uint8Array) : World :=
  {| NEXT_PUBLIC_USDC_MINT_DEVNET := NEXT_PUBLIC_USDC_MINT_DEVNET w;
     NEXT_PUBLIC_TRANSFER_AMOUNT := NEXT_PUBLIC_TRANSFER_AMOUNT w;
     Number_toString := Number_toString w;
     String_toNumber := String_toNumber w;
     PublicKey_new := PublicKey_new w;
     getAssociatedTokenAddress := getAssociatedTokenAddress w;
     createTransferInstruction_check := createTransferInstruction_check w;
     addSignature_check := addSignature_check w;
     Message_serialize := Message_serialize w;
     Transaction_serialize := serialize;
     getAccountInfo := getAccountInfo w;
     getLatestBlockhash := getLatestBlockhash w;
     sendRawTransaction := sendRawTransaction w;
     confirmTransaction := confirmTransaction w;
     sdk_signTransaction := sdk_signTransaction w;
     fetch_metakeep_sign := fetch_metakeep_sign w |}.

(** The serializer of @solana/web3.js as far as it turns transactions down:
    one without a recent blockhash is refused with the library's message;
    any other is passed on. *)
Definition blockhashRequired (serialize : Transaction -> bool -> completion Uint8Array)
    (tx : Transaction) (verify : bool) : completion Uint8Array :=
  match recentBlockhash tx with
  | None => Throw (ErrorObj (js "Transaction recentBlockhash required"))
  | Some _ => serialize tx verify
  end.

End More.

Import More.

(** * Further parts of the program *)

(** ** [src/app/api/solana-balance/route.ts]: the SOL balance route *)

Module SolRoute.

(** The JSON body of the RPC reply to [getBalance]: [data.error] with its
    optional [message], and [data.result] with its [value], the lamports
    ([None] when the field is missing). *)
Record RpcData := mkRpcData {
  rpc_error : option (option jsstring);
  rpc_result : option (option Number)
}.

Record RpcResponse := mkRpcResponse {
  rpc_ok : bool;
  rpc_status : Z;
  rpc_json : completion RpcData
}.

(** What the route handler reads from outside; [readOfUndefined] is the
    TypeError the run-time throws for [data.result.value] when [data.result]
    is missing, [notAFunction] the one for [address.trim()] when [address]
    is not a string. *)
Record RouteWorld := mkRouteWorld {
  request_address : completion AddressField;
  NEXT_PUBLIC_SOLANA_DEVNET_RPC : option jsstring;
  fetch_rpc : jsstring -> jsstring -> completion RpcResponse;
  toStringLarge : Number -> jsstring;
  readOfUndefined : thrown;
  notAFunction : thrown
}.

(** [x / y] *)
Definition Number_div : Number -> Number -> Number := SFdiv prec emax.

(** The [try] block of [POST]. *)
Definition POST_try (w : RouteWorld) : completion RouteResponse :=
  match request_address w with
  | Throw e => Throw e
  | Normal address =>
      if addressMissing address
      then Normal {| http_status := 400;
                     body := RouteError (js "Address is required") None |}
      else
        match address_trim (notAFunction w) address with
        | Throw e => Throw e
        | Normal trimmed =>
            if negb (addressShape trimmed)
            then Normal {| http_status := 400;
                           body := RouteError (js "Invalid Solana address format") None |}
            else
              match requirePublicEnv (NEXT_PUBLIC_SOLANA_DEVNET_RPC w)
                      (js "NEXT_PUBLIC_SOLANA_DEVNET_RPC") None with
              | Throw e => Throw e
              | Normal rpcUrl =>
                  match fetch_rpc w rpcUrl trimmed with
                  | Throw e => Throw e
                  | Normal response =>
                      if negb (rpc_ok response)
                      then Throw (ErrorObj (js "RPC request failed with status "
                                            ++ decimalDigits (rpc_status response)
                                            ++ js "."))
                      else
                        match rpc_json response with
                        | Throw e => Throw e
                        | Normal data =>
                            match rpc_error data with
                            | Some msg =>
                                Throw (ErrorObj (or_else msg (js "Unknown RPC error")))
                            | None =>
                                match rpc_result data with
                                | None => Throw (readOfUndefined w)
                                | Some value =>
                                    let lamports := match value with
                                                    | Some x => x
                                                    | None => NaN
                                                    end in
                                    let solBalance :=
                                      toFixed (toStringLarge w)
                                        (Number_div lamports (Number_of_Z 1000000000)) 5 in
                                    Normal {| http_status := 200;
                                              body := BalanceSuccess solBalance |}
                                end
                            end
                        end
                  end
              end
        end
  end.

(** [export async function POST(request)] *)
Definition POST (w : RouteWorld) : RouteResponse :=
  match POST_try w with
  | Normal r => r
  | Throw e =>
      {| http_status := 500;
         body := RouteError (js "Failed to get Solana balance") (Some (errorMessage e)) |}
  end.

End SolRoute.

(** ** [src/lib/env.ts]: server-side variables *)

Module ServerEnv.

(** [requireServerEnv(name)], with [value] the entry of [serverEnv] for
    [name]. *)
Definition requireServerEnv (value : option jsstring) (name : jsstring) : completion jsstring :=
  assertEnv value name None.

End ServerEnv.

Import ServerEnv.

(** ** [src/app/api/metakeep-sign/route.ts]: the signing proxy *)

Module SignRoute.

(** The reply of MetaKeep's signing endpoint. *)
Record Upstream := mkUpstream {
  up_ok : bool;
  up_status : Z;
  up_text : completion jsstring;
  up_json : completion SignResponseBody
}.

Record RouteWorld := mkRouteWorld {
  METAKEEP_API_KEY : option jsstring;
  request_json : completion SignRequest;
  fetch_metakeep : jsstring -> SignRequest -> completion Upstream
}.

(** The replies of the route: the upstream JSON with status 200, or the
    error body with status 500. *)
Inductive Reply :=
| Forwarded (data : SignResponseBody)
| Failed (error details : jsstring).

(** The [try] block of [POST]. *)
Definition POST_try (w : RouteWorld) : completion SignResponseBody :=
  match requireServerEnv (METAKEEP_API_KEY w) (js "METAKEEP_API_KEY") with
  | Throw e => Throw e
  | Normal apiKey =>
      match request_json w with
      | Throw e => Throw e
      | Normal body =>
          match fetch_metakeep w apiKey body with
          | Throw e => Throw e
          | Normal response =>
              if negb (up_ok response)
              then match up_text response with
                   | Throw e => Throw e
                   | Normal errorText =>
                       Throw (ErrorObj (js "MetaKeep signing error "
                                        ++ decimalDigits (up_status response)
                                        ++ js ": " ++ errorText))
                   end
              else up_json response
          end
      end
  end.

(** [export async function POST(request)] *)
Definition POST (w : RouteWorld) : Reply :=
  match POST_try w with
  | Normal data => Forwarded data
  | Throw e => Failed (js "Failed to sign transaction with MetaKeep") (errorMessage e)
  end.

(** The reply as the browser's [fetch] presents it: [ok] for status 200; the
    error body has none of the fields of a signing response. *)
Definition asResponse (r : Reply) : HttpResponse :=
  match r with
  | Forwarded data => {| ok := true; json := Normal data |}
  | Failed _ _ =>
      {| ok := false;
         json := Normal {| Ext.status := None; Ext.signature := None; Ext.message := None |} |}
  end.

(** The route as the browser reaches it with
    [fetch("/api/metakeep-sign", { body: JSON.stringify(body) })], for a
    server with the given key and upstream. *)
Definition fetch_via_route (key : option jsstring)
    (metakeep : jsstring -> SignRequest -> completion Upstream) (body : SignRequest)
  : completion HttpResponse :=
  Normal (asResponse (POST {| METAKEEP_API_KEY := key;
                              request_json := Normal body;
                              fetch_metakeep := metakeep |})).

End SignRoute.

(** ** The developer-wallet route *)

Module DevWalletRoute.

(** The fields of the wallet JSON that the client reads: [status],
    [wallet?.solAddress] and [error]. *)
Record WalletData := mkWalletData {
  wd_status : option jsstring;
  wd_solAddress : option jsstring;
  wd_error : option jsstring
}.

Record Upstream := mkUpstream {
  up_ok : bool;
  up_status : Z;
  up_json : completion WalletData
}.

Record RouteWorld := mkRouteWorld {
  METAKEEP_API_KEY : option jsstring;
  fetch_getDeveloperWallet : jsstring -> completion Upstream
}.

Inductive Reply :=
| Forwarded (data : WalletData)
| Failed (error details : jsstring).

(** The [try] block of [POST]. *)
Definition POST_try (w : RouteWorld) : completion WalletData :=
  match requireServerEnv (METAKEEP_API_KEY w) (js "METAKEEP_API_KEY") with
  | Throw e => Throw e
  | Normal apiKey =>
      match fetch_getDeveloperWallet w apiKey with
      | Throw e => Throw e
      | Normal response =>
          if negb (up_ok response)
          then Throw (ErrorObj (js "MetaKeep developer wallet lookup failed with "
                                ++ decimalDigits (up_status response) ++ js "."))
          else up_json response
      end
  end.

(** [export async function POST()] *)
Definition POST (w : RouteWorld) : Reply :=
  match POST_try w with
  | Normal data => Forwarded data
  | Throw e => Failed (js "Failed to fetch developer wallet") (errorMessage e)
  end.

End DevWalletRoute.

(** ** [src/hooks/useWalletBalances.ts]: the balances hook *)

Module Wallets.

(** [interface Balance] and [interface Balances] *)
Record Balance := mkBalance { sol : jsstring; usdc : jsstring }.

Record Balances := mkBalances {
  userA : option Balance;
  userB : option Balance;
  dev : option Balance
}.

Definition initialBalances : Balances :=
  {| userA := None; userB := None; dev := None |}.

(** The two balance routes as the hook reaches them, by address, and the
    order in which the six lookups of a refresh settle (indices into the
    array given to [Promise.all]). *)
Record Proxies := mkProxies {
  fetch_solana_balance : jsstring -> completion RouteResponse;
  fetch_usdc_balance : jsstring -> completion RouteResponse;
  settleOrder : list nat
}.

Definition responseOk (response : RouteResponse) : bool :=
  (200 <=? http_status response) && (http_status response <=? 299).

(** [fetchSolBalance], given the reply of the route. *)
Definition fetchSolBalance (reply : completion RouteResponse) : completion jsstring :=
  match reply with
  | Throw e => Throw e
  | Normal response =>
      if negb (responseOk response)
      then Throw (ErrorObj (js "Unable to fetch SOL balance."))
      else match body response with
           | BalanceSuccess (c :: r) => Normal ((c :: r) ++ js " SOL")
           | BalanceSuccess [] => Throw (ErrorObj (js "Invalid SOL balance response."))
           | RouteError error _ =>
               Throw (ErrorObj (or_else (Some error) (js "Invalid SOL balance response.")))
           end
  end.

(** The reason of the promise that rejects first: the first rejected one in
    [order]; promises that [order] leaves out settle afterwards, in the order
    of the array. *)
Definition firstRejection {A} (order : list nat) (results : list (completion A))
  : option thrown :=
  head (omap (fun i => match results !! i with
                       | Some (Throw e) => Some e
                       | _ => None
                       end)
          (order ++ seq 0 (length results))).

(** [Promise.all(results)] for promises that settle as [results] say. *)
Definition Promise_all {A} (order : list nat) (results : list (completion A))
  : completion (list A) :=
  match firstRejection order results with
  | Some e => Throw e
  | None => Normal (omap (fun r => match r with
                                   | Normal a => Some a
                                   | Throw _ => None
                                   end) results)
  end.

Definition allLabels (label : jsstring) : Balances :=
  {| userA := Some {| sol := label; usdc := label |};
     userB := Some {| sol := label; usdc := label |};
     dev := Some {| sol := label; usdc := label |} |}.

(** [refreshBalances(userAWallet, userBWallet, devWallet)]: its completion
    and the values it passes to [setBalances], in order. *)
Definition refreshBalances (p : Proxies) (userAWallet userBWallet devWallet : option jsstring)
  : completion unit * list Balances :=
  if negb (truthy userAWallet) || negb (truthy userBWallet) || negb (truthy devWallet)
  then (Normal tt, [])
  else
    let a := or_else userAWallet [] in
    let b := or_else userBWallet [] in
    let d := or_else devWallet [] in
    let loading := allLabels (js "Loading...") in
    match Promise_all (settleOrder p)
            [fetchSolBalance (fetch_solana_balance p a);
             fetchSolBalance (fetch_solana_balance p b);
             fetchSolBalance (fetch_solana_balance p d);
             fetchUSDCBalance (fetch_usdc_balance p a);
             fetchUSDCBalance (fetch_usdc_balance p b);
             fetchUSDCBalance (fetch_usdc_balance p d)] with
    | Normal [userASol; userBSol; devSol; userAUsdc; userBUsdc; devUsdc] =>
        (Normal tt,
         [loading;
          {| userA := Some {| sol := userASol; usdc := userAUsdc |};
             userB := Some {| sol := userBSol; usdc := userBUsdc |};
             dev := Some {| sol := devSol; usdc := devUsdc |} |}])
    | Normal _ =>
        (* [Promise.all] resolves to as many values as it was given *)
        (Normal tt, [loading])
    | Throw e => (Throw e, [loading; allLabels (js "Error")])
    end.

(** [handleRefreshBalances] of [MetaKeepApp]: the component state it leaves
    and the values passed to [setBalances]. *)
Definition handleRefreshBalances (p : Proxies) (d : Deps) (s : AppState)
  : AppState * list Balances :=
  if negb (nonEmpty (userAWallet d) && nonEmpty (userBWallet d) && nonEmpty (devWallet d))
  then (setStatus s (js "Wallet addresses are not ready yet. Please try again shortly.")
          errorStatus, [])
  else
    let s := setStatus s (js "Refreshing balances...") info in
    match refreshBalances p (Some (userAWallet d)) (Some (userBWallet d))
            (Some (devWallet d)) with
    | (Normal _, sets) =>
        let s := setStatus s (js "Balances refreshed successfully!") successStatus in
        (setTimeout s ClearStatus 3000, sets)
    | (Throw e, sets) =>
        let s := setStatus s (js "Failed to refresh balances: " ++ errorMessage e)
                   errorStatus in
        (setTimeout s ClearStatus 5000, sets)
    end.

(** [balances.userA?.usdc] *)
Definition userAUsdcLabel (b : Balances) : option jsstring :=
  match userA b with
  | Some x => Some (usdc x)
  | None => None
  end.

(** The gate effect of [MetaKeepApp] run after each value given to
    [setBalances]. *)
Definition gateAfter (configuredTransferAmount : Number) (sets : list Balances) (s : AppState)
  : AppState :=
  fold_left (fun s b => watchUSDCBalance (userAUsdcLabel b) configuredTransferAmount s) sets s.

End Wallets.

Import Wallets.

(** ** [useMetaKeepSDK], [useSolanaConnection] and the start of [MetaKeepApp] *)

Module Session.

(** What [sdk.getWallet()] resolves to: [status] and [wallet?.solAddress]. *)
Record WalletResponse := mkWalletResponse {
  wallet_status : option jsstring;
  wallet_solAddress : option jsstring
}.

(** [sdk.getWallet()] resolves (possibly to nothing), or rejects with a value
    and the [status] property read from it. *)
Inductive WalletOutcome :=
| WalletResolved (response : option WalletResponse)
| WalletRejected (error : thrown) (status : option jsstring).

(** The reply of [/api/developer-wallet] as [fetch] presents it. *)
Record DevResponse := mkDevResponse {
  dev_ok : bool;
  dev_json : completion DevWalletRoute.WalletData
}.

(** The browser side: the globals injected by the CDN scripts, the public
    variables, the library constructors and the calls made while starting. *)
Record Browser := mkBrowser {
  window_MetaKeep : bool;
  window_solanaWeb3 : bool;
  NEXT_PUBLIC_METAKEEP_APP_ID : option jsstring;
  NEXT_PUBLIC_USER_B_WALLET : option jsstring;
  SOLANA_DEVNET_RPC : option jsstring;
  MetaKeep_new : jsstring -> completion unit;
  Connection_new : jsstring -> completion unit;
  getVersion : jsstring -> completion unit;
  fetch_developer_wallet : completion DevResponse;
  getWallet : WalletOutcome
}.

Definition setConnection (d : Deps) : Deps :=
  {| connection := true; sdk := sdk d; userAWallet := userAWallet d;
     userBWallet := userBWallet d; devWallet := devWallet d |}.

Definition setSdk (d : Deps) : Deps :=
  {| connection := connection d; sdk := true; userAWallet := userAWallet d;
     userBWallet := userBWallet d; devWallet := devWallet d |}.

Definition setUserAWallet (d : Deps) (address : jsstring) : Deps :=
  {| connection := connection d; sdk := sdk d; userAWallet := address;
     userBWallet := userBWallet d; devWallet := devWallet d |}.

Definition setUserBWallet (d : Deps) (address : jsstring) : Deps :=
  {| connection := connection d; sdk := sdk d; userAWallet := userAWallet d;
     userBWallet := address; devWallet := devWallet d |}.

Definition setDevWallet (d : Deps) (address : jsstring) : Deps :=
  {| connection := connection d; sdk := sdk d; userAWallet := userAWallet d;
     userBWallet := userBWallet d; devWallet := address |}.

(** [x === "SUCCESS"] on an optional field *)
Definition isSuccess (x : option jsstring) : bool :=
  match x with
  | Some s => jsstring_eqb s (js "SUCCESS")
  | None => false
  end.

(** [initializeConnection] of [useSolanaConnection.ts] *)
Definition initializeConnection (b : Browser) (d : Deps) : completion unit * Deps :=
  if connection d then (Normal tt, d)
  else if negb (window_solanaWeb3 b)
  then (Throw (ErrorObj (js "Solana Web3.js is not available in the browser context.")), d)
  else
    match requirePublicEnv (SOLANA_DEVNET_RPC b) (js "NEXT_PUBLIC_SOLANA_DEVNET_RPC")
            (Some (js "https://api.devnet.solana.com")) with
    | Throw e => (Throw e, d)
    | Normal rpcUrl =>
        match Connection_new b rpcUrl with
        | Throw e => (Throw e, d)
        | Normal _ =>
            match getVersion b rpcUrl with
            | Throw e => (Throw e, d)
            | Normal _ => (Normal tt, setConnection d)
            end
        end
    end.

(** Lines 104-113 of [initializeWallets]: the sender's wallet is asked for;
    a cancelled prompt is not an error. *)
Definition askUserAWallet (b : Browser) (d : Deps) : completion unit * Deps :=
  match getWallet b with
  | WalletResolved userAResponse =>
      match userAResponse with
      | Some r =>
          if isSuccess (wallet_status r) && truthy (wallet_solAddress r)
          then (Normal tt, setUserAWallet d (or_else (wallet_solAddress r) []))
          else (Normal tt, d)
      | None => (Normal tt, d)
      end
  | WalletRejected error status =>
      if negb (match status with
               | Some s => jsstring_eqb s (js "OPERATION_CANCELLED")
               | None => false
               end)
      then (Throw error, d)
      else (Normal tt, d)
  end.

(** The [try] block of [initializeWallets]. *)
Definition initializeWallets_try (b : Browser) (d : Deps) : completion unit * Deps :=
  if negb (window_MetaKeep b)
  then (Throw (ErrorObj (js "MetaKeep SDK is not available in the current browser context.")),
        d)
  else
    match requirePublicEnv (NEXT_PUBLIC_METAKEEP_APP_ID b)
            (js "NEXT_PUBLIC_METAKEEP_APP_ID") None with
    | Throw e => (Throw e, d)
    | Normal appId =>
        match requirePublicEnv (NEXT_PUBLIC_USER_B_WALLET b)
                (js "NEXT_PUBLIC_USER_B_WALLET") None with
        | Throw e => (Throw e, d)
        | Normal userBAddress =>
            match MetaKeep_new b appId with
            | Throw e => (Throw e, d)
            | Normal _ =>
                let d := setSdk d in
                let d := setUserBWallet d userBAddress in
                match fetch_developer_wallet b with
                | Throw e => (Throw e, d)
                | Normal devResponse =>
                    if negb (dev_ok devResponse)
                    then (Throw (ErrorObj
                                   (js "Unable to fetch developer wallet from MetaKeep.")), d)
                    else
                      match dev_json devResponse with
                      | Throw e => (Throw e, d)
                      | Normal devData =>
                          if isSuccess (DevWalletRoute.wd_status devData)
                             && truthy (DevWalletRoute.wd_solAddress devData)
                          then
                            let d := setDevWallet d
                                       (or_else (DevWalletRoute.wd_solAddress devData) []) in
                            askUserAWallet b d
                          else
                            (Throw (ErrorObj (or_else (DevWalletRoute.wd_error devData)
                                                (js "Missing developer wallet data."))), d)
                      end
                end
            end
        end
    end.

(** [initializeWallets]: its completion, the hook state and
    [isInitializing] when it has settled. *)
Definition initializeWallets (b : Browser) (d : Deps) : completion unit * Deps * bool :=
  let '(out, d) := initializeWallets_try b d in
  (out, d, false).

(** The state of the page: the hooks' values, the two flags and the
    component state. *)
Record Page := mkPage {
  hooks : Deps;
  isInitializing : bool;
  isInitialized : bool;
  view : AppState
}.

Definition initialPage : Page :=
  {| hooks := {| connection := false; sdk := false; userAWallet := [];
                 userBWallet := []; devWallet := [] |};
     isInitializing := false;
     isInitialized := false;
     view := initialAppState |}.

Definition initializationFailed (e : thrown) (d : Deps) (initializing : bool) (s : AppState)
  : Page :=
  {| hooks := d;
     isInitializing := initializing;
     isInitialized := false;
     view := setStatus s (js "Initialization failed: " ++ errorMessage e) errorStatus |}.

(** [initializeApp] of [MetaKeepApp] *)
Definition initializeApp (b : Browser) (p : Page) : Page :=
  let s := setStatus (view p) (js "Initializing MetaKeep SDK and Solana connection...") info in
  match initializeConnection b (hooks p) with
  | (Throw e, d) => initializationFailed e d (isInitializing p) s
  | (Normal _, d) =>
      match initializeWallets b d with
      | (Throw e, d, initializing) => initializationFailed e d initializing s
      | (Normal _, d, initializing) =>
          {| hooks := d;
             isInitializing := initializing;
             isInitialized := true;
             view := setStatus s [] info |}
      end
  end.

(** The effect of lines 137-141: the values given to [setBalances] when the
    wallets or [isInitialized] change. *)
Definition refreshWhenReady (px : Proxies) (p : Page) : list Balances :=
  if nonEmpty (userAWallet (hooks p)) && nonEmpty (userBWallet (hooks p))
     && nonEmpty (devWallet (hooks p)) && isInitialized p
  then snd (refreshBalances px (Some (userAWallet (hooks p))) (Some (userBWallet (hooks p)))
              (Some (devWallet (hooks p))))
  else [].

(** The developer-wallet route as the browser's [fetch] presents its reply. *)
Definition asDevResponse (r : DevWalletRoute.Reply) : DevResponse :=
  match r with
  | DevWalletRoute.Forwarded data => {| dev_ok := true; dev_json := Normal data |}
  | DevWalletRoute.Failed error _ =>
      {| dev_ok := false;
         dev_json := Normal {| DevWalletRoute.wd_status := None;
                               DevWalletRoute.wd_solAddress := None;
                               DevWalletRoute.wd_error := Some error |} |}
  end.

End Session.

Import Session.

(** ** [src/components/ActionButtons.tsx] *)

Module ActionButtons.

(** [process.env.NEXT_PUBLIC_TRANSFER_AMOUNT ?? "0.01"] *)
Definition configuredTransferAmount (w : World) : jsstring :=
  match NEXT_PUBLIC_TRANSFER_AMOUNT w with
  | Some text => text
  | None => js "0.01"
  end.

(** [transferCtaLabel]; the arrow is U+2192. *)
Definition transferCtaLabel (w : World) (isTransferring hasInsufficientUSDC : bool) : jsstring :=
  if isTransferring then js "Transferring..."
  else if hasInsufficientUSDC then js "Insufficient USDC"
  else js "Transfer " ++ configuredTransferAmount w ++ js " USDC (A " ++ [8594%N] ++ js " B)".

(** The [disabled] attribute of the transfer button. *)
Definition transferDisabled (disabled isTransferring hasInsufficientUSDC : bool) : bool :=
  disabled || isTransferring || hasInsufficientUSDC.

End ActionButtons.

(** * Further concrete worlds *)

Module Sample.

Definition address : jsstring := js "4Nd1mBQtrMJVYVfKf2PJy9NZUZdTAsp7D4xWLs4gDB4T".

(** The SOL route for an account holding the given lamports. *)
Definition solRoute (request : AddressField) (lamports : Z) : SolRoute.RouteWorld :=
  {| SolRoute.request_address := Normal request;
     SolRoute.NEXT_PUBLIC_SOLANA_DEVNET_RPC := Some (js "https://api.devnet.solana.com");
     SolRoute.fetch_rpc :=
       fun _ _ =>
         Normal {| SolRoute.rpc_ok := true; SolRoute.rpc_status := 200;
                   SolRoute.rpc_json :=
                     Normal {| SolRoute.rpc_error := None;
                               SolRoute.rpc_result := Some (Some (Number_of_Z lamports)) |} |};
     SolRoute.toStringLarge := fun _ => js "1e+21";
     SolRoute.readOfUndefined :=
       ErrorObj (js "Cannot read properties of undefined (reading 'value')");
     SolRoute.notAFunction := ErrorObj (js "address.trim is not a function") |}.

(** The USDC route of [Demo.route] for another request. *)
Definition usdcRoute (request : AddressField) (amounts : list Number) : RouteWorld :=
  {| request_address := Normal request;
     NEXT_PUBLIC_SOLANA_DEVNET_RPC := NEXT_PUBLIC_SOLANA_DEVNET_RPC (Demo.route amounts);
     USDC_MINT_DEVNET := USDC_MINT_DEVNET (Demo.route amounts);
     fetch_rpc := fetch_rpc (Demo.route amounts);
     toStringLarge := toStringLarge (Demo.route amounts);
     notAFunction := notAFunction (Demo.route amounts) |}.

(** The two routes behind the balances hook; the SOL lookups of [failing]
    are answered 500. *)
Definition proxies (failing : jsstring) : Proxies :=
  {| fetch_solana_balance :=
       fun a => if jsstring_eqb a failing
                then Normal {| http_status := 500;
                               body := RouteError (js "Failed to get Solana balance") None |}
                else Normal (SolRoute.POST (solRoute (StringAddress address) 1500000000));
     fetch_usdc_balance :=
       fun _ => Normal (POST (usdcRoute (StringAddress address) [decimal 125 2]));
     settleOrder := [5; 4; 3; 2; 1; 0]%nat |}.

Definition wallets : Deps :=
  {| connection := true; sdk := true; userAWallet := js "userA";
     userBWallet := js "userB"; devWallet := js "dev" |}.

Definition devWalletRoute (key : option jsstring) : DevWalletRoute.RouteWorld :=
  {| DevWalletRoute.METAKEEP_API_KEY := key;
     DevWalletRoute.fetch_getDeveloperWallet :=
       fun _ =>
         Normal {| DevWalletRoute.up_ok := true; DevWalletRoute.up_status := 200;
                   DevWalletRoute.up_json :=
                     Normal {| DevWalletRoute.wd_status := Some (js "SUCCESS");
                               DevWalletRoute.wd_solAddress := Some (js "dev");
                               DevWalletRoute.wd_error := None |} |} |}.

(** A browser in which everything is available; the wallet prompt settles
    as [prompt] says and the developer-wallet route runs with [key]. *)
Definition browser (key : option jsstring) (prompt : WalletOutcome) : Browser :=
  {| window_MetaKeep := true;
     window_solanaWeb3 := true;
     NEXT_PUBLIC_METAKEEP_APP_ID := Some (js "app");
     NEXT_PUBLIC_USER_B_WALLET := Some (js "userB");
     SOLANA_DEVNET_RPC := None;
     MetaKeep_new := fun _ => Normal tt;
     Connection_new := fun _ => Normal tt;
     getVersion := fun _ => Normal tt;
     fetch_developer_wallet :=
       Normal (asDevResponse (DevWalletRoute.POST (devWalletRoute key)));
     getWallet := prompt |}.

Definition cancelled : WalletOutcome :=
  WalletRejected NonError (Some (js "OPERATION_CANCELLED")).

Definition granted : WalletOutcome :=
  WalletResolved (Some {| wallet_status := Some (js "SUCCESS");
                          wallet_solAddress := Some (js "userA") |}).

(** MetaKeep's signing endpoint, answering every request with the same
    signature. *)
Definition metakeep (key : jsstring) (body : SignRequest) : completion SignRoute.Upstream :=
  Normal {| SignRoute.up_ok := true; SignRoute.up_status := 200;
            SignRoute.up_text := Normal [];
            SignRoute.up_json :=
              Normal {| Ext.status := Some (js "SUCCESS");
                        Ext.signature := Some (js "0x0b0c");
                        Ext.message := None |} |}.

End Sample.

(** * Properties *)

(** ** Sanity checks of the run-time model *)

Example Number_examples :
  decimal 1 1 = S754_finite false 7205759403792794 (-56)
  /\ Number_to_Z (Math_floor (Number_mul (decimal 1 2) (Number_of_Z 1000000))) = Some 10000
  /\ toFixed (fun _ => []) (decimal 1005 3) 2 = js "1.00"
  /\ toFixed (fun _ => []) (Number_add (decimal 1 1) (decimal 2 1)) 2 = js "0.30"
  /\ toFixed (fun _ => []) (S754_zero false) 2 = js "0.00"
  /\ toFixed (fun _ => []) (Number_of_Z 1234) 2 = js "1234.00"
  /\ toFixed (fun _ => []) (Number_of_ratio true 1 1000) 2 = js "-0.00"
  /\ parseFloat (js "0.01") = decimal 1 2
  /\ parseFloat (js "  -12.5e1x") = Number_of_Z (-125)
  /\ parseFloat (js "Error") = NaN
  /\ parseFloat (js ".5") = decimal 5 1
  /\ replace_with_empty (js "0.01 USDC") (js " USDC") = js "0.01".
Proof. repeat split; vm_compute; reflexivity. Qed.

(** Values documented for JavaScript engines: [0.1 + 0.2] is not [0.3], and
    [toFixed] rounds the binary value of its receiver. *)
Example Number_known_values :
  Number_add (decimal 1 1) (decimal 2 1) = S754_finite false 5404319552844596 (-54)
  /\ decimal 3 1 = S754_finite false 5404319552844595 (-54)
  /\ toFixed (fun _ => []) (decimal 234 2) 1 = js "2.3"
  /\ toFixed (fun _ => []) (decimal 235 2) 1 = js "2.4"
  /\ toFixed (fun _ => []) (decimal 255 2) 1 = js "2.5"
  /\ toFixed (fun _ => []) (Number_of_ratio true 234 100) 1 = js "-2.3"
  /\ toFixed (fun _ => []) (parseFloat (js "1.23e-10")) 2 = js "0.00"
  /\ toFixed (fun _ => []) (parseFloat (js "1.23e20")) 2 = js "123000000000000000000.00"
  /\ toFixed (fun _ => []) (decimal 8345 3) 2 = js "8.35"
  /\ toFixed (fun _ => js "1e+21") (parseFloat (js "1e21")) 2 = js "1e+21"
  /\ Math_floor (Number_of_ratio true 1 2) = Number_of_Z (-1)
  /\ Math_floor (decimal 5 1) = S754_zero false.
Proof. repeat split; vm_compute; reflexivity. Qed.

Example hexToUint8Array_examples :
  hexToUint8Array (js "0x00ff1aB2") = Normal [0; 255; 26; 178]
  /\ hexToUint8Array (js "zz1g") = Normal [0; 1]
  /\ hexToUint8Array (js "-f") = Normal [241]
  /\ toHex [0; 255; 26; 178] = js "0x00ff1ab2".
Proof. repeat split; reflexivity. Qed.

Example addressShape_examples :
  addressShape (js "4Nd1mBQtrMJVYVfKf2PJy9NZUZdTAsp7D4xWLs4gDB4T") = true
  /\ addressShape (js "0Nd1mBQtrMJVYVfKf2PJy9NZUZdTAsp7D4xWLs4gDB4T") = false
  /\ addressShape (js "short") = false.
Proof. repeat split; reflexivity. Qed.

(** ** The byte codec *)

Lemma hexLoop_done fuel s i bytes :
  (length s <= i)%nat -> hexLoop fuel s i bytes = bytes.
Proof.
  intros Hi. destruct fuel as [|fuel]; simpl; [reflexivity|].
  destruct (Nat.ltb_spec i (length s)); [lia | reflexivity].
Qed.

Lemma hexLoop_step fuel s i bytes :
  (i < length s)%nat ->
  hexLoop (S fuel) s i bytes
  = hexLoop fuel s (i + 2)
      (Uint8Array_set bytes (i / 2) (parseInt (substring s i (i + 2)) 16)).
Proof.
  intros Hi. change (hexLoop (S fuel) s i bytes) with
    (if (i <? length s)%nat
     then hexLoop fuel s (i + 2)
            (Uint8Array_set bytes (i / 2) (parseInt (substring s i (i + 2)) 16))
     else bytes).
  destruct (Nat.ltb_spec i (length s)); [reflexivity | lia].
Qed.

(** Loop invariant: after [k] chunks the first [k] bytes are decoded and the
    others are still zero. *)
Lemma hexLoop_invariant s fuel : forall k,
  (k <= length s / 2)%nat ->
  (length s <= 2 * k + 2 * fuel)%nat ->
  hexLoop fuel s (2 * k)
    (map (chunkByte s) (seq 0 k) ++ replicate (length s / 2 - k) 0)
  = map (chunkByte s) (seq 0 (length s / 2)).
Proof.
  induction fuel as [|fuel IH]; intros k Hk Hfuel.
  - assert (k = (length s / 2)%nat) as ->.
    { pose proof (Nat.div_mod_eq (length s) 2).
      pose proof (Nat.mod_upper_bound (length s) 2). lia. }
    simpl. rewrite Nat.sub_diag. simpl. apply app_nil_r.
  - destruct (Nat.lt_ge_cases (2 * k) (length s)) as [Hlt|Hge];
      [rewrite hexLoop_step by exact Hlt | rewrite hexLoop_done by exact Hge].
    + replace (2 * k / 2)%nat with k by (rewrite Nat.mul_comm, Nat.div_mul; lia).
      unfold Uint8Array_set, Uint8Array.
      destruct (Nat.eq_dec k (length s / 2)%nat) as [->|Hne].
      * rewrite Nat.sub_diag. simpl replicate. rewrite app_nil_r.
        rewrite list_insert_ge by (rewrite length_map, length_seq; lia).
        apply hexLoop_done.
        pose proof (Nat.div_mod_eq (length s) 2).
        pose proof (Nat.mod_upper_bound (length s) 2). lia.
      * replace (length s / 2 - k)%nat with (S (length s / 2 - S k)) by lia.
        simpl replicate.
        rewrite insert_app_r_alt by (rewrite length_map, length_seq; lia).
        rewrite length_map, length_seq, Nat.sub_diag.
        specialize (IH (S k)).
        rewrite seq_S, map_app, <- app_assoc in IH.
        rewrite <- IH by lia.
        f_equal; try lia.
    + assert (k = (length s / 2)%nat) as ->.
      { pose proof (Nat.div_mod_eq (length s) 2).
        pose proof (Nat.mod_upper_bound (length s) 2). lia. }
      rewrite Nat.sub_diag. simpl. apply app_nil_r.
Qed.

(** What [hexToUint8Array] returns, for every input. *)
Lemma hexToUint8Array_returns hex :
  hexToUint8Array hex
  = Normal (map (chunkByte (cleanHexOf hex)) (seq 0 (length (cleanHexOf hex) / 2))).
Proof.
  unfold hexToUint8Array. fold (cleanHexOf hex). f_equal.
  pose proof (hexLoop_invariant (cleanHexOf hex) (length (cleanHexOf hex)) 0) as H.
  simpl in H. rewrite Nat.sub_0_r in H. apply H; lia.
Qed.

Lemma all_bytes_ok : forallb byteOk (seq 0 256) = true.
Proof. vm_compute. reflexivity. Qed.

Lemma byteToHex_ok z :
  isByte z ->
  length (byteToHex z) = 2%nat
  /\ forallb isLowerHexDigit (byteToHex z) = true
  /\ ToUint8 (parseInt (byteToHex z) 16) = z.
Proof.
  intros [Hlo Hhi].
  pose proof all_bytes_ok as Hall.
  rewrite forallb_forall in Hall.
  specialize (Hall (Z.to_nat z)).
  rewrite in_seq in Hall.
  assert (byteOk (Z.to_nat z) = true) as Hok by (apply Hall; lia).
  unfold byteOk in Hok. rewrite Z2Nat.id in Hok by lia.
  apply andb_prop in Hok as [Hok H3]. apply andb_prop in Hok as [H1 H2].
  apply Nat.eqb_eq in H1. apply Z.eqb_eq in H3. auto.
Qed.

Lemma chunk_of_concat (b : list Z) : forall k z,
  Forall isByte b ->
  b !! k = Some z ->
  substring (join_empty (map byteToHex b)) (2 * k) (2 * k + 2) = byteToHex z.
Proof.
  unfold substring, join_empty.
  induction b as [|x b IH]; intros k z Hb Hk; [discriminate|].
  inversion Hb as [|? ? Hx Hb']; subst.
  destruct (byteToHex_ok x Hx) as (Hlen & _ & _).
  replace (2 * k + 2 - 2 * k)%nat with 2%nat by lia.
  destruct k as [|k]; simpl in Hk.
  - injection Hk as ->. simpl concat. change (2 * 0)%nat with 0%nat.
    rewrite drop_0, take_app_length'; [reflexivity | symmetry; exact Hlen].
  - simpl concat.
    replace (2 * S k)%nat with (length (byteToHex x) + 2 * k)%nat by lia.
    rewrite drop_app_add.
    specialize (IH k z Hb' Hk).
    replace (2 * k + 2 - 2 * k)%nat with 2%nat in IH by lia. exact IH.
Qed.

Lemma length_join_hex (b : list Z) :
  Forall isByte b -> length (join_empty (map byteToHex b)) = (2 * length b)%nat.
Proof.
  unfold join_empty. induction 1 as [|x b Hx Hb IH]; [reflexivity|].
  simpl. rewrite length_app, IH.
  destruct (byteToHex_ok x Hx) as (-> & _). lia.
Qed.

Lemma lower_join_hex (b : list Z) :
  Forall isByte b -> forallb isLowerHexDigit (join_empty (map byteToHex b)) = true.
Proof.
  unfold join_empty. induction 1 as [|x b Hx Hb IH]; [reflexivity|].
  simpl. rewrite forallb_app, IH.
  destruct (byteToHex_ok x Hx) as (_ & -> & _). reflexivity.
Qed.

Lemma cleanHexOf_toHex (b : list Z) :
  cleanHexOf (toHex b) = join_empty (map byteToHex b).
Proof. reflexivity. Qed.

(** The text the encoder writes decodes to the bytes it was given. *)
Lemma toHex_decodes (b : Uint8Array) :
  Forall isByte b -> hexToUint8Array (toHex b) = Normal b.
Proof.
  intros Hb.
  rewrite hexToUint8Array_returns, cleanHexOf_toHex, length_join_hex by exact Hb.
  replace (2 * length b / 2)%nat with (length b)
    by (rewrite Nat.mul_comm, Nat.div_mul; lia).
  f_equal. apply list_eq. intros k.
  rewrite list_lookup_fmap.
  destruct (b !! k) as [z|] eqn:Hk.
  - rewrite lookup_seq_lt by (apply lookup_lt_Some in Hk; exact Hk).
    simpl. unfold chunkByte.
    rewrite (chunk_of_concat b k z Hb Hk).
    assert (isByte z) as Hz.
    { rewrite Forall_forall in Hb. apply Hb.
      apply list_elem_of_lookup. eauto. }
    destruct (byteToHex_ok z Hz) as (_ & _ & ->).
    symmetry. exact Hk.
  - rewrite lookup_seq_ge by (apply lookup_ge_None in Hk; exact Hk).
    symmetry. exact Hk.
Qed.

(** The text the encoder writes: the marker, then lower-case hexadecimal
    digits. *)
Lemma toHex_shape (b : Uint8Array) :
  Forall isByte b ->
  startsWith (toHex b) (js "0x") = true
  /\ forallb isLowerHexDigit (slice (toHex b) 2) = true.
Proof.
  intros Hb. split; [reflexivity|].
  change (slice (toHex b) 2) with (join_empty (map byteToHex b)).
  apply lower_join_hex. exact Hb.
Qed.

(** C3.  Round trip: for every byte sequence [b], the encoder of the
    sponsor-signing step yields a ["0x"]-prefixed, even-length, lower-case
    hexadecimal string, and [hexToUint8Array] decodes it back to [b]. *)
Theorem decode_encode_roundtrip (b : Uint8Array) :
  Forall isByte b ->
  hexToUint8Array (toHex b) = Normal b
  /\ startsWith (toHex b) (js "0x") = true
  /\ Nat.even (length (toHex b)) = true
  /\ forallb isLowerHexDigit (slice (toHex b) 2) = true.
Proof.
  intros Hb. split; [|split; [reflexivity|split]].
  - rewrite hexToUint8Array_returns, cleanHexOf_toHex, length_join_hex by exact Hb.
    replace (2 * length b / 2)%nat with (length b)
      by (rewrite Nat.mul_comm, Nat.div_mul; lia).
    f_equal. apply list_eq. intros k.
    rewrite list_lookup_fmap.
    destruct (b !! k) as [z|] eqn:Hk.
    + rewrite lookup_seq_lt by (apply lookup_lt_Some in Hk; exact Hk).
      simpl. unfold chunkByte.
      rewrite (chunk_of_concat b k z Hb Hk).
      assert (isByte z) as Hz.
      { rewrite Forall_forall in Hb. apply Hb.
        apply list_elem_of_lookup. eauto. }
      destruct (byteToHex_ok z Hz) as (_ & _ & ->).
      symmetry. exact Hk.
    + rewrite lookup_seq_ge by (apply lookup_ge_None in Hk; exact Hk).
      symmetry. exact Hk.
  - change (length (toHex b)) with (S (S (length (join_empty (map byteToHex b))))).
    rewrite length_join_hex by exact Hb.
    change (Nat.even (S (S (2 * length b)))) with (Nat.even (2 * length b)).
    rewrite Nat.even_mul. reflexivity.
  - change (slice (toHex b) 2) with (join_empty (map byteToHex b)).
    apply lower_join_hex. exact Hb.
Qed.

Lemma decode_encode_roundtrip_witness :
  Forall isByte [0; 255; 16; 171]
  /\ hexToUint8Array (toHex [0; 255; 16; 171]) = Normal [0; 255; 16; 171].
Proof.
  assert (Forall isByte [0; 255; 16; 171]) as H
    by (repeat constructor; unfold isByte; lia).
  split; [exact H|].
  exact (proj1 (decode_encode_roundtrip [0; 255; 16; 171] H)).
Defined.

(** C4, as stated, fails: on an input with characters that are not
    hexadecimal digits, and on an input of odd length, [hexToUint8Array]
    returns a byte buffer. *)
Lemma hexToUint8Array_accepts_malformed :
  malformed (js "0xzz") = true
  /\ hexToUint8Array (js "0xzz") = Normal [0]
  /\ ~ rejects (js "0xzz")
  /\ malformed (js "abc") = true
  /\ hexToUint8Array (js "abc") = Normal [171]
  /\ ~ rejects (js "abc").
Proof.
  repeat split; try reflexivity.
  - intros [e He]. discriminate He.
  - intros [e He]. discriminate He.
Qed.

Lemma ToUint8_isByte v : isByte (ToUint8 v).
Proof.
  unfold isByte, ToUint8. destruct v as [z|]; [|lia].
  apply Z.mod_pos_bound. lia.
Qed.

(** A hexadecimal digit is a code unit below 103. *)
Lemma isHexDigit_small c : isHexDigit c = true -> (c < 103)%N.
Proof.
  unfold isHexDigit, radixDigit, digitValue. intros H.
  destruct ((48 <=? c) && (c <=? 57))%N eqn:H1.
  - apply andb_prop in H1 as [_ H1]. apply N.leb_le in H1. lia.
  - destruct ((97 <=? c) && (c <=? 122))%N eqn:H2.
    + destruct (Z.of_N c - 87 <? 16) eqn:H3; [|discriminate]. lia.
    + destruct ((65 <=? c) && (c <=? 90))%N eqn:H4; [|discriminate].
      destruct (Z.of_N c - 55 <? 16) eqn:H3; [|discriminate]. lia.
Qed.

Lemma all_pairs_ok :
  forallb (fun n1 => forallb (pairOk n1) (seq 0 103)) (seq 0 103) = true.
Proof. vm_compute. reflexivity. Qed.

(** A chunk of two hexadecimal digits reads as the byte they write. *)
Lemma hex_pair_value c1 c2 :
  isHexDigit c1 = true -> isHexDigit c2 = true ->
  ToUint8 (parseInt [c1; c2] 16) = 16 * hexDigitValue c1 + hexDigitValue c2.
Proof.
  intros H1 H2.
  pose proof (isHexDigit_small c1 H1) as L1.
  pose proof (isHexDigit_small c2 H2) as L2.
  pose proof all_pairs_ok as H.
  rewrite forallb_forall in H.
  specialize (H (N.to_nat c1)). rewrite in_seq in H.
  specialize (H ltac:(lia)).
  rewrite forallb_forall in H.
  specialize (H (N.to_nat c2)). rewrite in_seq in H.
  specialize (H ltac:(lia)).
  unfold pairOk in H. rewrite !N2Nat.id in H.
  rewrite H1, H2 in H. cbn [andb] in H.
  apply Z.eqb_eq in H. exact H.
Qed.

(** C4, amended.  [hexToUint8Array] never fails: for every input string it
    returns a byte buffer with one byte for each complete two-character
    chunk of the input (after the optional ["0x"] marker); byte [k] is
    [parseInt] of chunk [k] in radix 16 stored as a Uint8, that is the
    integer read modulo 256, or 0 when [parseInt] gives NaN; a chunk of two
    hexadecimal digits gives the value they write; and the last character
    of an input of odd length is ignored. *)
Theorem hexToUint8Array_total (hex : jsstring) :
  exists bytes,
    hexToUint8Array hex = Normal bytes
    /\ length bytes = (length (cleanHexOf hex) / 2)%nat
    /\ Forall isByte bytes
    /\ forall k, (k < length (cleanHexOf hex) / 2)%nat ->
         bytes !! k
         = Some (match parseInt (substring (cleanHexOf hex) (2 * k) (2 * k + 2)) 16 with
                 | Some n => n mod 256
                 | None => 0
                 end)
         /\ forall c1 c2,
              substring (cleanHexOf hex) (2 * k) (2 * k + 2) = [c1; c2] ->
              isHexDigit c1 = true -> isHexDigit c2 = true ->
              bytes !! k = Some (16 * hexDigitValue c1 + hexDigitValue c2).
Proof.
  exists (chunkByte (cleanHexOf hex) <$> seq 0 (length (cleanHexOf hex) / 2)).
  split; [apply hexToUint8Array_returns|].
  split; [rewrite length_fmap, length_seq; reflexivity|].
  split.
  - apply Forall_forall. intros z Hz.
    apply list_elem_of_fmap in Hz as (k & -> & _). apply ToUint8_isByte.
  - intros k Hk. unfold Uint8Array.
    rewrite list_lookup_fmap, lookup_seq_lt by exact Hk.
    cbn [fmap option_fmap option_map Nat.add]. unfold chunkByte.
    split; [reflexivity|].
    intros c1 c2 Hchunk H1 H2. rewrite Hchunk.
    f_equal. apply hex_pair_value; assumption.
Qed.

(** ** The transfer attempt *)

(** Symbolic execution of an attempt: the monad and the phases are unfolded
    and the answer of each external call is split into its cases, in the
    order in which the calls are made. *)
Ltac exec_unfold_in H :=
  cbv beta iota zeta delta
    [outcome events settledState attempt
     transferUSDC transferBody transferCatch resolveKeys ensureRecipientAccount
     buildTransfer senderSign sponsorSign submit
     bind ret lift call throw try_catch setTransferState hook trace fst snd] in H.

(** The library calls whose result the model builds are unfolded too, so
    that the transaction and its message appear field by field. *)
Ltac exec_unfold_tx_in H :=
  cbv beta iota zeta delta
    [withSenderSigner
     NEXT_PUBLIC_USDC_MINT_DEVNET NEXT_PUBLIC_TRANSFER_AMOUNT Number_toString
     String_toNumber PublicKey_new getAssociatedTokenAddress
     createTransferInstruction_check addSignature_check Message_serialize
     Transaction_serialize getAccountInfo getLatestBlockhash sendRawTransaction
     confirmTransaction sdk_signTransaction fetch_metakeep_sign
     defaultAmount
     createTransferInstruction Transaction_addSignature Transaction_serializeMessage
     compileMessage set_signature set_feePayer set_recentBlockhash Transaction_add
     Transaction_new feePayer recentBlockhash instructions signatures
     usdcMint userAPublicKey userBPublicKey devPublicKey userAATA userBATA] in H.

Ltac scrutinee t :=
  lazymatch t with
  | match ?c with Normal _ => _ | Throw _ => _ end => scrutinee c
  | match ?c with Some _ => _ | None => _ end => scrutinee c
  | match ?c with (_, _) => _ end => scrutinee c
  | if ?c then _ else _ => scrutinee c
  | (match ?c with Normal _ => _ | Throw _ => _ end) _ => scrutinee c
  | (match ?c with Some _ => _ | None => _ end) _ => scrutinee c
  | (match ?c with (_, _) => _ end) _ => scrutinee c
  | (if ?c then _ else _) _ => scrutinee c
  | _ => t
  end.

Ltac exec_step_in H :=
  cbv beta iota in H;
  lazymatch type of H with
  | (_, _) = _ => fail
  | ?run = _ =>
      let c := scrutinee run in
      lazymatch c with
      | hexToUint8Array ?x => rewrite (hexToUint8Array_returns x) in H
      | _ => destruct c eqn:?
      end;
      cbv beta iota in H
  end.

Ltac exec_in H :=
  exec_unfold_in H; repeat exec_step_in H;
  apply pair_equal_spec in H; destruct H as [? ?].

(** The hook state when [transferUSDC] settles: the success state when it
    returns, the error state when the [try] block throws, and the state it
    was called in when the default amount cannot be read. *)
Lemma transferUSDC_settles w a b d amt st :
  match transferUSDC w a b d amt st with
  | (Normal _, st') =>
      hook st' = {| isTransferring := false; error := None; success := true |}
  | (Throw e, st') =>
      hook st' = {| isTransferring := false; error := Some (errorMessage e);
                    success := false |}
      \/ (amt = None /\ st' = st)
  end.
Proof.
  destruct (transferUSDC w a b d amt st) as [out st'] eqn:Hrun.
  exec_in Hrun; subst; auto.
Qed.

Lemma settledState_settled w a b d amt h :
  settled h -> settled (settledState w a b d amt h).
Proof.
  intros Hh. unfold settledState, attempt.
  pose proof (transferUSDC_settles w a b d amt {| hook := h; trace := [] |}) as H.
  destruct (transferUSDC w a b d amt {| hook := h; trace := [] |}) as [[r|e] st'];
    simpl in *.
  - rewrite H. unfold settled. simpl. repeat split; congruence.
  - destruct H as [H|[_ ->]].
    + rewrite H. unfold settled. simpl. repeat split; congruence.
    + exact Hh.
Qed.

(** C10, as stated, fails: a call without an amount, in a world whose
    [NEXT_PUBLIC_TRANSFER_AMOUNT] is the empty string, made while another
    attempt is in flight, throws and leaves [isTransferring] true. *)
Lemma transferUSDC_settles_while_in_flight :
  outcome (withTransferAmount Demo.presentRecipient (Some []))
    (js "userA") (js "userB") (js "dev") None inFlight
  = Throw (ErrorObj
             (js "Missing required environment variable: "
              ++ js "NEXT_PUBLIC_TRANSFER_AMOUNT"
              ++ js ". Please ensure it is set in your .env file and restart the development server."))
  /\ isTransferring
       (settledState (withTransferAmount Demo.presentRecipient (Some []))
          (js "userA") (js "userB") (js "dev") None inFlight) = true
  /\ ~ settled
        (settledState (withTransferAmount Demo.presentRecipient (Some []))
           (js "userA") (js "userB") (js "dev") None inFlight).
Proof.
  split; [reflexivity|]. split; [reflexivity|].
  intros [H _]. discriminate H.
Qed.

(** C10, amended.  When a call of [transferUSDC] settles, from any state of
    the hook, [transferState] is [{isTransferring: false, error: null,
    success: true}] if the call returned and [{isTransferring: false,
    error: message, success: false}], with the message of the thrown value,
    if its [try] block threw.  The one exception is a call without an amount
    whose default amount cannot be read: it throws before the state is
    touched and leaves [transferState] exactly as it was.  So whenever the
    amount is given or can be read, [isTransferring] is false, [success] is
    true only with a null [error], and a non-null [error] only with
    [success] false; and this holds after every sequence of attempts, each
    started when the one before has settled, from the initial hook state. *)
Theorem transferState_settled_invariant w a b d amt (st : RunState)
    (attempts : list Attempt) :
  match fst (transferUSDC w a b d amt st) with
  | Normal _ => hook (snd (transferUSDC w a b d amt st)) = successState
  | Throw e =>
      hook (snd (transferUSDC w a b d amt st)) = errorState e
      \/ (amt = None /\ defaultAmount w = Throw e
          /\ snd (transferUSDC w a b d amt st) = st)
  end
  /\ ((exists x, resolvedAmount w amt = Normal x) ->
      settled (hook (snd (transferUSDC w a b d amt st))))
  /\ settled (afterAttempts attempts).
Proof.
  assert (match fst (transferUSDC w a b d amt st) with
          | Normal _ => hook (snd (transferUSDC w a b d amt st)) = successState
          | Throw e =>
              hook (snd (transferUSDC w a b d amt st)) = errorState e
              \/ (amt = None /\ defaultAmount w = Throw e
                  /\ snd (transferUSDC w a b d amt st) = st)
          end) as Hcall.
  { destruct (transferUSDC w a b d amt st) as [out st'] eqn:Hrun. cbn [fst snd].
    exec_in Hrun; subst; cbn [hook]; first [reflexivity | left; reflexivity | idtac].
    all: right; repeat split; assumption. }
  split; [exact Hcall|]. split.
  - intros [x Hx].
    destruct (fst (transferUSDC w a b d amt st)) as [r|e].
    + rewrite Hcall. unfold settled, successState. cbn. repeat split; congruence.
    + destruct Hcall as [->|[-> [He _]]].
      * unfold settled, errorState. cbn. repeat split; congruence.
      * cbn [resolvedAmount] in Hx. rewrite He in Hx. discriminate Hx.
  - unfold afterAttempts.
    assert (settled initialTransferState) as Hinit
      by (unfold settled; simpl; repeat split; congruence).
    revert Hinit. generalize initialTransferState as h.
    induction attempts as [|x attempts IH]; intros h Hh; simpl.
    + exact Hh.
    + apply IH. apply settledState_settled. exact Hh.
Qed.

Lemma transferState_settled_invariant_witness :
  settled (hook (snd (transferUSDC Demo.refusingSponsor (js "userA") (js "userB") (js "dev")
                        (Some (decimal 1 2)) {| hook := inFlight; trace := [] |}))).
Proof.
  apply (proj1 (proj2 (transferState_settled_invariant Demo.refusingSponsor
                         (js "userA") (js "userB") (js "dev") (Some (decimal 1 2))
                         {| hook := inFlight; trace := [] |} []))).
  exists (decimal 1 2). reflexivity.
Defined.

(** The cases of [H : In e evs] for an explicit list [evs]; those in which
    the two events are of different kinds are dropped. *)
Ltac find_event H :=
  cbn [hook trace app In] in H;
  repeat match type of H with
         | _ \/ _ => destruct H as [H|H]; [try discriminate H|]
         | False => destruct H
         end.

(** The recorded answers that the goal does not mention are dropped. *)
Ltac forget_answers :=
  repeat match goal with
         | H : _ = Normal ?x |- _ =>
             lazymatch goal with
             | |- context [x] => fail
             | _ => clear H
             end
         | H : _ = Throw _ |- _ => clear H
         | H : _ = Some _ |- _ => clear H
         | H : _ = None |- _ => clear H
         | H : _ = true |- _ => clear H
         | H : _ = false |- _ => clear H
         end.

(** Two recorded answers of the same call are the same answer. *)
Ltac same_call :=
  repeat match goal with
         | H1 : ?t = Normal _, H2 : ?t = _ |- _ => rewrite H1 in H2
         | H : Normal _ = Normal _ |- _ => injection H as H; subst
         | H : Normal _ = Throw _ |- _ => discriminate H
         | H : Throw _ = Normal _ |- _ => discriminate H
         end.

(** C5.  When the sponsor's signing call of an attempt reports failure (a
    non-OK response, a status other than SUCCESS, or a missing signature),
    the attempt ends with the sponsor-signing failure, and
    [sendRawTransaction] is not called in that attempt. *)
Theorem sponsor_failure_no_submission w a b d amt h hex reason resp :
  In (EvMetakeepSign (SignSponsor hex reason)) (events w a b d amt h) ->
  fetch_metakeep_sign w (SignSponsor hex reason) = Normal resp ->
  sponsorReportsFailure resp ->
  SponsorSigningFailed resp (outcome w a b d amt h) (settledState w a b d amt h)
  /\ forall raw, ~ In (EvSendRawTransaction raw) (events w a b d amt h).
Proof.
  unfold outcome, settledState, events.
  destruct (attempt w a b d amt h) as [out st'] eqn:Hrun. cbn [fst snd].
  intros Hin Hresp Hfail.
  unfold attempt in Hrun. exec_in Hrun; subst.
  all: find_event Hin.
  all: injection Hin as <- <-.
  all: match goal with
       | H : fetch_metakeep_sign _ (SignSponsor _ _) = _ |- _ =>
           rewrite Hresp in H; first [discriminate H | injection H as <-]
       end.
  all: unfold SponsorSigningFailed, sponsorFailureMessage; cbn [hook trace].
  all: destruct (ok resp) eqn:Hok; destruct (json resp) as [body0|e0] eqn:Hjs.
  all: cbn [negb] in *; try discriminate.
  all: destruct Hfail as [Hf|(body' & Hj & Hf)]; try discriminate.
  all: try (injection Hj as <-); same_call; try congruence.
  all: (split; [split; reflexivity | intros raw Hraw; find_event Hraw]).
Qed.

Lemma sponsor_failure_no_submission_witness :
  In (EvMetakeepSign (SignSponsor (js "0x0101")
                        (js "Developer gas sponsorship for USDC transfer")))
     (events Demo.refusingSponsor (js "userA") (js "userB") (js "dev")
        (Some (decimal 1 2)) initialTransferState)
  /\ sponsorReportsFailure Demo.failedResponse
  /\ SponsorSigningFailed Demo.failedResponse
       (outcome Demo.refusingSponsor (js "userA") (js "userB") (js "dev")
          (Some (decimal 1 2)) initialTransferState)
       (settledState Demo.refusingSponsor (js "userA") (js "userB") (js "dev")
          (Some (decimal 1 2)) initialTransferState)
  /\ forall raw,
       ~ In (EvSendRawTransaction raw)
           (events Demo.refusingSponsor (js "userA") (js "userB") (js "dev")
              (Some (decimal 1 2)) initialTransferState).
Proof.
  assert (In (EvMetakeepSign (SignSponsor (js "0x0101")
                                (js "Developer gas sponsorship for USDC transfer")))
             (events Demo.refusingSponsor (js "userA") (js "userB") (js "dev")
                (Some (decimal 1 2)) initialTransferState)) as Hin
    by (vm_compute; tauto).
  assert (sponsorReportsFailure Demo.failedResponse) as Hfail
    by (right; eexists; split; reflexivity).
  split; [exact Hin|]. split; [exact Hfail|].
  exact (sponsor_failure_no_submission Demo.refusingSponsor (js "userA") (js "userB")
           (js "dev") (Some (decimal 1 2)) initialTransferState _ _
           Demo.failedResponse Hin eq_refl Hfail).
Defined.

(** The request to the sponsor's signer, in one attempt: the hex text of the
    message of the transaction presented to the sender's signer. *)
Lemma sponsor_request_shape w a b d amt h p r :
  In (EvMetakeepSign (SignSponsor p r)) (events w a b d amt h) ->
  exists tx memo bytes,
    senderRequest w a b d amt = Some (tx, memo)
    /\ In (EvSdkSign tx memo) (events w a b d amt h)
    /\ signatures tx = []
    /\ Message_serialize w (compileMessage tx) = Normal bytes
    /\ p = toHex bytes
    /\ r = js "Developer gas sponsorship for USDC transfer".
Proof.
  unfold events.
  destruct (attempt w a b d amt h) as [out st'] eqn:Hrun. cbn [fst snd].
  intros Hin.
  destruct (senderRequest w a b d amt) as [request|] eqn:Hreq.
  all: unfold attempt in Hrun; unfold senderRequest in Hreq.
  all: exec_unfold_in Hreq; exec_unfold_tx_in Hreq.
  all: exec_unfold_in Hrun; exec_unfold_tx_in Hrun; repeat exec_step_in Hrun.
  all: apply pair_equal_spec in Hrun; destruct Hrun as [<- <-].
  all: find_event Hin.
  all: injection Hin as <- <-.
  all: cbv beta iota in Hreq; try discriminate Hreq.
  all: injection Hreq as <-.
  all: cbn [hook trace].
  all: eexists; eexists; eexists.
  all: split; [reflexivity|].
  all: split; [cbn [In app]; repeat (first [left; reflexivity | right])|].
  all: split; [reflexivity|].
  all: split; [eassumption|].
  all: split; reflexivity.
Qed.

Lemma senderRequest_withSenderSigner w s a b d amt :
  senderRequest (withSenderSigner w s) a b d amt = senderRequest w a b d amt.
Proof. reflexivity. Qed.

(** C6.  The request sent to the sponsor's signer carries only the hex text
    of the serialized message of the transaction that was given, without
    signatures, to the sender's signer, and a constant reason: the text is
    the marker followed by lower-case hexadecimal digits and decodes back to
    the bytes of the message.  Two attempts that differ only in what the
    sender's signer answers send the sponsor the same message text. *)
Theorem sponsor_payload_independent_of_sender_signature w s1 s2 a b d amt h p1 r1 p2 r2 :
  In (EvMetakeepSign (SignSponsor p1 r1)) (events (withSenderSigner w s1) a b d amt h) ->
  In (EvMetakeepSign (SignSponsor p2 r2)) (events (withSenderSigner w s2) a b d amt h) ->
  p1 = p2 /\ r1 = r2
  /\ exists tx memo bytes,
       In (EvSdkSign tx memo) (events (withSenderSigner w s1) a b d amt h)
       /\ signatures tx = []
       /\ Message_serialize w (compileMessage tx) = Normal bytes
       /\ p1 = toHex bytes
       /\ (Forall isByte bytes ->
           hexToUint8Array p1 = Normal bytes
           /\ startsWith p1 (js "0x") = true
           /\ forallb isLowerHexDigit (slice p1 2) = true)
       /\ r1 = js "Developer gas sponsorship for USDC transfer".
Proof.
  intros Hin1 Hin2.
  apply sponsor_request_shape in Hin1
    as (tx1 & memo1 & bytes1 & Hreq1 & Hsdk1 & Hsig1 & Hmsg1 & -> & ->).
  apply sponsor_request_shape in Hin2
    as (tx2 & memo2 & bytes2 & Hreq2 & _ & _ & Hmsg2 & -> & ->).
  rewrite senderRequest_withSenderSigner in Hreq1, Hreq2.
  rewrite Hreq1 in Hreq2. injection Hreq2 as <- <-.
  change (Message_serialize w (compileMessage tx1) = Normal bytes1) in Hmsg1.
  change (Message_serialize w (compileMessage tx1) = Normal bytes2) in Hmsg2.
  rewrite Hmsg1 in Hmsg2. injection Hmsg2 as <-.
  split; [reflexivity|]. split; [reflexivity|].
  exists tx1, memo1, bytes1.
  repeat (split; [assumption || reflexivity|]).
  split; [|reflexivity].
  intros Hbytes. split; [exact (toHex_decodes bytes1 Hbytes)|].
  exact (toHex_shape bytes1 Hbytes).
Qed.

Lemma sponsor_payload_independent_witness :
  In (EvMetakeepSign (SignSponsor (js "0x0101")
                        (js "Developer gas sponsorship for USDC transfer")))
     (events (withSenderSigner Demo.presentRecipient
                (fun _ _ => Normal (Some {| sdk_signature := js "0x0a" |})))
        (js "userA") (js "userB") (js "dev") (Some (decimal 1 2)) initialTransferState)
  /\ In (EvMetakeepSign (SignSponsor (js "0x0101")
                           (js "Developer gas sponsorship for USDC transfer")))
        (events (withSenderSigner Demo.presentRecipient
                   (fun _ _ => Normal (Some {| sdk_signature := js "0xff" |})))
           (js "userA") (js "userB") (js "dev") (Some (decimal 1 2)) initialTransferState)
  /\ js "0x0101" = js "0x0101"
  /\ hexToUint8Array (js "0x0101") = Normal [1; 1].
Proof.
  assert (In (EvMetakeepSign (SignSponsor (js "0x0101")
                                (js "Developer gas sponsorship for USDC transfer")))
             (events (withSenderSigner Demo.presentRecipient
                        (fun _ _ => Normal (Some {| sdk_signature := js "0x0a" |})))
                (js "userA") (js "userB") (js "dev") (Some (decimal 1 2))
                initialTransferState)) as H1
    by (vm_compute; tauto).
  assert (In (EvMetakeepSign (SignSponsor (js "0x0101")
                                (js "Developer gas sponsorship for USDC transfer")))
             (events (withSenderSigner Demo.presentRecipient
                        (fun _ _ => Normal (Some {| sdk_signature := js "0xff" |})))
                (js "userA") (js "userB") (js "dev") (Some (decimal 1 2))
                initialTransferState)) as H2
    by (vm_compute; tauto).
  split; [exact H1|]. split; [exact H2|].
  destruct (sponsor_payload_independent_of_sender_signature
              Demo.presentRecipient _ _ _ _ _ _ _ _ _ _ _ H1 H2)
    as [Hp [_ (tx & memo & bytes & Hsdk & _ & Hmsg & _ & Hdecode & _)]].
  split; [exact Hp|].
  assert (bytes = [1; 1]) as ->.
  { vm_compute in Hsdk.
    repeat (destruct Hsdk as [Hsdk|Hsdk]; [try discriminate Hsdk|]); [|destruct Hsdk].
    injection Hsdk as <- _. vm_compute in Hmsg. injection Hmsg as <-. reflexivity. }
  apply Hdecode. repeat constructor; unfold isByte; lia.
Defined.

(** ** The setup transaction *)

(** In every world, whatever is handed to [sendRawTransaction] is the
    serialization of a transaction whose only instruction is the token
    transfer: the setup transaction is never submitted. *)
Lemma submission_is_the_transfer w a b d amt h raw :
  In (EvSendRawTransaction raw) (events w a b d amt h) ->
  exists tx source destination owner amount,
    Transaction_serialize w tx true = Normal raw
    /\ instructions tx = [TokenTransfer source destination owner amount].
Proof.
  unfold events.
  destruct (attempt w a b d amt h) as [out st'] eqn:Hrun. cbn [fst snd].
  intros Hin. unfold attempt in Hrun.
  exec_unfold_in Hrun. exec_unfold_tx_in Hrun. repeat exec_step_in Hrun.
  all: apply pair_equal_spec in Hrun; destruct Hrun as [<- <-].
  all: find_event Hin.
  all: injection Hin as <-.
  all: eexists; eexists; eexists; eexists; eexists.
  all: (split; [eassumption | reflexivity]).
Qed.

(** In every world, the setup request carries the serialization, without
    required signatures, of [ataTransaction] and the wallet id ["master"]. *)
Lemma setup_request_is_ataTransaction w a b d amt h raw walletId :
  In (EvMetakeepSign (SignSetup raw walletId)) (events w a b d amt h) ->
  walletId = js "master"
  /\ exists k, Transaction_serialize w (ataTransaction k) false = Normal raw.
Proof.
  unfold events.
  destruct (attempt w a b d amt h) as [out st'] eqn:Hrun. cbn [fst snd].
  intros Hin. unfold attempt in Hrun. exec_in Hrun; subst.
  all: find_event Hin.
  all: injection Hin as <- <-.
  all: (split; [reflexivity | eexists; eassumption]).
Qed.

(** C1, the code at an attempt whose recipient has no token account and in
    which every call succeeds: the setup transaction (one instruction, no
    signature, no fee payer) is sent to the signing proxy only; the single
    call of [sendRawTransaction] carries the transfer transaction (one
    instruction, two signatures, a fee payer), and the blockhash of the
    transfer is fetched right after the signing request, with no submission
    and no confirmation of the setup transaction in between or later. *)
Lemma absent_recipient_setup_not_submitted :
  map eventKind
    (events Demo.absentRecipient (js "userA") (js "userB") (js "dev")
       (Some (decimal 1 2)) initialTransferState)
  = [KGetAccountInfo; KSignSetup; KGetLatestBlockhash; KSdkSign; KSignSponsor;
     KSendRawTransaction; KConfirmTransaction]
  /\ In (EvMetakeepSign (SignSetup [1; 0; 0] (js "master")))
        (events Demo.absentRecipient (js "userA") (js "userB") (js "dev")
           (Some (decimal 1 2)) initialTransferState)
  /\ submitted
       (events Demo.absentRecipient (js "userA") (js "userB") (js "dev")
          (Some (decimal 1 2)) initialTransferState)
     = [[1; 2; 1]].
Proof.
  split; [vm_compute; reflexivity|].
  split; [vm_compute; tauto | vm_compute; reflexivity].
Qed.

(** C7, the code for every set of keys: the setup transaction has the single
    account-creation instruction funded by the sponsor and the sponsor is
    the only key that has to sign, but neither a fee payer nor a blockhash is
    set on it (the transfer transaction gets both at lines 102-103). *)
Lemma setup_transaction_has_no_fee_payer (k : Keys) :
  instructions (ataTransaction k)
  = [CreateAssociatedTokenAccount (devPublicKey k) (userBATA k) (userBPublicKey k)
       (usdcMint k)]
  /\ required_signers (ataTransaction k) = [devPublicKey k]
  /\ feePayer (ataTransaction k) = None
  /\ recentBlockhash (ataTransaction k) = None.
Proof. repeat split. Qed.

(** When the recipient's token account exists, no setup transaction is
    produced: the lookup is the only external call before the transfer is
    built. *)
Lemma ensureRecipientAccount_present w k st info :
  getAccountInfo w (userBATA k) = Normal (Some info) ->
  ensureRecipientAccount w k st
  = (Normal tt, {| hook := hook st; trace := trace st ++ [EvGetAccountInfo (userBATA k)] |}).
Proof.
  intros H. unfold ensureRecipientAccount, bind, call, ret. rewrite H. reflexivity.
Qed.

(** ** Amounts *)

(** C8, the code at three amounts: 0.01 and 0.29 become 10000 and 290000
    base units, but 2.01 becomes 2009999, one base unit less than 2010000:
    the product [2.01 * 1_000_000] is the Number just below 2010000 and
    [Math.floor] drops its fraction. *)
Lemma transferAmount_examples :
  transferAmount (decimal 1 2) = Number_of_Z 10000
  /\ transferAmount (decimal 29 2) = Number_of_Z 290000
  /\ transferAmount (decimal 201 2) = Number_of_Z 2009999
  /\ Number_lt (Number_mul (decimal 201 2) (Number_of_Z 1000000)) (Number_of_Z 2010000) = true
  /\ createTransferInstruction Demo.presentRecipient (userAATA Demo.keys)
       (userBATA Demo.keys) (userAPublicKey Demo.keys) (transferAmount (decimal 201 2))
     = Normal (TokenTransfer (userAATA Demo.keys) (userBATA Demo.keys)
                 (userAPublicKey Demo.keys) (Number_of_Z 2009999)).
Proof. repeat split; vm_compute; reflexivity. Qed.

(** ** The balance gate *)

(** The gate, once set, stops the handler before any external call. *)
Lemma handleTransferUSDC_gated w d amount s st :
  hasInsufficientUSDC s = true ->
  snd (handleTransferUSDC w d amount s st) = st.
Proof.
  intros H. unfold handleTransferUSDC. rewrite H.
  destruct (negb _); reflexivity.
Qed.

(** A sender holding 0.004 is reported as ["0.00"]; the gate is set and the
    handler makes no external call. *)
Example gate_blocks_reported_low_balance :
  POST (Demo.route [decimal 4 3])
  = {| http_status := 200; body := BalanceSuccess (js "0.00") |}
  /\ hasInsufficientUSDC
       (watchUSDCBalance (Some (js "0.00 USDC")) (decimal 1 2) initialAppState) = true
  /\ trace (snd (handleTransferUSDC Demo.presentRecipient Demo.deps (decimal 1 2)
                   (watchUSDCBalance (Some (js "0.00 USDC")) (decimal 1 2)
                      initialAppState)
                   {| hook := initialTransferState; trace := [] |})) = [].
Proof. repeat split; vm_compute; reflexivity. Qed.

(** C2, the code for a sender whose only token account holds 0.005 and a
    transfer amount of 0.01: the aggregator reports ["0.01"], the gate
    compares 0.01 with 0.01 and is not set, and the handler goes on to the
    sender's signer, the sponsor's signer and the submission. *)
Lemma low_balance_passes_gate :
  Number_lt (decimal 5 3) (decimal 1 2) = true
  /\ POST (Demo.route [decimal 5 3])
     = {| http_status := 200; body := BalanceSuccess (js "0.01") |}
  /\ fetchUSDCBalance (Normal (POST (Demo.route [decimal 5 3]))) = Normal (js "0.01 USDC")
  /\ configuredTransferAmount Demo.presentRecipient = decimal 1 2
  /\ hasInsufficientUSDC
       (watchUSDCBalance (Some (js "0.01 USDC")) (decimal 1 2) initialAppState) = false
  /\ map eventKind
       (trace (snd (handleTransferUSDC Demo.presentRecipient Demo.deps (decimal 1 2)
                      (watchUSDCBalance (Some (js "0.01 USDC")) (decimal 1 2)
                         initialAppState)
                      {| hook := initialTransferState; trace := [] |})))
     = [KGetAccountInfo; KGetLatestBlockhash; KSdkSign; KSignSponsor;
        KSendRawTransaction; KConfirmTransaction].
Proof. repeat split; vm_compute; reflexivity. Qed.

(** ** The balance aggregator *)

(** C9, as stated, fails: for two token accounts holding 0.001 and 0.002 the
    aggregator reports ["0.00"], not their sum 0.003. *)
Lemma POST_does_not_report_exact_sum :
  POST (Demo.route [decimal 1 3; decimal 2 3])
  = {| http_status := 200; body := BalanceSuccess (js "0.00") |}
  /\ totalBalance (Some [ {| uiAmount := Some (decimal 1 3) |};
                          {| uiAmount := Some (decimal 2 3) |} ]) = decimal 3 3
  /\ reportedBalance (POST (Demo.route [decimal 1 3; decimal 2 3]))
     <> Some (decimal 3 3).
Proof.
  split; [vm_compute; reflexivity|].
  split; [vm_compute; reflexivity|].
  vm_compute. discriminate.
Qed.

(** C9, amended.  For a well-formed address and a successful RPC reply, the
    aggregator answers with status 200 (SUCCESS) and [balance] the sum of the
    accounts' [uiAmount]s (a null or zero [uiAmount] counts as 0), added in
    binary64 in the order of the reply and printed with [toFixed(2)], that is
    rounded to two decimals; for two accounts it prints their rounded sum and
    for no account ["0.00"], not an error. *)
Theorem POST_reports_rounded_sum w address rpcUrl usdcMint response data :
  request_address w = Normal (StringAddress address) ->
  address <> [] ->
  addressShape (trim address) = true ->
  requirePublicEnv (NEXT_PUBLIC_SOLANA_DEVNET_RPC w) (js "NEXT_PUBLIC_SOLANA_DEVNET_RPC") None
  = Normal rpcUrl ->
  requirePublicEnv (USDC_MINT_DEVNET w) (js "NEXT_PUBLIC_USDC_MINT_DEVNET") None
  = Normal usdcMint ->
  fetch_rpc w rpcUrl (trim address) usdcMint = Normal response ->
  rpc_ok response = true ->
  rpc_json response = Normal data ->
  rpc_error data = None ->
  POST w = {| http_status := 200;
              body := BalanceSuccess
                        (toFixed (toStringLarge w) (totalBalance (rpc_value data)) 2) |}
  /\ (forall x y, rpc_value data = Some [x; y] ->
        totalBalance (rpc_value data)
        = Number_add (Number_add (S754_zero false) (amountOrZero x)) (amountOrZero y))
  /\ (rpc_value data = Some [] \/ rpc_value data = None ->
        POST w = {| http_status := 200; body := BalanceSuccess (js "0.00") |}).
Proof.
  intros Haddr Hne Hshape Hurl Hmint Hfetch Hok Hjson Herr.
  assert (POST w = {| http_status := 200;
                      body := BalanceSuccess
                                (toFixed (toStringLarge w)
                                   (totalBalance (rpc_value data)) 2) |}) as HP.
  { unfold POST, POST_try. rewrite Haddr.
    destruct address as [|c address]; [congruence|].
    cbn [addressMissing address_trim]. rewrite Hshape. cbn [negb].
    rewrite Hurl, Hmint, Hfetch, Hok. cbn [negb].
    rewrite Hjson, Herr. reflexivity. }
  split; [exact HP|]. split.
  - intros x y ->. reflexivity.
  - intros [H|H]; rewrite HP, H; reflexivity.
Qed.

Lemma POST_reports_rounded_sum_witness :
  POST (Demo.route [decimal 125 2; decimal 25 1])
  = {| http_status := 200; body := BalanceSuccess (js "3.75") |}
  /\ POST (Demo.route []) = {| http_status := 200; body := BalanceSuccess (js "0.00") |}.
Proof.
  assert (js "4Nd1mBQtrMJVYVfKf2PJy9NZUZdTAsp7D4xWLs4gDB4T" <> []) as Hne
    by (vm_compute; discriminate).
  split.
  - exact (proj1 (POST_reports_rounded_sum (Demo.route [decimal 125 2; decimal 25 1])
                    _ _ _ _ _ eq_refl Hne eq_refl eq_refl eq_refl eq_refl eq_refl
                    eq_refl eq_refl)).
  - exact (proj2 (proj2 (POST_reports_rounded_sum (Demo.route [])
                           _ _ _ _ _ eq_refl Hne eq_refl eq_refl eq_refl eq_refl
                           eq_refl eq_refl eq_refl))
             (or_introl eq_refl)).
Defined.

(** * Further properties *)

(** ** The order and the content of the external calls *)

(** X1.  In every attempt the external calls are made in one fixed
    order, each at most once: the account lookup, the setup request (only
    after a lookup), the blockhash, the sender's signer, the sponsor's
    signer, the submission and the confirmation.  An attempt that stops
    early has made an initial part of that sequence. *)
Theorem calls_follow_the_protocol_order w a b d amt h :
  exists setup, map eventKind (events w a b d amt h) `prefix_of` callOrder setup.
Proof.
  unfold events.
  destruct (attempt w a b d amt h) as [out st'] eqn:Hrun. cbn [fst snd].
  unfold attempt in Hrun. exec_in Hrun; subst.
  all: cbn [hook trace app map eventKind].
  all: first [ exists false; eexists; reflexivity | exists true; eexists; reflexivity ].
Qed.

(** X2.  What is presented to the sender's signer, in every world:
    an unsigned transaction with the latest blockhash, the developer wallet
    as fee payer and one instruction, the transfer of
    [Math.floor(amount * 1_000_000)] from the sender's token account to the
    recipient's, authorised by the sender; so the keys that have to sign are
    the developer's and the sender's. *)
Theorem sender_signs_the_sponsored_transfer w a b d amt h tx memo :
  In (EvSdkSign tx memo) (events w a b d amt h) ->
  exists amount mintText mint kA kB kD ataA ataB blockhash,
    resolvedAmount w amt = Normal amount
    /\ requirePublicEnv (NEXT_PUBLIC_USDC_MINT_DEVNET w)
         (js "NEXT_PUBLIC_USDC_MINT_DEVNET") None = Normal mintText
    /\ PublicKey_new w mintText = Normal mint
    /\ PublicKey_new w a = Normal kA
    /\ PublicKey_new w b = Normal kB
    /\ PublicKey_new w d = Normal kD
    /\ getAssociatedTokenAddress w mint kA = Normal ataA
    /\ getAssociatedTokenAddress w mint kB = Normal ataB
    /\ getLatestBlockhash w = Normal blockhash
    /\ tx = {| instructions := [TokenTransfer ataA ataB kA (transferAmount amount)];
               feePayer := Some kD;
               recentBlockhash := Some blockhash;
               signatures := [] |}
    /\ required_signers tx = [kD; kA]
    /\ memo = js "Transfer " ++ Number_toString w amount ++ js " USDC to User B".
Proof.
  unfold events.
  destruct (attempt w a b d amt h) as [out st'] eqn:Hrun. cbn [fst snd].
  intros Hin. unfold attempt in Hrun.
  exec_unfold_in Hrun.
  cbv beta iota zeta delta
    [createTransferInstruction set_feePayer set_recentBlockhash Transaction_add
     Transaction_new feePayer recentBlockhash instructions signatures
     usdcMint userAPublicKey userBPublicKey devPublicKey userAATA userBATA] in Hrun.
  repeat exec_step_in Hrun.
  all: apply pair_equal_spec in Hrun; destruct Hrun as [<- <-].
  all: find_event Hin.
  all: injection Hin as <- <-.
  all: do 9 eexists.
  all: repeat (split; [first [eassumption | reflexivity]|]).
  all: reflexivity.
Qed.

Lemma sender_signs_the_sponsored_transfer_witness :
  In (EvSdkSign demoTransfer demoMemo)
     (events Demo.presentRecipient (js "userA") (js "userB") (js "dev")
        (Some (decimal 1 2)) initialTransferState)
  /\ required_signers demoTransfer = [Demo.key "dev"; Demo.key "userA"].
Proof.
  assert (In (EvSdkSign demoTransfer demoMemo)
            (events Demo.presentRecipient (js "userA") (js "userB") (js "dev")
               (Some (decimal 1 2)) initialTransferState)) as Hin
    by (vm_compute; tauto).
  split; [exact Hin|].
  destruct (sender_signs_the_sponsored_transfer _ _ _ _ _ _ _ _ Hin)
    as (amount & mintText & mint & kA & kB & kD & ataA & ataB & blockhash
        & _ & _ & _ & HkA & _ & HkD & _ & _ & _ & _ & Hreq & _).
  injection HkA as <-. injection HkD as <-. exact Hreq.
Defined.

(** X3.  When [transferUSDC] returns, the transaction that was
    submitted is the one presented, unsigned, to the sender's signer, with
    the decoded sender signature put under the sender's key and then the
    decoded sponsor signature under the developer's key: these two
    signatures and no other when the two keys differ, and the sponsor's
    signature alone when sender and developer are the same key, since the
    second signature then replaces the first.  The sponsor's reply had
    status SUCCESS and a signature; the returned [signature] is what
    [sendRawTransaction] answered and its confirmation carried no error;
    all calls of the protocol were made and the hook is in the success
    state. *)
Theorem success_means_submitted_and_confirmed w a b d amt h r :
  outcome w a b d amt h = Normal r ->
  res_success r = true
  /\ settledState w a b d amt h = successState
  /\ (exists setup, map eventKind (events w a b d amt h) = callOrder setup)
  /\ signingFailed (res_developerSignature r) = false
  /\ exists tx memo kA kD bytesA bytesD raw,
       In (EvSdkSign tx memo) (events w a b d amt h)
       /\ signatures tx = []
       /\ sdk_signTransaction w tx memo = Normal (Some (res_userSignature r))
       /\ PublicKey_new w a = Normal kA
       /\ PublicKey_new w d = Normal kD
       /\ hexToUint8Array (sdk_signature (res_userSignature r)) = Normal bytesA
       /\ hexToUint8Array (or_else (signature (res_developerSignature r)) [])
          = Normal bytesD
       /\ Transaction_serialize w
            (set_signature (set_signature tx kA bytesA) kD bytesD) true = Normal raw
       /\ signatures (set_signature (set_signature tx kA bytesA) kD bytesD)
          = (if PublicKey_eqb kA kD then [(kD, bytesD)]
             else [(kA, bytesA); (kD, bytesD)])
       /\ In (EvSendRawTransaction raw) (events w a b d amt h)
       /\ sendRawTransaction w raw = Normal (res_signature r)
       /\ confirmTransaction w (res_signature r) = Normal None.
Proof.
  unfold outcome, settledState, events.
  destruct (attempt w a b d amt h) as [out st'] eqn:Hrun. cbn [fst snd].
  intros Hout. unfold attempt in Hrun.
  exec_unfold_in Hrun.
  cbv beta iota zeta delta
    [Transaction_addSignature usdcMint userAPublicKey userBPublicKey devPublicKey
     userAATA userBATA] in Hrun.
  repeat exec_step_in Hrun.
  all: apply pair_equal_spec in Hrun; destruct Hrun as [<- <-].
  all: try discriminate Hout.
  all: injection Hout as <-.
  all: cbn [hook trace app map eventKind res_success res_developerSignature
            res_userSignature res_signature].
  all: split; [reflexivity|]; split; [reflexivity|].
  all: split; [first [exists false; reflexivity | exists true; reflexivity]|].
  all: split; [assumption|].
  all: do 7 eexists.
  all: split; [cbn [In]; repeat (first [left; reflexivity | right])|].
  all: split; [reflexivity|].
  all: split; [first [eassumption | reflexivity]|].
  all: split; [first [eassumption | reflexivity]|].
  all: split; [first [eassumption | reflexivity]|].
  all: split; [apply hexToUint8Array_returns|].
  all: split; [apply hexToUint8Array_returns|].
  all: split; [eassumption|].
  all: split; [reflexivity|].
  all: split; [cbn [In]; repeat (first [left; reflexivity | right])|].
  all: split; first [eassumption | reflexivity].
Qed.

Lemma success_means_submitted_and_confirmed_witness :
  outcome Demo.presentRecipient (js "userA") (js "userB") (js "dev")
    (Some (decimal 1 2)) initialTransferState = Normal demoResult
  /\ settledState Demo.presentRecipient (js "userA") (js "userB") (js "dev")
       (Some (decimal 1 2)) initialTransferState = successState.
Proof.
  assert (outcome Demo.presentRecipient (js "userA") (js "userB") (js "dev")
            (Some (decimal 1 2)) initialTransferState = Normal demoResult) as Hout
    by (vm_compute; reflexivity).
  split; [exact Hout|].
  exact (proj1 (proj2 (success_means_submitted_and_confirmed _ _ _ _ _ _ _ Hout))).
Defined.

(** ** Failures, step by step *)

(** A recorded answer of a call that differs from the answer [Hfact] of the
    same call closes the case. *)
Ltac clash Hfact :=
  try match goal with
      | H : _ = _ |- _ =>
          let Hc := fresh in
          pose proof (eq_trans (eq_sym H) Hfact) as Hc; discriminate Hc
      end.

(** X4.  When the ledger never reports the recipient's token account
    as absent, no setup request is sent to the signing proxy. *)
Theorem existing_account_needs_no_setup w a b d amt h :
  (forall k, getAccountInfo w k <> Normal None) ->
  forall raw walletId,
    ~ In (EvMetakeepSign (SignSetup raw walletId)) (events w a b d amt h).
Proof.
  unfold events.
  destruct (attempt w a b d amt h) as [out st'] eqn:Hrun. cbn [fst snd].
  intros Hpresent raw walletId Hin. unfold attempt in Hrun.
  exec_in Hrun; subst.
  all: find_event Hin.
  all: match goal with
       | H : getAccountInfo _ ?k = Normal None |- _ => exact (Hpresent k H)
       end.
Qed.

Lemma existing_account_needs_no_setup_witness :
  (forall k, getAccountInfo Demo.presentRecipient k <> Normal None)
  /\ forall raw walletId,
       ~ In (EvMetakeepSign (SignSetup raw walletId))
           (events Demo.presentRecipient (js "userA") (js "userB") (js "dev")
              (Some (decimal 1 2)) initialTransferState).
Proof.
  assert (forall k, getAccountInfo Demo.presentRecipient k <> Normal None) as H
    by (intros k; simpl; discriminate).
  split; [exact H|].
  exact (existing_account_needs_no_setup Demo.presentRecipient (js "userA") (js "userB")
           (js "dev") (Some (decimal 1 2)) initialTransferState H).
Defined.

(** X5.  With a library that refuses to serialize a transaction without a
    recent blockhash, as @solana/web3.js does, an attempt whose recipient
    has no token account cannot get past the setup: the setup transaction
    is built without a blockhash, so its serialization throws, and the
    attempt ends with that error in the hook after the account lookup as its
    only external call.  No request reaches the signing proxy, no signer is
    asked and nothing is submitted. *)
Theorem absent_recipient_stops_before_any_request w a b d amt h e0 :
  (forall k, getAccountInfo w k = Normal None) ->
  (forall tx verify, recentBlockhash tx = None -> Transaction_serialize w tx verify = Throw e0) ->
  (exists e, outcome w a b d amt h = Throw e)
  /\ (map eventKind (events w a b d amt h) = []
      \/ map eventKind (events w a b d amt h) = [KGetAccountInfo])
  /\ (map eventKind (events w a b d amt h) = [KGetAccountInfo] ->
      outcome w a b d amt h = Throw e0
      /\ settledState w a b d amt h = errorState e0).
Proof.
  unfold outcome, settledState, events.
  destruct (attempt w a b d amt h) as [out st'] eqn:Hrun. cbn [fst snd].
  intros Habsent Hlib. unfold attempt in Hrun.
  exec_in Hrun; subst.
  all: try match goal with
           | H : getAccountInfo _ ?k = _ |- _ =>
               let Hc := fresh in
               pose proof (eq_trans (eq_sym H) (Habsent k)) as Hc; discriminate Hc
           end.
  all: try match goal with
           | H : Transaction_serialize _ ?tx ?v = _ |- _ =>
               let Hc := fresh in
               pose proof (eq_trans (eq_sym H) (Hlib tx v eq_refl)) as Hc;
               first [discriminate Hc | injection Hc as ->]
           end.
  all: cbn [hook trace app map eventKind].
  all: split; [eexists; reflexivity|].
  all: split; [first [left; reflexivity | right; reflexivity]|].
  all: intros Hk; first [discriminate Hk | split; reflexivity].
Qed.

Lemma absent_recipient_stops_before_any_request_witness :
  outcome (withSerializer Demo.absentRecipient
             (blockhashRequired (Transaction_serialize Demo.absentRecipient)))
    (js "userA") (js "userB") (js "dev") (Some (decimal 1 2)) initialTransferState
  = Throw (ErrorObj (js "Transaction recentBlockhash required"))
  /\ map eventKind
       (events (withSerializer Demo.absentRecipient
                  (blockhashRequired (Transaction_serialize Demo.absentRecipient)))
          (js "userA") (js "userB") (js "dev") (Some (decimal 1 2)) initialTransferState)
     = [KGetAccountInfo].
Proof.
  assert (map eventKind
            (events (withSerializer Demo.absentRecipient
                       (blockhashRequired (Transaction_serialize Demo.absentRecipient)))
               (js "userA") (js "userB") (js "dev") (Some (decimal 1 2))
               initialTransferState)
          = [KGetAccountInfo]) as Hk
    by (vm_compute; reflexivity).
  split; [|exact Hk].
  refine (proj1 (proj2 (proj2 (absent_recipient_stops_before_any_request
                                 (withSerializer Demo.absentRecipient
                                    (blockhashRequired
                                       (Transaction_serialize Demo.absentRecipient)))
                                 (js "userA") (js "userB") (js "dev") (Some (decimal 1 2))
                                 initialTransferState
                                 (ErrorObj (js "Transaction recentBlockhash required"))
                                 (fun _ => eq_refl) _)) Hk)).
  intros tx verify Hnone. cbn [Transaction_serialize withSerializer].
  unfold blockhashRequired. rewrite Hnone. reflexivity.
Defined.

(** X6.  When the sender's signer resolves without a signature, the
    attempt throws "User signature was not provided by MetaKeep.", the hook
    holds that message, the sponsor's signer is not asked and nothing is
    submitted. *)
Theorem missing_sender_signature_stops_the_attempt w a b d amt h tx memo :
  In (EvSdkSign tx memo) (events w a b d amt h) ->
  sdk_signTransaction w tx memo = Normal None ->
  outcome w a b d amt h
  = Throw (ErrorObj (js "User signature was not provided by MetaKeep."))
  /\ settledState w a b d amt h
     = errorState (ErrorObj (js "User signature was not provided by MetaKeep."))
  /\ (forall hex reason,
        ~ In (EvMetakeepSign (SignSponsor hex reason)) (events w a b d amt h))
  /\ (forall raw, ~ In (EvSendRawTransaction raw) (events w a b d amt h)).
Proof.
  unfold outcome, settledState, events.
  destruct (attempt w a b d amt h) as [out st'] eqn:Hrun. cbn [fst snd].
  intros Hin Hsdk. unfold attempt in Hrun.
  exec_in Hrun; subst.
  all: find_event Hin.
  all: injection Hin as <- <-.
  all: clash Hsdk.
  all: cbn [hook trace].
  all: split; [reflexivity|]; split; [reflexivity|].
  all: split; [intros hex reason Hev | intros raw' Hev]; find_event Hev.
Qed.

Lemma missing_sender_signature_stops_the_attempt_witness :
  In (EvSdkSign demoTransfer demoMemo)
     (events (withSenderSigner Demo.presentRecipient (fun _ _ => Normal None))
        (js "userA") (js "userB") (js "dev") (Some (decimal 1 2)) initialTransferState)
  /\ outcome (withSenderSigner Demo.presentRecipient (fun _ _ => Normal None))
       (js "userA") (js "userB") (js "dev") (Some (decimal 1 2)) initialTransferState
     = Throw (ErrorObj (js "User signature was not provided by MetaKeep.")).
Proof.
  assert (In (EvSdkSign demoTransfer demoMemo)
            (events (withSenderSigner Demo.presentRecipient (fun _ _ => Normal None))
               (js "userA") (js "userB") (js "dev") (Some (decimal 1 2))
               initialTransferState)) as Hin
    by (vm_compute; tauto).
  split; [exact Hin|].
  exact (proj1 (missing_sender_signature_stops_the_attempt
                  (withSenderSigner Demo.presentRecipient (fun _ _ => Normal None))
                  _ _ _ _ _ _ _ Hin eq_refl)).
Defined.

(** X7.  When the confirmation of the submitted transaction carries
    an error, the attempt throws "Transaction failed: " followed by the JSON
    text of the error, so the name of an error appears in double quotes, and
    the hook holds that message; the transaction had already been
    submitted. *)
Theorem confirmation_error_fails_after_submission w a b d amt h txid err :
  In (EvConfirmTransaction txid) (events w a b d amt h) ->
  confirmTransaction w txid = Normal (Some err) ->
  outcome w a b d amt h
  = Throw (ErrorObj (js "Transaction failed: "
                     ++ JSON_stringify (Number_toString w) (TransactionError_value err)))
  /\ settledState w a b d amt h
     = errorState (ErrorObj (js "Transaction failed: "
                             ++ JSON_stringify (Number_toString w)
                                  (TransactionError_value err)))
  /\ (forall first rest,
        err = ErrorName first rest ->
        outcome w a b d amt h
        = Throw (ErrorObj (js "Transaction failed: "
                           ++ [34%N] ++ quoteChars (first :: rest) ++ [34%N])))
  /\ exists raw,
       In (EvSendRawTransaction raw) (events w a b d amt h)
       /\ sendRawTransaction w raw = Normal txid.
Proof.
  unfold outcome, settledState, events.
  destruct (attempt w a b d amt h) as [out st'] eqn:Hrun. cbn [fst snd].
  intros Hin Hconf. unfold attempt in Hrun.
  exec_in Hrun; subst.
  all: find_event Hin.
  all: injection Hin as <-.
  all: match goal with
       | H : confirmTransaction _ _ = _ |- _ =>
           let Hc := fresh in
           pose proof (eq_trans (eq_sym H) Hconf) as Hc;
           first [discriminate Hc | injection Hc as ->]
       end.
  all: cbn [hook trace].
  all: split; [reflexivity|]; split; [reflexivity|].
  all: split; [intros first rest ->; reflexivity|].
  all: eexists; split; [cbn [In app]; repeat (first [left; reflexivity | right])
                       | eassumption].
Qed.

Lemma confirmation_error_fails_after_submission_witness :
  In (EvConfirmTransaction (js "txid"))
     (events (withConfirmation Demo.presentRecipient
                (fun _ => Normal (Some (ErrorName 65%N (js "ccountInUse")))))
        (js "userA") (js "userB") (js "dev") (Some (decimal 1 2)) initialTransferState)
  /\ outcome (withConfirmation Demo.presentRecipient
                (fun _ => Normal (Some (ErrorName 65%N (js "ccountInUse")))))
       (js "userA") (js "userB") (js "dev") (Some (decimal 1 2)) initialTransferState
     = Throw (ErrorObj (js "Transaction failed: " ++ [34%N] ++ js "AccountInUse" ++ [34%N])).
Proof.
  assert (In (EvConfirmTransaction (js "txid"))
            (events (withConfirmation Demo.presentRecipient
                       (fun _ => Normal (Some (ErrorName 65%N (js "ccountInUse")))))
               (js "userA") (js "userB") (js "dev") (Some (decimal 1 2))
               initialTransferState)) as Hin
    by (vm_compute; tauto).
  split; [exact Hin|].
  exact (proj1 (proj2 (proj2 (confirmation_error_fails_after_submission
                                (withConfirmation Demo.presentRecipient
                                   (fun _ => Normal (Some (ErrorName 65%N
                                                             (js "ccountInUse")))))
                                _ _ _ _ _ _ _ Hin eq_refl))) _ _ eq_refl).
Defined.

(** ** The default amount *)

(** X8.  When [transferUSDC] is called without an amount and
    [NEXT_PUBLIC_TRANSFER_AMOUNT] is set to the empty string, the fallback
    "0.01" is not used: the call throws the missing-variable error, leaves
    [transferState] as it was and makes no external call.  When the variable
    is not set at all, the amount is [Number("0.01")]. *)
Theorem empty_amount_variable_defeats_fallback w a b d st :
  (NEXT_PUBLIC_TRANSFER_AMOUNT w = Some [] ->
   transferUSDC w a b d None st
   = (Throw (ErrorObj
               (js "Missing required environment variable: "
                ++ js "NEXT_PUBLIC_TRANSFER_AMOUNT"
                ++ js ". Please ensure it is set in your .env file and restart the development server.")),
      st))
  /\ (NEXT_PUBLIC_TRANSFER_AMOUNT w = None ->
      resolvedAmount w None = Normal (String_toNumber w (js "0.01"))).
Proof.
  split; intros H.
  - unfold transferUSDC, bind, lift, defaultAmount, requirePublicEnv, assertEnv.
    rewrite H. reflexivity.
  - unfold resolvedAmount, defaultAmount, requirePublicEnv, assertEnv.
    rewrite H. reflexivity.
Qed.

Lemma empty_amount_variable_defeats_fallback_witness :
  fst (transferUSDC (withTransferAmount Demo.presentRecipient (Some []))
         (js "userA") (js "userB") (js "dev") None
         {| hook := initialTransferState; trace := [] |})
  = Throw (ErrorObj
             (js "Missing required environment variable: "
              ++ js "NEXT_PUBLIC_TRANSFER_AMOUNT"
              ++ js ". Please ensure it is set in your .env file and restart the development server."))
  /\ resolvedAmount (withTransferAmount Demo.presentRecipient None) None
     = Normal (decimal 1 2).
Proof.
  split.
  - exact (f_equal fst
             (proj1 (empty_amount_variable_defeats_fallback
                       (withTransferAmount Demo.presentRecipient (Some []))
                       (js "userA") (js "userB") (js "dev")
                       {| hook := initialTransferState; trace := [] |}) eq_refl)).
  - exact (proj2 (empty_amount_variable_defeats_fallback
                    (withTransferAmount Demo.presentRecipient None)
                    (js "userA") (js "userB") (js "dev")
                    {| hook := initialTransferState; trace := [] |}) eq_refl).
Defined.

(** ** The transfer handler *)

(** X9.  [handleTransferUSDC] touches the transfer hook or makes an
    external call only when the connection, the SDK and the three wallet
    addresses are present and the insufficient-USDC flag is not set. *)
Theorem handler_acts_only_when_ready w d amount s st :
  snd (handleTransferUSDC w d amount s st) <> st ->
  connection d = true /\ sdk d = true
  /\ userAWallet d <> [] /\ userBWallet d <> [] /\ devWallet d <> []
  /\ hasInsufficientUSDC s = false.
Proof.
  unfold handleTransferUSDC. intros H.
  destruct (connection d); [|exfalso; apply H; reflexivity].
  destruct (sdk d); [|exfalso; apply H; reflexivity].
  destruct (userAWallet d) as [|c1 r1]; [exfalso; apply H; reflexivity|].
  destruct (userBWallet d) as [|c2 r2]; [exfalso; apply H; reflexivity|].
  destruct (devWallet d) as [|c3 r3]; [exfalso; apply H; reflexivity|].
  destruct (hasInsufficientUSDC s); [exfalso; apply H; reflexivity|].
  repeat split; discriminate.
Qed.

Lemma handler_acts_only_when_ready_witness :
  snd (handleTransferUSDC Demo.presentRecipient Demo.deps (decimal 1 2) initialAppState
         {| hook := initialTransferState; trace := [] |})
  <> {| hook := initialTransferState; trace := [] |}
  /\ connection Demo.deps = true.
Proof.
  assert (snd (handleTransferUSDC Demo.presentRecipient Demo.deps (decimal 1 2)
                 initialAppState {| hook := initialTransferState; trace := [] |})
          <> {| hook := initialTransferState; trace := [] |}) as H
    by (vm_compute; discriminate).
  split; [exact H|].
  exact (proj1 (handler_acts_only_when_ready _ _ _ _ _ H)).
Defined.

(** X10.  The handler stores a transaction id and its Solscan link only
    for a transfer that was submitted and confirmed without error: the id is
    what [sendRawTransaction] answered, the link is
    [https://solscan.io/tx/<id>?cluster=devnet], and the status shown is the
    success message with that id. *)
Theorem transaction_info_only_for_confirmed_transfer w d amount s st info :
  transactionInfo (fst (handleTransferUSDC w d amount s st)) = Some info ->
  transactionInfo s <> Some info ->
  snd info = js "https://solscan.io/tx/" ++ fst info ++ js "?cluster=devnet"
  /\ status (fst (handleTransferUSDC w d amount s st))
     = {| status_message := js "Transfer successful! Transaction: " ++ fst info;
          status_type := successStatus |}
  /\ confirmTransaction w (fst info) = Normal None
  /\ exists raw,
       In (EvSendRawTransaction raw) (trace (snd (handleTransferUSDC w d amount s st)))
       /\ sendRawTransaction w raw = Normal (fst info).
Proof.
  unfold handleTransferUSDC.
  destruct (negb _); [intros H1 H2; exfalso; exact (H2 H1)|].
  destruct (hasInsufficientUSDC s); [intros H1 H2; exfalso; exact (H2 H1)|].
  destruct (transferUSDC w (userAWallet d) (userBWallet d) (devWallet d) (Some amount) st)
    as [out st'] eqn:Hrun.
  exec_in Hrun; subst.
  all: cbn [fst snd transactionInfo setStatus setTimeout res_success res_signature
            status hook trace].
  all: intros H1 H2; try (exfalso; exact (H2 H1)).
  all: injection H1 as <-.
  all: cbn [fst snd].
  all: split; [reflexivity|]; split; [reflexivity|]; split; [assumption|].
  all: eexists; split; [|eassumption].
  all: repeat (apply in_or_app; first [right; left; reflexivity | left]).
Qed.

Lemma transaction_info_only_for_confirmed_transfer_witness :
  transactionInfo
    (fst (handleTransferUSDC Demo.presentRecipient Demo.deps (decimal 1 2)
            initialAppState {| hook := initialTransferState; trace := [] |}))
  = Some (js "txid", js "https://solscan.io/tx/" ++ js "txid" ++ js "?cluster=devnet")
  /\ confirmTransaction Demo.presentRecipient (js "txid") = Normal None.
Proof.
  assert (transactionInfo
            (fst (handleTransferUSDC Demo.presentRecipient Demo.deps (decimal 1 2)
                    initialAppState {| hook := initialTransferState; trace := [] |}))
          = Some (js "txid",
                  js "https://solscan.io/tx/" ++ js "txid" ++ js "?cluster=devnet")) as H1
    by (vm_compute; reflexivity).
  assert (transactionInfo initialAppState
          <> Some (js "txid",
                   js "https://solscan.io/tx/" ++ js "txid" ++ js "?cluster=devnet")) as H2
    by discriminate.
  split; [exact H1|].
  exact (proj1 (proj2 (proj2 (transaction_info_only_for_confirmed_transfer
                                _ _ _ _ _ _ H1 H2)))).
Defined.

(** ** The byte codec on well-formed input *)

Lemma chunks_of_hex_digits : forall (n : nat) (s : jsstring),
  (length s <= n)%nat -> forallb isHexDigit s = true ->
  map (chunkByte s) (seq 0 (length s / 2)) = hexBytes s.
Proof.
  induction n as [|n IH]; intros s Hlen Hall.
  - destruct s; [reflexivity|simpl in Hlen; lia].
  - destruct s as [|c1 [|c2 rest]]; [reflexivity|reflexivity|].
    cbn [forallb] in Hall.
    apply andb_prop in Hall as [H1 Hall]. apply andb_prop in Hall as [H2 Hall].
    assert (length (c1 :: c2 :: rest) / 2 = S (length rest / 2))%nat as ->.
    { cbn [length]. replace (S (S (length rest))) with (1 * 2 + length rest)%nat by lia.
      rewrite Nat.div_add_l by lia. reflexivity. }
    rewrite <- cons_seq, <- fmap_S_seq.
    cbn [map hexBytes]. f_equal.
    + unfold chunkByte, substring. cbn [Nat.mul Nat.add Nat.sub drop take].
      apply hex_pair_value; assumption.
    + change (@fmap list _ nat nat S (seq 0 (length rest / 2)))
        with (map S (seq 0 (length rest / 2))).
      rewrite map_map. rewrite <- (IH rest); [|simpl in Hlen; lia|exact Hall].
      apply map_ext. intros k. unfold chunkByte, substring.
      replace (2 * S k)%nat with (S (S (2 * k))) by lia.
      replace (S (S (2 * k)) + 2 - S (S (2 * k)))%nat with (2 * k + 2 - 2 * k)%nat by lia.
      reflexivity.
Qed.

Lemma hex_digits_have_no_marker s :
  forallb isHexDigit s = true -> startsWith s (js "0x") = false.
Proof.
  intros Hall. change (js "0x") with [48%N; 120%N].
  destruct s as [|c1 [|c2 rest]]; [reflexivity| |].
  - cbn [startsWith]. apply andb_false_r.
  - cbn [forallb] in Hall.
    apply andb_prop in Hall as [_ Hall]. apply andb_prop in Hall as [H2 _].
    apply isHexDigit_small in H2.
    cbn [startsWith]. replace (c2 =? 120)%N with false; [apply andb_false_r|].
    symmetry. apply N.eqb_neq. lia.
Qed.

(** X11.  On a string of hexadecimal digits of either case,
    [hexToUint8Array] returns the bytes the digits write, two digits per
    byte with the high digit first, and returns the same bytes when the
    string is preceded by the marker "0x"; a last digit without a partner is
    dropped. *)
Theorem hexToUint8Array_reads_hex_digits (s : jsstring) :
  forallb isHexDigit s = true ->
  hexToUint8Array s = Normal (hexBytes s)
  /\ hexToUint8Array (js "0x" ++ s) = Normal (hexBytes s).
Proof.
  intros Hall. rewrite !hexToUint8Array_returns.
  assert (cleanHexOf s = s) as ->.
  { unfold cleanHexOf. rewrite hex_digits_have_no_marker by exact Hall. reflexivity. }
  assert (cleanHexOf (js "0x" ++ s) = s) as ->.
  { unfold cleanHexOf. change (js "0x") with [48%N; 120%N]. reflexivity. }
  rewrite (chunks_of_hex_digits (length s) s (le_n _) Hall). split; reflexivity.
Qed.

Lemma hexToUint8Array_reads_hex_digits_witness :
  hexToUint8Array (js "0AfF1") = Normal [10; 255]
  /\ hexToUint8Array (js "0x" ++ js "0AfF1") = Normal [10; 255].
Proof.
  exact (hexToUint8Array_reads_hex_digits (js "0AfF1") eq_refl).
Defined.

(** ** The balance routes and their clients *)

Ltac route_cases :=
  repeat match goal with
         | |- context [http_status ?t] =>
             let c := scrutinee t in destruct c; cbn [negb http_status]
         end;
  try discriminate.

(** X12.  Both balance routes answer 400 exactly for a request whose
    address is missing or falsy, the empty string, or a string that, once
    trimmed, is not 32 to 44 base58 characters; the configuration and the
    RPC play no part in it, and the two routes give the same reply.  An
    address that is truthy but not a string is not answered 400: calling
    [trim] on it throws, and each route answers 500 with its own error text
    and the message of that TypeError as details. *)
Theorem routes_answer_400_for_bad_addresses (w : RouteWorld) (sw : SolRoute.RouteWorld) :
  SolRoute.request_address sw = request_address w ->
  (http_status (POST w) = 400
   <-> exists a, request_address w = Normal a /\ rejectedAddress a = true)
  /\ (http_status (SolRoute.POST sw) = 400 <-> http_status (POST w) = 400)
  /\ (http_status (POST w) = 400 -> SolRoute.POST sw = POST w)
  /\ (request_address w = Normal OtherAddress ->
      POST w = {| http_status := 500;
                  body := RouteError (js "Failed to get USDC balance")
                            (Some (errorMessage (notAFunction w))) |}
      /\ SolRoute.POST sw
         = {| http_status := 500;
              body := RouteError (js "Failed to get Solana balance")
                        (Some (errorMessage (SolRoute.notAFunction sw))) |}).
Proof.
  intros Hreq.
  unfold POST, POST_try, SolRoute.POST, SolRoute.POST_try, rejectedAddress.
  rewrite Hreq.
  destruct (request_address w) as [[|[|c r]|]|e];
    cbn [addressMissing address_trim http_status].
  - split; [|split; [|split]].
    + split; [intros _; eexists; split; reflexivity|intros _; reflexivity].
    + split; intros _; reflexivity.
    + intros _. reflexivity.
    + intros H. discriminate H.
  - split; [|split; [|split]].
    + split; [intros _; eexists; split; reflexivity|intros _; reflexivity].
    + split; intros _; reflexivity.
    + intros _. reflexivity.
    + intros H. discriminate H.
  - destruct (addressShape (trim (c :: r))) eqn:Hshape; cbn [negb http_status].
    + match goal with
      | |- (http_status ?U = 400 <-> _) /\ (http_status ?S = 400 <-> _) /\ _ =>
          assert (http_status U <> 400) as HU
      end.
      { route_cases. }
      match goal with
      | |- (http_status ?U = 400 <-> _) /\ (http_status ?S = 400 <-> _) /\ _ =>
          assert (http_status S <> 400) as HS
      end.
      { route_cases. }
      split; [|split; [|split]].
      * split; [intros H; contradiction|].
        intros [a [Ha Hacc]]. injection Ha as <-.
        rewrite Hshape in Hacc. discriminate Hacc.
      * split; intros H; contradiction.
      * intros H. contradiction.
      * intros H. discriminate H.
    + split; [|split; [|split]].
      * split; [|intros _; reflexivity].
        intros _. eexists. split; [reflexivity|]. cbv beta iota. rewrite Hshape. reflexivity.
      * split; intros _; reflexivity.
      * intros _. reflexivity.
      * intros H. discriminate H.
  - split; [|split; [|split]].
    + split; [intros H; discriminate H|].
      intros [a [Ha Hacc]]. injection Ha as <-. discriminate Hacc.
    + split; intros H; discriminate H.
    + intros H. discriminate H.
    + intros _. split; reflexivity.
  - split; [|split; [|split]].
    + split; [intros H; discriminate H|].
      intros [a [Ha _]]. discriminate Ha.
    + split; intros H; discriminate H.
    + intros H. discriminate H.
    + intros H. discriminate H.
Qed.

Lemma routes_answer_400_for_bad_addresses_witness :
  SolRoute.POST (Sample.solRoute (StringAddress (js "  not an address  ")) 5)
  = POST (Sample.usdcRoute (StringAddress (js "  not an address  ")) [])
  /\ http_status (POST (Sample.usdcRoute (StringAddress (js "  not an address  ")) [])) = 400
  /\ POST (Sample.usdcRoute OtherAddress [])
     = {| http_status := 500;
          body := RouteError (js "Failed to get USDC balance")
                    (Some (js "address.trim is not a function")) |}.
Proof.
  pose proof (routes_answer_400_for_bad_addresses
                (Sample.usdcRoute (StringAddress (js "  not an address  ")) [])
                (Sample.solRoute (StringAddress (js "  not an address  ")) 5) eq_refl)
    as [H1 [_ [H3 _]]].
  assert (http_status (POST (Sample.usdcRoute (StringAddress (js "  not an address  ")) []))
          = 400) as H.
  { apply (proj2 H1). eexists. split; [reflexivity|]. vm_compute. reflexivity. }
  split; [exact (H3 H)|]. split; [exact H|].
  exact (proj1 (proj2 (proj2 (proj2 (routes_answer_400_for_bad_addresses
                                       (Sample.usdcRoute OtherAddress [])
                                       (Sample.solRoute OtherAddress 5) eq_refl)))
                  eq_refl)).
Defined.

Ltac reply_cases :=
  repeat match goal with
         | |- (exists _, ?T = _) \/ _ =>
             let c := scrutinee T in
             lazymatch c with
             | mkRouteResponse _ _ => fail
             | _ => destruct c; cbn [negb]
             end
         end;
  first [left; eexists; reflexivity
        | right; do 3 eexists; split; [reflexivity|]; first [left; reflexivity | right; reflexivity]].

(** The replies of the USDC route: 200 with a balance, or 400 or 500 with
    an error. *)
Lemma POST_replies (w : RouteWorld) :
  (exists balance, POST w = {| http_status := 200; body := BalanceSuccess balance |})
  \/ (exists st err det, POST w = {| http_status := st; body := RouteError err det |}
                         /\ (st = 400 \/ st = 500)).
Proof. unfold POST, POST_try. reply_cases. Qed.

Lemma toFixed5_not_empty ts x : (forall y, ts y <> []) -> toFixed ts x 5 <> [].
Proof.
  intros Hts. unfold toFixed.
  assert (forall (sgn : bool) (a b : jsstring),
             (if sgn then js "-" else []) ++ a ++ js "." ++ b <> []) as Hdot.
  { intros sgn a b H. apply (f_equal (@length _)) in H.
    rewrite !length_app in H. simpl in H. lia. }
  destruct x as [s| s | |s m e]; try (destruct s; discriminate); try discriminate.
  all: cbv zeta;
    match goal with |- (if ?b then _ else _) <> [] => destruct b end;
    [apply Hts|cbn [Nat.eqb]; apply Hdot].
Qed.

(** The replies of the SOL route, when [String(x)] is never empty: 200
    with a non-empty balance, or 400 or 500 with an error. *)
Lemma SolRoute_POST_replies (sw : SolRoute.RouteWorld) :
  (forall y, SolRoute.toStringLarge sw y <> []) ->
  (exists balance, SolRoute.POST sw = {| http_status := 200; body := BalanceSuccess balance |}
                   /\ balance <> [])
  \/ (exists st err det,
         SolRoute.POST sw = {| http_status := st; body := RouteError err det |}
         /\ (st = 400 \/ st = 500)).
Proof.
  intros Hts. unfold SolRoute.POST, SolRoute.POST_try.
  repeat match goal with
         | |- (exists _, ?T = _ /\ _) \/ _ =>
             let c := scrutinee T in
             lazymatch c with
             | mkRouteResponse _ _ => fail
             | _ => destruct c; cbn [negb]
             end
         end;
    first [left; eexists; split; [reflexivity|apply toFixed5_not_empty; exact Hts]
          | right; do 3 eexists; split; [reflexivity|];
            first [left; reflexivity | right; reflexivity]].
Qed.

(** X13.  Through the USDC route, [fetchUSDCBalance] returns a
    label exactly when the route answered 200, and the label is the route's
    balance followed by " USDC"; for every other reply it throws "Unable to
    fetch USDC balance.", so the route's own error text does not reach the
    caller. *)
Theorem usdc_label_needs_a_200_reply (w : RouteWorld) :
  (forall label,
      fetchUSDCBalance (Normal (POST w)) = Normal label
      <-> exists balance,
            POST w = {| http_status := 200; body := BalanceSuccess balance |}
            /\ label = balance ++ js " USDC")
  /\ (forall e, fetchUSDCBalance (Normal (POST w)) = Throw e ->
                e = ErrorObj (js "Unable to fetch USDC balance.")).
Proof.
  destruct (POST_replies w) as [[balance H]|[st [err [det [H Hst]]]]]; rewrite H.
  - split.
    + intros label. split.
      * intros Hl. injection Hl as <-. eexists. split; reflexivity.
      * intros [b [Hb ->]]. injection Hb as <-. reflexivity.
    + intros e He. discriminate He.
  - assert (fetchUSDCBalance (Normal {| http_status := st; body := RouteError err det |})
            = Throw (ErrorObj (js "Unable to fetch USDC balance."))) as Hf
      by (destruct Hst as [-> | ->]; reflexivity).
    rewrite Hf. split.
    + intros label. split; [discriminate|]. intros [b [Hb _]]. discriminate Hb.
    + intros e He. injection He as <-. reflexivity.
Qed.

Lemma usdc_label_needs_a_200_reply_witness :
  fetchUSDCBalance (Normal (POST (Sample.usdcRoute (StringAddress Sample.address) [decimal 125 2])))
  = Normal (js "1.25" ++ js " USDC").
Proof.
  apply (proj1 (usdc_label_needs_a_200_reply
                  (Sample.usdcRoute (StringAddress Sample.address) [decimal 125 2]))).
  exists (js "1.25"). split; vm_compute; reflexivity.
Defined.

(** X14.  Through the SOL route, [fetchSolBalance] returns a label
    exactly when the route answered 200: the balance the route prints is
    never empty, so the truthiness test of the client does not reject it;
    the label is the balance followed by " SOL", and for every other reply
    the client throws "Unable to fetch SOL balance.". *)
Theorem sol_label_needs_a_200_reply (sw : SolRoute.RouteWorld) :
  (forall y, SolRoute.toStringLarge sw y <> []) ->
  (forall label,
      fetchSolBalance (Normal (SolRoute.POST sw)) = Normal label
      <-> exists balance,
            SolRoute.POST sw = {| http_status := 200; body := BalanceSuccess balance |}
            /\ label = balance ++ js " SOL")
  /\ (forall e, fetchSolBalance (Normal (SolRoute.POST sw)) = Throw e ->
                e = ErrorObj (js "Unable to fetch SOL balance.")).
Proof.
  intros Hts.
  destruct (SolRoute_POST_replies sw Hts) as [[balance [H Hne]]|[st [err [det [H Hst]]]]];
    rewrite H.
  - destruct balance as [|c r]; [congruence|]. split.
    + intros label. split.
      * intros Hl. injection Hl as <-. eexists. split; reflexivity.
      * intros [b [Hb ->]]. injection Hb as <-. reflexivity.
    + intros e He. discriminate He.
  - assert (fetchSolBalance (Normal {| http_status := st; body := RouteError err det |})
            = Throw (ErrorObj (js "Unable to fetch SOL balance."))) as Hf
      by (destruct Hst as [-> | ->]; reflexivity).
    rewrite Hf. split.
    + intros label. split; [discriminate|]. intros [b [Hb _]]. discriminate Hb.
    + intros e He. injection He as <-. reflexivity.
Qed.

Lemma sol_label_needs_a_200_reply_witness :
  fetchSolBalance (Normal (SolRoute.POST (Sample.solRoute (StringAddress Sample.address) 1500000000)))
  = Normal (js "1.50000" ++ js " SOL").
Proof.
  assert (forall y, SolRoute.toStringLarge
                      (Sample.solRoute (StringAddress Sample.address) 1500000000) y <> []) as Hts
    by (intros y; discriminate).
  apply (proj1 (sol_label_needs_a_200_reply
                  (Sample.solRoute (StringAddress Sample.address) 1500000000) Hts)).
  exists (js "1.50000"). split; vm_compute; reflexivity.
Defined.

(** ** The balances hook *)

Lemma head_omap_Some {A B} (f : A -> option B) (l : list A) (b : B) :
  head (omap f l) = Some b -> exists a, In a l /\ f a = Some b.
Proof.
  induction l as [|a l IH]; cbn [omap list_omap]; [discriminate|].
  destruct (f a) as [b'|] eqn:Hfa.
  - cbn [head]. intros H. injection H as ->. exists a. split; [left; reflexivity|exact Hfa].
  - intros H. destruct (IH H) as [a' [Hin Ha']]. exists a'. split; [right; exact Hin|exact Ha'].
Qed.

Lemma head_omap_None {A B} (f : A -> option B) (l : list A) :
  head (omap f l) = None -> forall a, In a l -> f a = None.
Proof.
  induction l as [|a l IH]; cbn [omap list_omap]; [intros _ a []|].
  destruct (f a) as [b'|] eqn:Hfa; [discriminate|].
  intros H a' [<-|Hin]; [exact Hfa|exact (IH H a' Hin)].
Qed.

(** [Promise.all] rejects with the reason of one of its promises. *)
Lemma Promise_all_rejects {A} order (results : list (completion A)) e :
  Promise_all order results = Throw e -> In (Throw e) results.
Proof.
  unfold Promise_all. destruct (firstRejection order results) as [e'|] eqn:H; [|discriminate].
  intros He. injection He as ->. unfold firstRejection in H.
  apply head_omap_Some in H as [i [_ Hi]].
  destruct (results !! i) as [[a|e']|] eqn:Hl; try discriminate.
  injection Hi as ->. apply list_elem_of_In. exact (list_elem_of_lookup_2 _ _ _ Hl).
Qed.

(** [Promise.all] resolves when all of its promises do, to their values in
    the order of the array. *)
Lemma Promise_all_resolves {A} order (results : list (completion A)) vals :
  Promise_all order results = Normal vals -> results = map Normal vals.
Proof.
  unfold Promise_all. destruct (firstRejection order results) as [e'|] eqn:H; [discriminate|].
  intros Hv. injection Hv as <-. unfold firstRejection in H.
  assert (forall r, In r results -> exists a, r = Normal a) as Hall.
  { intros r Hin. apply list_elem_of_In, list_elem_of_lookup_1 in Hin as [i Hi].
    pose proof (head_omap_None _ _ H i) as Hn. cbv beta in Hn.
    rewrite Hi in Hn. destruct r as [a|e]; [exists a; reflexivity|].
    assert (In i (order ++ seq 0 (length results))) as Hseq.
    { apply in_or_app. right. apply in_seq. apply lookup_lt_Some in Hi. lia. }
    discriminate (Hn Hseq). }
  clear H. induction results as [|r results IH]; [reflexivity|].
  destruct (Hall r (or_introl eq_refl)) as [a ->].
  cbn [omap list_omap map]. f_equal. apply IH. intros r' Hin. apply Hall. right. exact Hin.
Qed.

(** X15.  A refresh for three known wallets is all or nothing: either
    the six lookups succeed and the cards get the six fetched labels, or the
    call throws the error of one of the lookups and all six labels are
    "Error"; in both cases the cards show "Loading..." first. *)
Theorem refresh_is_all_or_nothing (p : Proxies) (a b d : jsstring) out sets :
  a <> [] -> b <> [] -> d <> [] ->
  refreshBalances p (Some a) (Some b) (Some d) = (out, sets) ->
  (exists aSol bSol dSol aUsdc bUsdc dUsdc,
      fetchSolBalance (fetch_solana_balance p a) = Normal aSol
      /\ fetchSolBalance (fetch_solana_balance p b) = Normal bSol
      /\ fetchSolBalance (fetch_solana_balance p d) = Normal dSol
      /\ fetchUSDCBalance (fetch_usdc_balance p a) = Normal aUsdc
      /\ fetchUSDCBalance (fetch_usdc_balance p b) = Normal bUsdc
      /\ fetchUSDCBalance (fetch_usdc_balance p d) = Normal dUsdc
      /\ out = Normal tt
      /\ sets = [allLabels (js "Loading...");
                 {| userA := Some {| sol := aSol; usdc := aUsdc |};
                    userB := Some {| sol := bSol; usdc := bUsdc |};
                    dev := Some {| sol := dSol; usdc := dUsdc |} |}])
  \/ (exists e,
         out = Throw e
         /\ sets = [allLabels (js "Loading..."); allLabels (js "Error")]
         /\ In (Throw e)
              [fetchSolBalance (fetch_solana_balance p a);
               fetchSolBalance (fetch_solana_balance p b);
               fetchSolBalance (fetch_solana_balance p d);
               fetchUSDCBalance (fetch_usdc_balance p a);
               fetchUSDCBalance (fetch_usdc_balance p b);
               fetchUSDCBalance (fetch_usdc_balance p d)]).
Proof.
  intros Ha Hb Hd.
  destruct a as [|ca ra]; [congruence|].
  destruct b as [|cb rb]; [congruence|].
  destruct d as [|cd rd]; [congruence|].
  unfold refreshBalances. cbn [truthy negb orb or_else].
  destruct (Promise_all _ _) as [vals|e] eqn:Hall.
  - apply Promise_all_resolves in Hall.
    destruct vals as [|v1 [|v2 [|v3 [|v4 [|v5 [|v6 [|v7 vals]]]]]]]; try discriminate Hall.
    cbn [map] in Hall. injection Hall as H1 H2 H3 H4 H5 H6.
    intros H. injection H as <- <-. left.
    exists v1, v2, v3, v4, v5, v6. repeat split; assumption.
  - apply Promise_all_rejects in Hall.
    intros H. injection H as <- <-. right.
    exists e. repeat split. exact Hall.
Qed.

Lemma refresh_is_all_or_nothing_witness :
  refreshBalances (Sample.proxies (js "dev")) (Some (js "userA")) (Some (js "userB"))
    (Some (js "dev"))
  = (Throw (ErrorObj (js "Unable to fetch SOL balance.")),
     [allLabels (js "Loading..."); allLabels (js "Error")]).
Proof.
  assert (js "userA" <> []) as Ha by discriminate.
  assert (js "userB" <> []) as Hb by discriminate.
  assert (js "dev" <> []) as Hd by discriminate.
  destruct (refreshBalances (Sample.proxies (js "dev")) (Some (js "userA"))
              (Some (js "userB")) (Some (js "dev"))) as [out sets] eqn:Hrun.
  destruct (refresh_is_all_or_nothing _ _ _ _ _ _ Ha Hb Hd Hrun)
    as [[aSol [bSol [dSol [aUsdc [bUsdc [dUsdc [_ [_ [H3 _]]]]]]]]]|[e [-> [-> Hin]]]].
  - vm_compute in H3. discriminate H3.
  - vm_compute in Hin.
    repeat (destruct Hin as [Hin|Hin]; [first [discriminate Hin | injection Hin as <-]|]);
      [reflexivity|destruct Hin].
Defined.

Lemma watch_loading cfg s : watchUSDCBalance (Some (js "Loading...")) cfg s = s.
Proof. reflexivity. Qed.

Lemma watch_error cfg s :
  watchUSDCBalance (Some (js "Error")) cfg s = setHasInsufficientUSDC s true.
Proof. reflexivity. Qed.

(** X16.  After a refresh that failed, whichever lookup it was, the
    gate effect sets the insufficient-USDC flag without changing the status
    shown, and the transfer handler then refuses: it reports an error and
    makes no call, whatever the wallets and the amount. *)
Theorem failed_refresh_blocks_the_transfer (p : Proxies) a b d e sets cfg (s : AppState) :
  refreshBalances p a b d = (Throw e, sets) ->
  hasInsufficientUSDC (gateAfter cfg sets s) = true
  /\ status (gateAfter cfg sets s) = status s
  /\ forall w deps amount st,
       snd (handleTransferUSDC w deps amount (gateAfter cfg sets s) st) = st
       /\ status_type (status (fst (handleTransferUSDC w deps amount (gateAfter cfg sets s) st)))
          = errorStatus.
Proof.
  unfold refreshBalances.
  destruct (_ || _); [discriminate|].
  destruct (Promise_all _ _) as [vals|e'].
  { destruct vals as [|v1 [|v2 [|v3 [|v4 [|v5 [|v6 [|v7 vals]]]]]]]; discriminate. }
  intros H. injection H as -> <-.
  unfold gateAfter. cbn [fold_left allLabels userAUsdcLabel userA usdc].
  rewrite watch_loading, watch_error.
  split; [reflexivity|]. split; [reflexivity|].
  intros w deps amount st. unfold handleTransferUSDC.
  destruct (negb _); [split; reflexivity|].
  cbn [hasInsufficientUSDC setHasInsufficientUSDC]. split; reflexivity.
Qed.

Lemma failed_refresh_blocks_the_transfer_witness :
  hasInsufficientUSDC
    (gateAfter (decimal 1 2)
       [allLabels (js "Loading..."); allLabels (js "Error")] initialAppState) = true.
Proof.
  assert (refreshBalances (Sample.proxies (js "dev")) (Some (js "userA")) (Some (js "userB"))
            (Some (js "dev"))
          = (Throw (ErrorObj (js "Unable to fetch SOL balance.")),
             [allLabels (js "Loading..."); allLabels (js "Error")])) as Hrun
    by (vm_compute; reflexivity).
  exact (proj1 (failed_refresh_blocks_the_transfer _ _ _ _ _ _ (decimal 1 2)
                  initialAppState Hrun)).
Defined.

(** X17.  What [handleRefreshBalances] reports agrees with the cards:
    "Balances refreshed successfully!" goes with the six fetched labels, a
    "Failed to refresh balances" message carries the error of one of the
    lookups and goes with six "Error" labels, and when a wallet address is
    not known nothing is fetched and the cards are left alone. *)
Theorem refresh_report_matches_the_cards (p : Proxies) (d : Deps) (s : AppState) :
  (exists aSol bSol dSol aUsdc bUsdc dUsdc,
      status (fst (handleRefreshBalances p d s))
      = {| status_message := js "Balances refreshed successfully!";
           status_type := successStatus |}
      /\ snd (handleRefreshBalances p d s)
         = [allLabels (js "Loading...");
            {| userA := Some {| sol := aSol; usdc := aUsdc |};
               userB := Some {| sol := bSol; usdc := bUsdc |};
               dev := Some {| sol := dSol; usdc := dUsdc |} |}]
      /\ fetchSolBalance (fetch_solana_balance p (userAWallet d)) = Normal aSol
      /\ fetchSolBalance (fetch_solana_balance p (userBWallet d)) = Normal bSol
      /\ fetchSolBalance (fetch_solana_balance p (devWallet d)) = Normal dSol
      /\ fetchUSDCBalance (fetch_usdc_balance p (userAWallet d)) = Normal aUsdc
      /\ fetchUSDCBalance (fetch_usdc_balance p (userBWallet d)) = Normal bUsdc
      /\ fetchUSDCBalance (fetch_usdc_balance p (devWallet d)) = Normal dUsdc)
  \/ (exists e,
         status (fst (handleRefreshBalances p d s))
         = {| status_message := js "Failed to refresh balances: " ++ errorMessage e;
              status_type := errorStatus |}
         /\ snd (handleRefreshBalances p d s)
            = [allLabels (js "Loading..."); allLabels (js "Error")]
         /\ In (Throw e)
              [fetchSolBalance (fetch_solana_balance p (userAWallet d));
               fetchSolBalance (fetch_solana_balance p (userBWallet d));
               fetchSolBalance (fetch_solana_balance p (devWallet d));
               fetchUSDCBalance (fetch_usdc_balance p (userAWallet d));
               fetchUSDCBalance (fetch_usdc_balance p (userBWallet d));
               fetchUSDCBalance (fetch_usdc_balance p (devWallet d))])
  \/ (status (fst (handleRefreshBalances p d s))
      = {| status_message := js "Wallet addresses are not ready yet. Please try again shortly.";
           status_type := errorStatus |}
      /\ snd (handleRefreshBalances p d s) = []
      /\ (userAWallet d = [] \/ userBWallet d = [] \/ devWallet d = [])).
Proof.
  unfold handleRefreshBalances.
  destruct (userAWallet d) as [|ca ra] eqn:Ea;
    [right; right; repeat split; left; reflexivity|].
  destruct (userBWallet d) as [|cb rb] eqn:Eb;
    [right; right; repeat split; right; left; reflexivity|].
  destruct (devWallet d) as [|cd rd] eqn:Ed;
    [right; right; repeat split; right; right; reflexivity|].
  cbn [nonEmpty andb negb].
  unfold refreshBalances. cbn [truthy negb orb or_else].
  destruct (Promise_all _ _) as [vals|e] eqn:Hall.
  - apply Promise_all_resolves in Hall.
    destruct vals as [|v1 [|v2 [|v3 [|v4 [|v5 [|v6 [|v7 vals]]]]]]]; try discriminate Hall.
    cbn [map] in Hall. injection Hall as H1 H2 H3 H4 H5 H6.
    left. exists v1, v2, v3, v4, v5, v6. cbn [fst snd]. repeat split; assumption.
  - apply Promise_all_rejects in Hall.
    right; left. exists e. cbn [fst snd]. repeat split. exact Hall.
Qed.

(** ** Starting the page *)

Lemma assertEnv_not_empty value name fallback s :
  assertEnv value name fallback = Normal s -> s <> [].
Proof.
  unfold assertEnv. destruct value as [[|c r]|]; [discriminate| |].
  - intros H. injection H as <-. discriminate.
  - destruct fallback as [[|c r]|]; try discriminate.
    intros H. injection H as <-. discriminate.
Qed.

Lemma assertEnv_missing value name :
  truthy value = false -> exists e, assertEnv value name None = Throw e.
Proof.
  unfold assertEnv. destruct value as [[|c r]|]; [| discriminate |]; intros _; eexists; reflexivity.
Qed.

Lemma or_else_truthy x : truthy x = true -> or_else x [] <> [] /\ x = Some (or_else x []).
Proof. destruct x as [[|c r]|]; try discriminate. intros _. split; [discriminate|reflexivity]. Qed.

Lemma initializeConnection_done b d d' :
  initializeConnection b d = (Normal tt, d') ->
  connection d' = true /\ sdk d' = sdk d /\ userAWallet d' = userAWallet d
  /\ userBWallet d' = userBWallet d /\ devWallet d' = devWallet d.
Proof.
  unfold initializeConnection.
  destruct (connection d) eqn:Hc.
  { intros H. injection H as <-. repeat split. exact Hc. }
  destruct (negb (window_solanaWeb3 b)); [discriminate|].
  destruct (requirePublicEnv _ _ _); [|discriminate].
  destruct (Connection_new b _); [|discriminate].
  destruct (getVersion b _); [|discriminate].
  intros H. injection H as <-. repeat split.
Qed.

Lemma askUserAWallet_done b d out d' :
  askUserAWallet b d = (out, d') ->
  connection d' = connection d /\ sdk d' = sdk d
  /\ userBWallet d' = userBWallet d /\ devWallet d' = devWallet d
  /\ (userAWallet d' = userAWallet d
      \/ userAWallet d' <> []
         /\ exists r, getWallet b = WalletResolved (Some r)
                      /\ wallet_status r = Some (js "SUCCESS")
                      /\ wallet_solAddress r = Some (userAWallet d')).
Proof.
  unfold askUserAWallet.
  destruct (getWallet b) as [[r|]|e st].
  - destruct (isSuccess (wallet_status r)) eqn:Hs; cbn [andb].
    + destruct (truthy (wallet_solAddress r)) eqn:Ht.
      * intros H. injection H as _ <-. repeat split. right.
        destruct (or_else_truthy _ Ht) as [Hne Heq]. split; [exact Hne|].
        exists r. repeat split; [|exact Heq].
        unfold isSuccess in Hs. destruct (wallet_status r) as [x|]; [|discriminate].
        f_equal. revert Hs. generalize (js "SUCCESS"). clear.
        induction x as [|c x IH]; intros [|c' y]; cbn [jsstring_eqb]; try discriminate;
          [reflexivity|].
        intros H. apply andb_prop in H as [H1 H2]. apply N.eqb_eq in H1 as ->.
        f_equal. exact (IH y H2).
      * intros H. injection H as _ <-. repeat split. left. reflexivity.
    + intros H. injection H as _ <-. repeat split. left. reflexivity.
  - intros H. injection H as _ <-. repeat split. left. reflexivity.
  - destruct (negb _); intros H; injection H as _ <-; repeat split; left; reflexivity.
Qed.

Lemma initializeWallets_done b d d' ini :
  initializeWallets b d = (Normal tt, d', ini) ->
  ini = false /\ connection d' = connection d /\ sdk d' = true
  /\ userBWallet d' <> [] /\ devWallet d' <> []
  /\ (userAWallet d' = userAWallet d
      \/ userAWallet d' <> []
         /\ exists r, getWallet b = WalletResolved (Some r)
                      /\ wallet_status r = Some (js "SUCCESS")
                      /\ wallet_solAddress r = Some (userAWallet d')).
Proof.
  unfold initializeWallets.
  destruct (initializeWallets_try b d) as [out d1] eqn:Hrun.
  intros H. injection H as -> -> <-. split; [reflexivity|].
  revert Hrun. unfold initializeWallets_try.
  destruct (negb (window_MetaKeep b)); [discriminate|].
  destruct (requirePublicEnv (NEXT_PUBLIC_METAKEEP_APP_ID b) _ None); [|discriminate].
  destruct (requirePublicEnv (NEXT_PUBLIC_USER_B_WALLET b) _ None) as [userB|] eqn:HB;
    [|discriminate].
  apply assertEnv_not_empty in HB.
  destruct (MetaKeep_new b _); [|discriminate].
  destruct (fetch_developer_wallet b) as [resp|]; [|discriminate].
  destruct (negb (dev_ok resp)); [discriminate|].
  destruct (dev_json resp) as [data|]; [|discriminate].
  destruct (isSuccess _); cbn [andb]; [|discriminate].
  destruct (truthy (DevWalletRoute.wd_solAddress data)) eqn:Ht; [|discriminate].
  intros Hask. apply askUserAWallet_done in Hask.
  cbn [connection sdk userAWallet userBWallet devWallet setDevWallet setUserBWallet setSdk]
    in Hask.
  destruct Hask as [Hc [Hs [Hb [Hd Ha]]]].
  rewrite Hc, Hs, Hb, Hd. repeat split; try assumption.
  apply or_else_truthy. exact Ht.
Qed.

(** The sender's address on an initialized page. *)
Lemma initializeApp_sender (b : Browser) (p : Page) :
  isInitialized (initializeApp b p) = true ->
  userAWallet (hooks (initializeApp b p)) = userAWallet (hooks p)
  \/ userAWallet (hooks (initializeApp b p)) <> []
     /\ exists r, getWallet b = WalletResolved (Some r)
                  /\ wallet_status r = Some (js "SUCCESS")
                  /\ wallet_solAddress r = Some (userAWallet (hooks (initializeApp b p))).
Proof.
  unfold initializeApp.
  destruct (initializeConnection b (hooks p)) as [[[]|e] d1] eqn:Hc; [|discriminate].
  destruct (initializeWallets b d1) as [[[[]|e] d2] ini] eqn:Hw; [|discriminate].
  intros _. cbn [hooks].
  apply initializeConnection_done in Hc as [_ [_ [Hc3 _]]].
  apply initializeWallets_done in Hw as [_ [_ [_ [_ [_ Hw5]]]]].
  rewrite <- Hc3. exact Hw5.
Qed.

(** X18.  When [initializeApp] leaves the page initialized, the
    connection and the SDK are set, the recipient's and the sponsor's
    addresses are known, [isInitializing] is off and the status is cleared.
    The sender's address is either the one [getWallet] returned with status
    SUCCESS or still what it was before. *)
Theorem initialized_page_is_ready_except_for_the_sender (b : Browser) (p : Page) :
  isInitialized (initializeApp b p) = true ->
  connection (hooks (initializeApp b p)) = true
  /\ sdk (hooks (initializeApp b p)) = true
  /\ userBWallet (hooks (initializeApp b p)) <> []
  /\ devWallet (hooks (initializeApp b p)) <> []
  /\ isInitializing (initializeApp b p) = false
  /\ status (view (initializeApp b p)) = {| status_message := []; status_type := info |}
  /\ (userAWallet (hooks (initializeApp b p)) = userAWallet (hooks p)
      \/ userAWallet (hooks (initializeApp b p)) <> []
         /\ exists r, getWallet b = WalletResolved (Some r)
                      /\ wallet_status r = Some (js "SUCCESS")
                      /\ wallet_solAddress r = Some (userAWallet (hooks (initializeApp b p)))).
Proof.
  unfold initializeApp.
  destruct (initializeConnection b (hooks p)) as [[[]|e] d1] eqn:Hc; [|discriminate].
  destruct (initializeWallets b d1) as [[[[]|e] d2] ini] eqn:Hw; [|discriminate].
  intros _. cbn [hooks isInitializing view status setStatus].
  apply initializeConnection_done in Hc as [Hc1 [_ [Hc3 _]]].
  apply initializeWallets_done in Hw as [-> [Hw1 [Hw2 [Hw3 [Hw4 Hw5]]]]].
  rewrite Hw1, Hc1, <- Hc3. repeat split; assumption.
Qed.

Lemma initialized_page_is_ready_except_for_the_sender_witness :
  userAWallet (hooks (initializeApp (Sample.browser (Some (js "key")) Sample.granted)
                        initialPage)) <> []
  /\ devWallet (hooks (initializeApp (Sample.browser (Some (js "key")) Sample.granted)
                         initialPage)) <> [].
Proof.
  pose proof (initialized_page_is_ready_except_for_the_sender
                (Sample.browser (Some (js "key")) Sample.granted) initialPage eq_refl)
    as [_ [_ [_ [Hd _]]]].
  split; [vm_compute; discriminate|exact Hd].
Defined.

(** X19.  [initializeApp] survives a rejected wallet prompt only when
    the rejection carries the status OPERATION_CANCELLED.  The page then
    counts as initialized while the sender's address is still unknown: no
    balance is fetched, and the transfer handler refuses with the
    missing-details message and makes no call. *)
Theorem cancelled_prompt_leaves_the_sender_unknown (b : Browser) (p : Page) e st :
  getWallet b = WalletRejected e st ->
  isInitialized (initializeApp b p) = true ->
  userAWallet (hooks p) = [] ->
  st = Some (js "OPERATION_CANCELLED")
  /\ userAWallet (hooks (initializeApp b p)) = []
  /\ (forall px, refreshWhenReady px (initializeApp b p) = [])
  /\ forall w amount rs,
       handleTransferUSDC w (hooks (initializeApp b p)) amount (view (initializeApp b p)) rs
       = (setStatus (view (initializeApp b p))
            (js "Missing wallet or connection details. Please initialize the experience again.")
            errorStatus, rs).
Proof.
  intros Hprompt Hinit Hempty.
  pose proof (initializeApp_sender b p Hinit) as Hsender.
  assert (userAWallet (hooks (initializeApp b p)) = []) as HA.
  { destruct Hsender as [H|[_ [r [H _]]]]; [congruence|].
    rewrite Hprompt in H. discriminate H. }
  split; [|split; [exact HA|split]].
  - revert Hinit. unfold initializeApp.
    destruct (initializeConnection b (hooks p)) as [[[]|e1] d1]; [|discriminate].
    unfold initializeWallets.
    destruct (initializeWallets_try b d1) as [out d2] eqn:Hrun.
    destruct out as [[]|e2]; [|discriminate]. intros _.
    revert Hrun. unfold initializeWallets_try.
    repeat match goal with
           | |- (if ?c then _ else _) = _ -> _ => destruct c; [try discriminate|try discriminate]
           | |- match ?c with _ => _ end = _ -> _ =>
               lazymatch c with
               | askUserAWallet _ _ => fail
               | _ => destruct c; [try discriminate|try discriminate]
               end
           end.
    unfold askUserAWallet. rewrite Hprompt.
    destruct st as [s|]; cbn [negb]; [|discriminate].
    destruct (jsstring_eqb s (js "OPERATION_CANCELLED")) eqn:Heq; cbn [negb]; [|discriminate].
    intros _. f_equal. revert Heq. generalize (js "OPERATION_CANCELLED"). clear.
    induction s as [|c x IH]; intros [|c' y]; cbn [jsstring_eqb]; try discriminate;
      [reflexivity|].
    intros H. apply andb_prop in H as [H1 H2]. apply N.eqb_eq in H1 as ->.
    f_equal. exact (IH y H2).
  - intros px. unfold refreshWhenReady. rewrite HA. reflexivity.
  - intros w amount rs. unfold handleTransferUSDC. rewrite HA.
    cbn [nonEmpty]. rewrite andb_false_r. reflexivity.
Qed.

Lemma cancelled_prompt_leaves_the_sender_unknown_witness :
  isInitialized (initializeApp (Sample.browser (Some (js "key")) Sample.cancelled) initialPage)
  = true
  /\ userAWallet (hooks (initializeApp (Sample.browser (Some (js "key")) Sample.cancelled)
                           initialPage)) = [].
Proof.
  split; [reflexivity|].
  exact (proj1 (proj2 (cancelled_prompt_leaves_the_sender_unknown
                         (Sample.browser (Some (js "key")) Sample.cancelled) initialPage
                         _ _ eq_refl eq_refl eq_refl))).
Defined.

(** X20.  Without [METAKEEP_API_KEY] on the server the
    developer-wallet route answers 500, and [initializeApp] then never
    reaches the initialized state: it shows an error and the sponsor's
    address stays what it was. *)
Theorem missing_api_key_fails_initialization (b : Browser) (p : Page) key upstream :
  truthy key = false ->
  fetch_developer_wallet b
  = Normal (asDevResponse
              (DevWalletRoute.POST
                 {| DevWalletRoute.METAKEEP_API_KEY := key;
                    DevWalletRoute.fetch_getDeveloperWallet := upstream |})) ->
  isInitialized (initializeApp b p) = false
  /\ devWallet (hooks (initializeApp b p)) = devWallet (hooks p)
  /\ status_type (status (view (initializeApp b p))) = errorStatus.
Proof.
  intros Hkey Hfetch.
  assert (fetch_developer_wallet b
          = Normal {| dev_ok := false;
                      dev_json :=
                        Normal {| DevWalletRoute.wd_status := None;
                                  DevWalletRoute.wd_solAddress := None;
                                  DevWalletRoute.wd_error :=
                                    Some (js "Failed to fetch developer wallet") |} |}) as Hdev.
  { rewrite Hfetch. unfold DevWalletRoute.POST, DevWalletRoute.POST_try, requireServerEnv.
    cbn [DevWalletRoute.METAKEEP_API_KEY].
    destruct (assertEnv_missing key (js "METAKEEP_API_KEY") Hkey) as [e ->]. reflexivity. }
  clear Hfetch. unfold initializeApp.
  destruct (initializeConnection b (hooks p)) as [[[]|e] d1] eqn:Hc.
  - apply initializeConnection_done in Hc as [_ [_ [_ [_ Hd]]]].
    unfold initializeWallets, initializeWallets_try. rewrite Hdev. cbn [dev_ok negb].
    destruct (negb (window_MetaKeep b));
      [|destruct (requirePublicEnv (NEXT_PUBLIC_METAKEEP_APP_ID b) _ None);
        [destruct (requirePublicEnv (NEXT_PUBLIC_USER_B_WALLET b) _ None);
         [destruct (MetaKeep_new b _)|]|]];
      repeat split;
      cbn [hooks initializationFailed devWallet setUserBWallet setSdk]; exact Hd.
  - assert (d1 = hooks p) as ->.
    { revert Hc. unfold initializeConnection.
      repeat match goal with
             | |- context [if ?c then _ else _] => destruct c
             | |- context [match ?c with Normal _ => _ | Throw _ => _ end] => destruct c
             end; intros H; first [discriminate H | injection H as _ <-; reflexivity]. }
    repeat split.
Qed.

Lemma missing_api_key_fails_initialization_witness :
  isInitialized (initializeApp (Sample.browser None Sample.granted) initialPage) = false
  /\ status (view (initializeApp (Sample.browser None Sample.granted) initialPage))
     = {| status_message := js "Initialization failed: "
                            ++ js "Unable to fetch developer wallet from MetaKeep.";
          status_type := errorStatus |}.
Proof.
  split; [|vm_compute; reflexivity].
  exact (proj1 (missing_api_key_fails_initialization
                  (Sample.browser None Sample.granted) initialPage None
                  (DevWalletRoute.fetch_getDeveloperWallet (Sample.devWalletRoute None))
                  eq_refl eq_refl)).
Defined.

(** ** The signing proxy in the transfer *)

(** An attempt whose signing proxy answers every request with a response
    that is not OK. *)
Lemma refusing_proxy_submits_nothing w a b d amt h :
  (forall req, exists r, fetch_metakeep_sign w req = Normal r /\ ok r = false) ->
  (exists e, outcome w a b d amt h = Throw e)
  /\ submitted (events w a b d amt h) = []
  /\ (forall body, In (EvMetakeepSign body) (events w a b d amt h) ->
        outcome w a b d amt h
        = Throw (ErrorObj (js "Failed to create User B USDC token account."))
        \/ outcome w a b d amt h = Throw (ErrorObj (js "Developer signing request failed."))).
Proof.
  intros Hp. unfold outcome, events.
  destruct (attempt w a b d amt h) as [out st'] eqn:Hrun. cbn [fst snd].
  unfold attempt in Hrun.
  exec_in Hrun; subst.
  all: repeat match goal with
              | Hf : fetch_metakeep_sign _ ?req = _ |- _ =>
                  let r' := fresh "r" in
                  let Hr := fresh "Hr" in
                  let Hok := fresh "Hok" in
                  destruct (Hp req) as [r' [Hr Hok]];
                  rewrite Hr in Hf; clear Hr;
                  first [discriminate Hf | injection Hf as <-];
                  try (rewrite Hok in *; cbn [negb] in *; discriminate)
              end.
  all: split; [eexists; reflexivity|].
  all: split; [reflexivity|].
  all: intros body Hin.
  all: first [left; reflexivity | right; reflexivity | find_event Hin].
Qed.

(** X21.  Without [METAKEEP_API_KEY] on the server the signing route
    answers 500 to every request, and a transfer attempt through it throws
    and submits nothing; once the route has been asked, the error is the
    setup or the sponsor-signing message of the hook, not the route's. *)
Theorem missing_api_key_nothing_is_submitted w key metakeep a b d amt h :
  truthy key = false ->
  (exists e,
      outcome (withSignProxy w (SignRoute.fetch_via_route key metakeep)) a b d amt h = Throw e)
  /\ submitted (events (withSignProxy w (SignRoute.fetch_via_route key metakeep)) a b d amt h)
     = []
  /\ (forall body,
        In (EvMetakeepSign body)
          (events (withSignProxy w (SignRoute.fetch_via_route key metakeep)) a b d amt h) ->
        outcome (withSignProxy w (SignRoute.fetch_via_route key metakeep)) a b d amt h
        = Throw (ErrorObj (js "Failed to create User B USDC token account."))
        \/ outcome (withSignProxy w (SignRoute.fetch_via_route key metakeep)) a b d amt h
           = Throw (ErrorObj (js "Developer signing request failed."))).
Proof.
  intros Hkey. apply refusing_proxy_submits_nothing.
  intros req. cbn [fetch_metakeep_sign withSignProxy].
  unfold SignRoute.fetch_via_route, SignRoute.POST, SignRoute.POST_try, requireServerEnv.
  cbn [SignRoute.METAKEEP_API_KEY].
  destruct (assertEnv_missing key (js "METAKEEP_API_KEY") Hkey) as [e ->].
  eexists. split; reflexivity.
Qed.

Lemma missing_api_key_nothing_is_submitted_witness :
  outcome (withSignProxy Demo.presentRecipient (SignRoute.fetch_via_route None Sample.metakeep))
    (js "userA") (js "userB") (js "dev") (Some (decimal 1 2)) initialTransferState
  = Throw (ErrorObj (js "Developer signing request failed."))
  /\ submitted
       (events (withSignProxy Demo.presentRecipient
                  (SignRoute.fetch_via_route None Sample.metakeep))
          (js "userA") (js "userB") (js "dev") (Some (decimal 1 2)) initialTransferState)
     = [].
Proof.
  split; [vm_compute; reflexivity|].
  exact (proj1 (proj2 (missing_api_key_nothing_is_submitted Demo.presentRecipient None
                         Sample.metakeep (js "userA") (js "userB") (js "dev")
                         (Some (decimal 1 2)) initialTransferState eq_refl))).
Defined.

(** ** The transfer button *)

(** X22.  The transfer button prints the text of
    [NEXT_PUBLIC_TRANSFER_AMOUNT] while the page transfers
    [Number(text) || 0.01]: when the text reads as 0 or is not a number, the
    button shows the text and the transfer is of 0.01 USDC, 10000 base
    units; when the variable is not set both are 0.01. *)
Theorem cta_label_shows_the_variable_not_the_amount (w : World) :
  (forall text,
      NEXT_PUBLIC_TRANSFER_AMOUNT w = Some text ->
      Number_truthy (String_toNumber w text) = false ->
      ActionButtons.transferCtaLabel w false false
      = js "Transfer " ++ text ++ js " USDC (A " ++ [8594%N] ++ js " B)"
      /\ transferAmount (configuredTransferAmount w) = Number_of_Z 10000)
  /\ (NEXT_PUBLIC_TRANSFER_AMOUNT w = None ->
      ActionButtons.transferCtaLabel w false false
      = js "Transfer " ++ js "0.01" ++ js " USDC (A " ++ [8594%N] ++ js " B)"
      /\ transferAmount (configuredTransferAmount w) = Number_of_Z 10000).
Proof.
  assert (transferAmount (decimal 1 2) = Number_of_Z 10000) as Hunits
    by (vm_compute; reflexivity).
  unfold ActionButtons.transferCtaLabel, ActionButtons.configuredTransferAmount,
    configuredTransferAmount.
  split.
  - intros text -> Hfalsy. rewrite Hfalsy. split; [reflexivity|exact Hunits].
  - intros ->. split; [reflexivity|exact Hunits].
Qed.

Lemma cta_label_shows_the_variable_not_the_amount_witness :
  ActionButtons.transferCtaLabel (withTransferAmount Demo.presentRecipient (Some (js "0")))
    false false
  = js "Transfer " ++ js "0" ++ js " USDC (A " ++ [8594%N] ++ js " B)"
  /\ transferAmount
       (configuredTransferAmount (withTransferAmount Demo.presentRecipient (Some (js "0"))))
     = Number_of_Z 10000.
Proof.
  apply (proj1 (cta_label_shows_the_variable_not_the_amount
                  (withTransferAmount Demo.presentRecipient (Some (js "0"))))).
  - reflexivity.
  - vm_compute. reflexivity.
Defined.
